(** * Surface classification and axis extraction of the Rhino BREP scripts

    A shallow embedding of the four scripts of the repository

      - [01_analyze_brep.py]          (face statistics of a Brep),
      - [02_check_surface.py]         (inspection of one surface),
      - [03_create_line_cylinder.py]  (axis line of one cylinder),
      - [04_batch_process_surfaces.py] (axis lines for a selection),

    together with the properties their specification states about them.

    Python floats are IEEE binary64 numbers; they are modelled by Rocq's
    primitive floats, so that every arithmetic expression of the scripts
    is evaluated as the interpreter evaluates it.  Python integers are
    modelled by [Z].  An uncaught Python exception ends a script; it is
    modelled by the [Raise] outcome of the [result] type. *)

From Stdlib Require Import Floats ZArith List String Bool Lia Permutation.
Import ListNotations.

Set Implicit Arguments.

(* Decimal literals such as 3.2 and 2.5 denote the nearest binary64 value,
   exactly as they do in Python. *)
#[local] Set Warnings "-inexact-float".

(* ------------------------------------------------------------------ *)
(** ** Uncaught exceptions *)

Inductive exn : Type :=
| IndexError       (* [geo.Faces[i]] outside the face list *)
| AttributeError.  (* a method the object does not have *)

Inductive result (A : Type) : Type :=
| Ok (a : A)
| Raise (e : exn).

Arguments Ok {A} a.
Arguments Raise {A} e.

Definition bind {A B : Type} (m : result A) (k : A -> result B) : result B :=
  match m with
  | Ok a => k a
  | Raise e => Raise e
  end.

Notation "x <- m ;; k" := (bind m (fun x => k))
  (at level 61, m at next level, right associativity).

(** Calling a method that [hasattr] would report missing. *)
Definition getattr {A : Type} (attr : option A) : result A :=
  match attr with
  | Some a => Ok a
  | None => Raise AttributeError
  end.

(* ------------------------------------------------------------------ *)
(** ** Geometric primitives (RhinoCommon value types) *)

Module Point3d.
Record t : Type := new { X : float; Y : float; Z : float }.
End Point3d.

Module Vector3d.
Record t : Type := new { X : float; Y : float; Z : float }.
End Vector3d.

Module Interval.
Record t : Type := new { Min : float; Max : float }.
End Interval.

Module Cylinder.
Record t : Type := new
  { Center : Point3d.t; Axis : Vector3d.t; Radius : float }.
End Cylinder.

Module Cone.
Record t : Type := new
  { ApexPoint : Point3d.t; Axis : Vector3d.t;
    Radius : float; AngleInDegrees : float }.
End Cone.

Module Sphere.
Record t : Type := new { Center : Point3d.t; Radius : float }.
End Sphere.

(** The overloaded operators the scripts apply to points and vectors;
    each acts coordinate by coordinate. *)
Module Geom.
Local Open Scope float_scope.

(** [p - q] on two points is the vector from [q] to [p]. *)
Definition point_sub (p q : Point3d.t) : Vector3d.t :=
  Vector3d.new (Point3d.X p - Point3d.X q)
               (Point3d.Y p - Point3d.Y q)
               (Point3d.Z p - Point3d.Z q).

(** [p + v]. *)
Definition point_add_vec (p : Point3d.t) (v : Vector3d.t) : Point3d.t :=
  Point3d.new (Point3d.X p + Vector3d.X v)
              (Point3d.Y p + Vector3d.Y v)
              (Point3d.Z p + Vector3d.Z v).

(** [p - v]. *)
Definition point_sub_vec (p : Point3d.t) (v : Vector3d.t) : Point3d.t :=
  Point3d.new (Point3d.X p - Vector3d.X v)
              (Point3d.Y p - Vector3d.Y v)
              (Point3d.Z p - Vector3d.Z v).

(** [v * k]. *)
Definition vec_scale (v : Vector3d.t) (k : float) : Vector3d.t :=
  Vector3d.new (Vector3d.X v * k) (Vector3d.Y v * k) (Vector3d.Z v * k).
End Geom.

(* ------------------------------------------------------------------ *)
(** ** Geometry objects handed over by the host *)

(** Anything [rs.coercesurface] returns, or [face.UnderlyingSurface()].
    The scripts probe [PointAt], [Domain] and [IsPlanar] with [hasattr]
    before they use them on such an object, so these three are optional;
    [None] is an object without the method. *)
Record Surface : Type := {
  GetType_Name   : string;                            (* GetType().Name *)
  TryGetCylinder : bool * Cylinder.t;
  TryGetCone     : bool * Cone.t;
  TryGetSphere   : bool * Sphere.t;
  PointAt        : option (float -> float -> Point3d.t);
  Domain         : option (Z -> Interval.t);
  IsPlanar       : option bool                        (* value of IsPlanar() *)
}.

(** A face of a Brep: it always has a domain, point evaluation and the
    planarity test, and it knows the surface it is trimmed from. *)
Record BrepFace : Type := {
  face_PointAt      : float -> float -> Point3d.t;
  face_Domain       : Z -> Interval.t;
  face_IsPlanar     : bool;
  UnderlyingSurface : Surface
}.

Record Brep : Type := { Faces : list BrepFace }.

(** A selected document object, as seen through [rs.ObjectType],
    [rs.coercebrep] and [rs.coercesurface]. *)
Record DocObject : Type := {
  ObjectType    : Z;
  coercebrep    : option Brep;
  coercesurface : option Surface
}.

(** What the variable [face] of scripts 02-04 holds when it is not
    [None]: an object with [PointAt], be it a Brep face or a surface. *)
Record FaceLike : Type := {
  fl_PointAt  : float -> float -> Point3d.t;
  fl_Domain   : option (Z -> Interval.t);
  fl_IsPlanar : option bool
}.

(** [face = geo.Faces[0]] *)
Definition face_of_brepface (f : BrepFace) : FaceLike :=
  {| fl_PointAt := face_PointAt f;
     fl_Domain := Some (face_Domain f);
     fl_IsPlanar := Some (face_IsPlanar f) |}.

(** [face = geo if hasattr(geo, 'PointAt') else None] *)
Definition face_of_surface (geo : Surface) : option FaceLike :=
  match PointAt geo with
  | Some pt => Some {| fl_PointAt := pt;
                       fl_Domain := Domain geo;
                       fl_IsPlanar := IsPlanar geo |}
  | None => None
  end.

(** [geo.Faces[i]] *)
Definition Faces_item (geo : Brep) (i : nat) : result BrepFace :=
  match nth_error (Faces geo) i with
  | Some f => Ok f
  | None => Raise IndexError
  end.

(* ------------------------------------------------------------------ *)
(** ** Script 01: face statistics of a Brep *)

Module AnalyzeBrep.
Local Open Scope Z_scope.

Record Counters : Type := {
  cylinders : Z;
  cones     : Z;
  planes    : Z;
  nurbs     : Z;
  others    : Z;
  cylinders_above_threshold : Z
}.

Definition DIAMETER_THRESHOLD : float := 3.2%float.

Definition initial : Counters :=
  {| cylinders := 0; cones := 0; planes := 0; nurbs := 0; others := 0;
     cylinders_above_threshold := 0 |}.

(** [name in ["NurbsSurface", "SumSurface", "RevSurface"]] *)
Definition is_nurbs_name (name : string) : bool :=
  existsb (String.eqb name) ["NurbsSurface"; "SumSurface"; "RevSurface"]%string.

(** The body of the face loop, without the progress line it prints
    every hundred faces. *)
Definition count_face (face : BrepFace) (c : Counters) : Counters :=
  let surf := UnderlyingSurface face in
  let '(is_cyl, cyl) := TryGetCylinder surf in
  let '(is_cone, _) := TryGetCone surf in
  let is_planar := face_IsPlanar face in
  if is_cyl then
    let c1 := {| cylinders := cylinders c + 1; cones := cones c;
                 planes := planes c; nurbs := nurbs c; others := others c;
                 cylinders_above_threshold := cylinders_above_threshold c |} in
    let diameter := (Cylinder.Radius cyl * 2)%float in
    if (DIAMETER_THRESHOLD <? diameter)%float then
      {| cylinders := cylinders c1; cones := cones c1;
         planes := planes c1; nurbs := nurbs c1; others := others c1;
         cylinders_above_threshold := cylinders_above_threshold c1 + 1 |}
    else c1
  else if is_cone then
    {| cylinders := cylinders c; cones := cones c + 1;
       planes := planes c; nurbs := nurbs c; others := others c;
       cylinders_above_threshold := cylinders_above_threshold c |}
  else if is_planar then
    {| cylinders := cylinders c; cones := cones c;
       planes := planes c + 1; nurbs := nurbs c; others := others c;
       cylinders_above_threshold := cylinders_above_threshold c |}
  else if is_nurbs_name (GetType_Name surf) then
    {| cylinders := cylinders c; cones := cones c;
       planes := planes c; nurbs := nurbs c + 1; others := others c;
       cylinders_above_threshold := cylinders_above_threshold c |}
  else
    {| cylinders := cylinders c; cones := cones c;
       planes := planes c; nurbs := nurbs c; others := others c + 1;
       cylinders_above_threshold := cylinders_above_threshold c |}.

(** [for face_idx in range(total_faces): face = geo.Faces[face_idx] ...] *)
Fixpoint face_loop (geo : Brep) (indices : list nat) (c : Counters)
  : result Counters :=
  match indices with
  | [] => Ok c
  | face_idx :: rest =>
      face <- Faces_item geo face_idx ;;
      face_loop geo rest (count_face face c)
  end.

Definition analyze (geo : Brep) : result Counters :=
  let total_faces := List.length (Faces geo) in
  face_loop geo (seq 0 total_faces) initial.

(** The printed total. *)
Definition total (c : Counters) : Z :=
  cylinders c + cones c + planes c + nurbs c + others c.

(** The whole script: [None] when nothing is analysed (empty selection,
    an object that is not of type 16, or one that is not a Brep). *)
Definition main (sel : list DocObject) : result (option Counters) :=
  match sel with
  | [] => Ok None
  | obj :: _ =>
      if ObjectType obj =? 16 then
        match coercebrep obj with
        | Some geo => c <- analyze geo ;; Ok (Some c)
        | None => Ok None
        end
      else Ok None
  end.
End AnalyzeBrep.

(* ------------------------------------------------------------------ *)
(** ** Script 02: inspection of one surface *)

Module CheckSurface.
Local Open Scope Z_scope.

(** The verdict printed after [SUMMARY:]. *)
Inductive Summary : Type :=
| CONE
| CYLINDER
| PLANE
| COMPLEX_SURFACE (surf_type : string).

(** What the script reports about the geometry, in printing order.  A
    fit that succeeded is reported with its parameters ([Some]), one
    that failed as [None].  The colour, the layer, the bounding box and
    the closedness and degree of a spline surface are printed as well;
    they take no part in any decision and are left out. *)
Record Report : Type := {
  faces_in_brep : option Z;
  surface_class : string;
  cylinder_line : option Cylinder.t;
  cone_line     : option Cone.t;
  sphere_line   : option Sphere.t;
  plane_line    : bool;
  face_center   : option Point3d.t;
  SUMMARY       : Summary
}.

(** Everything from [surf_type = surf.GetType().Name] to the summary. *)
Definition describe (count : option Z) (surf : Surface)
           (face : option FaceLike) : Report :=
  let surf_type := GetType_Name surf in
  let '(is_cyl, cyl) := TryGetCylinder surf in
  let '(is_cone, cone) := TryGetCone surf in
  let '(is_sphere, sphere) := TryGetSphere surf in
  (* face.IsPlanar() if face and hasattr(face, 'IsPlanar') else False *)
  let is_planar :=
    match face with
    | Some f => match fl_IsPlanar f with Some b => b | None => false end
    | None => false
    end in
  (* if face and hasattr(face, 'Domain') *)
  let center :=
    match face with
    | Some f =>
        match fl_Domain f with
        | Some dom =>
            let u := ((Interval.Min (dom 0%Z) + Interval.Max (dom 0%Z)) / 2)%float in
            let v := ((Interval.Min (dom 1%Z) + Interval.Max (dom 1%Z)) / 2)%float in
            Some (fl_PointAt f u v)
        | None => None
        end
    | None => None
    end in
  {| faces_in_brep := count;
     surface_class := surf_type;
     cylinder_line := if is_cyl then Some cyl else None;
     cone_line := if is_cone then Some cone else None;
     sphere_line := if is_sphere then Some sphere else None;
     plane_line := is_planar;
     face_center := center;
     SUMMARY :=
       if is_cone then CONE
       else if is_cyl then CYLINDER
       else if is_planar then PLANE
       else COMPLEX_SURFACE surf_type |}.

(** The whole script; [None] when no geometry is examined. *)
Definition main (sel : list DocObject) : result (option Report) :=
  match sel with
  | [] => Ok None
  | obj :: _ =>
      let t := ObjectType obj in
      if (t =? 8) || (t =? 16) then
        if t =? 16 then
          match coercebrep obj with
          | Some geo =>
              (* t == 16 and hasattr(geo, 'Faces') *)
              let count := Z.of_nat (List.length (Faces geo)) in
              face <- Faces_item geo 0 ;;
              let surf := UnderlyingSurface face in
              Ok (Some (describe (Some count) surf
                                 (Some (face_of_brepface face))))
          | None => Ok None
          end
        else
          match coercesurface obj with
          | Some geo => Ok (Some (describe None geo (face_of_surface geo)))
          | None => Ok None
          end
      else Ok None
  end.
End CheckSurface.

(* ------------------------------------------------------------------ *)
(** ** The annotation sink

    [rs.AddLine] and [rs.ObjectColor] belong to the host.  The scripts
    only see whether [rs.AddLine] hands back a line; the host is a
    function from the two end points to the identifier of the new line,
    or to nothing.  The calls a script makes are recorded in order. *)

Definition Guid : Type := Z.

Inductive SinkCall : Type :=
| CallAddLine (s e : Point3d.t)
| CallObjectColor (ln : Guid) (color : list Z).

(** [True] for the calls of [rs.AddLine]. *)
Definition is_AddLine (c : SinkCall) : bool :=
  match c with
  | CallAddLine _ _ => true
  | CallObjectColor _ _ => false
  end.

Definition is_ObjectColor (c : SinkCall) : bool :=
  match c with
  | CallAddLine _ _ => false
  | CallObjectColor _ _ => true
  end.

(* ------------------------------------------------------------------ *)
(** ** Script 03: the axis line of one cylinder *)

Module CreateLineCylinder.
Local Open Scope Z_scope.

Section WithSink.
Variable AddLine : Point3d.t -> Point3d.t -> option Guid.

(** From [is_cyl, cyl = surf.TryGetCylinder()] on, up to the colouring of
    the line.  The length of the line, which the script prints last, is
    left out. *)
Definition create_line (surf : Surface) (face : option FaceLike)
  : result (list SinkCall) :=
  let '(is_cyl, cyl) := TryGetCylinder surf in
  match face with
  | Some face =>
      if is_cyl then
        let axis := Cylinder.Axis cyl in
        let cyl_center := Cylinder.Center cyl in
        Domain <- getattr (fl_Domain face) ;;
        let u_mid :=
          ((Interval.Min (Domain 0%Z) + Interval.Max (Domain 0%Z)) / 2)%float in
        let v_min := Interval.Min (Domain 1) in
        let v_max := Interval.Max (Domain 1) in
        let p1 := fl_PointAt face u_mid v_min in
        let p2 := fl_PointAt face u_mid v_max in
        let v1 := Geom.point_sub p1 cyl_center in
        let v2 := Geom.point_sub p2 cyl_center in
        let t1 := (Vector3d.X v1 * Vector3d.X axis
                   + Vector3d.Y v1 * Vector3d.Y axis
                   + Vector3d.Z v1 * Vector3d.Z axis)%float in
        let t2 := (Vector3d.X v2 * Vector3d.X axis
                   + Vector3d.Y v2 * Vector3d.Y axis
                   + Vector3d.Z v2 * Vector3d.Z axis)%float in
        let start := Geom.point_add_vec cyl_center (Geom.vec_scale axis t1) in
        let end_ := Geom.point_add_vec cyl_center (Geom.vec_scale axis t2) in
        match AddLine start end_ with
        | Some ln =>
            Ok [CallAddLine start end_; CallObjectColor ln [0; 255; 0]]
        | None => Ok [CallAddLine start end_]
        end
      else Ok []
  | None => Ok []
  end.

Definition main (sel : list DocObject) : result (list SinkCall) :=
  match sel with
  | [] => Ok []
  | obj :: _ =>
      if ObjectType obj =? 16 then
        match coercebrep obj with
        | Some geo =>
            (* rs.ObjectType(obj) == 16 and hasattr(geo, 'Faces') *)
            face <- Faces_item geo 0 ;;
            create_line (UnderlyingSurface face)
                        (Some (face_of_brepface face))
        | None => Ok []
        end
      else
        match coercesurface obj with
        | Some geo => create_line geo (face_of_surface geo)
        | None => Ok []
        end
  end.
End WithSink.
End CreateLineCylinder.

(* ------------------------------------------------------------------ *)
(** ** Script 04: axis lines for every selected surface *)

Module BatchProcess.
Local Open Scope Z_scope.

(** The type line printed for a surface. *)
Inductive Verdict : Type :=
| CONE        (* "CONE!" *)
| CYLINDER    (* "CYLINDER" *)
| OTHER_TYPE. (* "Other type" *)

Record State : Type := {
  lines_created : Z;
  printed       : list Verdict;   (* verdicts, oldest first *)
  calls         : list SinkCall   (* sink calls, oldest first *)
}.

Definition initial : State :=
  {| lines_created := 0; printed := []; calls := [] |}.

Section WithSink.
Variable AddLine : Point3d.t -> Point3d.t -> option Guid.

(** [ln = rs.AddLine(s, e)] followed by
    [if ln: rs.ObjectColor(ln, color); lines_created += 1]. *)
Definition add_colored_line (s e : Point3d.t) (color : list Z)
           (v : Verdict) (st : State) : State :=
  match AddLine s e with
  | Some ln =>
      {| lines_created := lines_created st + 1;
         printed := printed st ++ [v];
         calls := calls st ++ [CallAddLine s e; CallObjectColor ln color] |}
  | None =>
      {| lines_created := lines_created st;
         printed := printed st ++ [v];
         calls := calls st ++ [CallAddLine s e] |}
  end.

(** From [surf_type = surf.GetType().Name] to the end of the loop body. *)
Definition annotate (surf : Surface) (face : option FaceLike) (st : State)
  : result State :=
  let '(is_cyl, cyl) := TryGetCylinder surf in
  let '(is_cone, cone) := TryGetCone surf in
  if is_cone then
    (* if face and hasattr(face, 'Domain') ... else c = cone.ApexPoint *)
    let c :=
      match face with
      | Some f =>
          match fl_Domain f with
          | Some Domain =>
              let u := ((Interval.Min (Domain 0%Z) + Interval.Max (Domain 0%Z)) / 2)%float in
              let v := ((Interval.Min (Domain 1%Z) + Interval.Max (Domain 1%Z)) / 2)%float in
              fl_PointAt f u v
          | None => Cone.ApexPoint cone
          end
      | None => Cone.ApexPoint cone
      end in
    let ax := Cone.Axis cone in
    let s := Geom.point_sub_vec c (Geom.vec_scale ax 2.5%float) in
    let e := Geom.point_add_vec c (Geom.vec_scale ax 2.5%float) in
    Ok (add_colored_line s e [255; 0; 0] CONE st)
  else if is_cyl then
    match face with
    | Some face =>
        Domain <- getattr (fl_Domain face) ;;
        let u_mid :=
          ((Interval.Min (Domain 0%Z) + Interval.Max (Domain 0%Z)) / 2)%float in
        let axis := Cylinder.Axis cyl in
        let cyl_center := Cylinder.Center cyl in
        let v_min := Interval.Min (Domain 1) in
        let v_max := Interval.Max (Domain 1) in
        let p1 := fl_PointAt face u_mid v_min in
        let p2 := fl_PointAt face u_mid v_max in
        let v1 := Geom.point_sub p1 cyl_center in
        let v2 := Geom.point_sub p2 cyl_center in
        let t1 := (Vector3d.X v1 * Vector3d.X axis
                   + Vector3d.Y v1 * Vector3d.Y axis
                   + Vector3d.Z v1 * Vector3d.Z axis)%float in
        let t2 := (Vector3d.X v2 * Vector3d.X axis
                   + Vector3d.Y v2 * Vector3d.Y axis
                   + Vector3d.Z v2 * Vector3d.Z axis)%float in
        let s := Geom.point_add_vec cyl_center (Geom.vec_scale axis t1) in
        let e := Geom.point_add_vec cyl_center (Geom.vec_scale axis t2) in
        Ok (add_colored_line s e [0; 255; 0] CYLINDER st)
    | None =>
        Ok {| lines_created := lines_created st;
              printed := printed st ++ [CYLINDER];
              calls := calls st |}
    end
  else
    Ok {| lines_created := lines_created st;
          printed := printed st ++ [OTHER_TYPE];
          calls := calls st |}.

(** The body of [for idx, obj in enumerate(sel, 1)]. *)
Definition process (obj : DocObject) (st : State) : result State :=
  let t := ObjectType obj in
  if (t =? 8) || (t =? 16) then
    if t =? 16 then
      match coercebrep obj with
      | Some geo =>
          (* t == 16 and hasattr(geo, 'Faces') and geo.Faces.Count > 0 *)
          if Z.of_nat (List.length (Faces geo)) >? 0 then
            face <- Faces_item geo 0 ;;
            annotate (UnderlyingSurface face)
                     (Some (face_of_brepface face)) st
          else
            (* surf = geo is the Brep itself, which has no
               TryGetCylinder *)
            Raise AttributeError
      | None => Ok st
      end
    else
      match coercesurface obj with
      | Some geo => annotate geo (face_of_surface geo) st
      | None => Ok st
      end
  else Ok st.

Fixpoint loop (sel : list DocObject) (st : State) : result State :=
  match sel with
  | [] => Ok st
  | obj :: rest => st' <- process obj st ;; loop rest st'
  end.

(** The whole script: an empty selection creates nothing. *)
Definition main (sel : list DocObject) : result State :=
  loop sel initial.
End WithSink.
End BatchProcess.

(* ------------------------------------------------------------------ *)
(** ** Notions of the specification

    The specification speaks of a classifier, of axis segments and of
    counts per type tag.  They are written here after its wording, to be
    compared with what the scripts compute. *)

Module Spec.
Local Open Scope float_scope.

Definition dot (a b : Vector3d.t) : float :=
  Vector3d.X a * Vector3d.X b
  + Vector3d.Y a * Vector3d.Y b
  + Vector3d.Z a * Vector3d.Z b.

Definition midpoint (d : Interval.t) : float :=
  (Interval.Min d + Interval.Max d) / 2.

(** [ti = dot(Pi - center, axisDirection)] *)
Definition axis_parameter (cyl : Cylinder.t) (P : Point3d.t) : float :=
  dot (Geom.point_sub P (Cylinder.Center cyl)) (Cylinder.Axis cyl).

(** [center + axisDirection * t] *)
Definition axis_point (cyl : Cylinder.t) (t : float) : Point3d.t :=
  Geom.point_add_vec (Cylinder.Center cyl)
                     (Geom.vec_scale (Cylinder.Axis cyl) t).

(** The two boundary points of the cylinder case: the face evaluated at
    the midpoint of Domain(U) and at either end of Domain(V). *)
Definition boundary_points (Domain : Z -> Interval.t)
           (PointAt : float -> float -> Point3d.t)
  : Point3d.t * Point3d.t :=
  let u_mid := midpoint (Domain 0%Z) in
  (PointAt u_mid (Interval.Min (Domain 1%Z)),
   PointAt u_mid (Interval.Max (Domain 1%Z))).

(** The cylinder case of the axis segment: start first, end second. *)
Definition cylinder_segment (cyl : Cylinder.t) (Domain : Z -> Interval.t)
           (PointAt : float -> float -> Point3d.t)
  : Point3d.t * Point3d.t :=
  let '(P1, P2) := boundary_points Domain PointAt in
  (axis_point cyl (axis_parameter cyl P1),
   axis_point cyl (axis_parameter cyl P2)).

Definition coneAxisHalfLength : float := 2.5.

(** The reference point of the cone case. *)
Definition cone_reference (cone : Cone.t) (face : option FaceLike)
  : Point3d.t :=
  match face with
  | Some f =>
      match fl_Domain f with
      | Some Domain =>
          fl_PointAt f (midpoint (Domain 0%Z)) (midpoint (Domain 1%Z))
      | None => Cone.ApexPoint cone
      end
  | None => Cone.ApexPoint cone
  end.

(** The cone case: [center - axis*L] to [center + axis*L]. *)
Definition cone_segment (cone : Cone.t) (center : Point3d.t)
  : Point3d.t * Point3d.t :=
  (Geom.point_sub_vec center
     (Geom.vec_scale (Cone.Axis cone) coneAxisHalfLength),
   Geom.point_add_vec center
     (Geom.vec_scale (Cone.Axis cone) coneAxisHalfLength)).

(** The type tags of the statistics. *)
Inductive Tag : Type := Cylinder | Cone | Plane | Nurbs | Other.

Definition Tag_eqb (a b : Tag) : bool :=
  match a, b with
  | Cylinder, Cylinder | Cone, Cone | Plane, Plane
  | Nurbs, Nurbs | Other, Other => true
  | _, _ => false
  end.

(** The precedence chain of the classifier: cylinder, cone, planarity,
    kind name, and the catch-all. *)
Definition classify (face : BrepFace) : Tag :=
  let surf := UnderlyingSurface face in
  if fst (TryGetCylinder surf) then Cylinder
  else if fst (TryGetCone surf) then Cone
  else if face_IsPlanar face then Plane
  else if AnalyzeBrep.is_nurbs_name (GetType_Name surf) then Nurbs
  else Other.

(** Number of the faces that carry tag [k]. *)
Definition count_tag (k : Tag) (faces : list BrepFace) : Z :=
  Z.of_nat (List.length (filter (fun f => Tag_eqb (classify f) k) faces)).

(** A cylinder whose diameter is strictly above the threshold.  The
    diameter is formed as the script forms it, [Radius * 2]. *)
Definition above_threshold (threshold : float) (face : BrepFace) : bool :=
  Tag_eqb (classify face) Cylinder
  && (threshold <?
      Cylinder.Radius (snd (TryGetCylinder (UnderlyingSurface face))) * 2).

Definition count_above (threshold : float) (faces : list BrepFace) : Z :=
  Z.of_nat (List.length (filter (above_threshold threshold) faces)).

(** Adding one to the counter of a tag, and to nothing else. *)
Definition increment (k : Tag) (c : AnalyzeBrep.Counters)
  : AnalyzeBrep.Counters :=
  let one (k' : Tag) : Z := if Tag_eqb k k' then 1%Z else 0%Z in
  {| AnalyzeBrep.cylinders := AnalyzeBrep.cylinders c + one Cylinder;
     AnalyzeBrep.cones := AnalyzeBrep.cones c + one Cone;
     AnalyzeBrep.planes := AnalyzeBrep.planes c + one Plane;
     AnalyzeBrep.nurbs := AnalyzeBrep.nurbs c + one Nurbs;
     AnalyzeBrep.others := AnalyzeBrep.others c + one Other;
     AnalyzeBrep.cylinders_above_threshold :=
       AnalyzeBrep.cylinders_above_threshold c |}%Z.

(** Adding one to the sub-count of the wide cylinders when [b] holds. *)
Definition increment_above (b : bool) (c : AnalyzeBrep.Counters)
  : AnalyzeBrep.Counters :=
  {| AnalyzeBrep.cylinders := AnalyzeBrep.cylinders c;
     AnalyzeBrep.cones := AnalyzeBrep.cones c;
     AnalyzeBrep.planes := AnalyzeBrep.planes c;
     AnalyzeBrep.nurbs := AnalyzeBrep.nurbs c;
     AnalyzeBrep.others := AnalyzeBrep.others c;
     AnalyzeBrep.cylinders_above_threshold :=
       AnalyzeBrep.cylinders_above_threshold c + (if b then 1 else 0) |}%Z.

(** One visit of a face: its tag is counted, and so is its width. *)
Definition visit (acc : AnalyzeBrep.Counters) (face : BrepFace)
  : AnalyzeBrep.Counters :=
  increment_above (above_threshold AnalyzeBrep.DIAMETER_THRESHOLD face)
                  (increment (classify face) acc).

(** The verdict of the batch script on a surface, as its branches
    decide it. *)
Definition batch_verdict (surf : Surface) : BatchProcess.Verdict :=
  if fst (TryGetCone surf) then BatchProcess.CONE
  else if fst (TryGetCylinder surf) then BatchProcess.CYLINDER
  else BatchProcess.OTHER_TYPE.

(** The requests among the sink calls, and those the sink turned into
    a line. *)
Definition requests (calls : list SinkCall) : list SinkCall :=
  filter is_AddLine calls.

Definition materialized (AddLine : Point3d.t -> Point3d.t -> option Guid)
           (c : SinkCall) : bool :=
  match c with
  | CallAddLine s e =>
      match AddLine s e with Some _ => true | None => false end
  | CallObjectColor _ _ => false
  end.

(** Number of the sink calls that satisfy [p]. *)
Definition count_calls (p : SinkCall -> bool) (calls : list SinkCall) : Z :=
  Z.of_nat (List.length (filter p calls)).

(** Printing a verdict without asking anything of the sink. *)
Definition no_line (v : BatchProcess.Verdict) (st : BatchProcess.State)
  : BatchProcess.State :=
  {| BatchProcess.lines_created := BatchProcess.lines_created st;
     BatchProcess.printed := BatchProcess.printed st ++ [v];
     BatchProcess.calls := BatchProcess.calls st |}.

(** State [st'] is state [st] after the sink calls [new]: the count grew
    by the number of requests the sink turned into a line, each of which
    was coloured. *)
Definition grows_by (AddLine : Point3d.t -> Point3d.t -> option Guid)
           (st st' : BatchProcess.State) (new : list SinkCall) : Prop :=
  BatchProcess.calls st' = BatchProcess.calls st ++ new
  /\ (BatchProcess.lines_created st'
      = BatchProcess.lines_created st
        + count_calls (materialized AddLine) new)%Z
  /\ count_calls (materialized AddLine) new = count_calls is_ObjectColor new
  /\ (count_calls (materialized AddLine) new <= count_calls is_AddLine new)%Z.

(** A request for the segment from [s] to [e], and its colouring in
    green when the sink hands back a line. *)
Definition green_line (AddLine : Point3d.t -> Point3d.t -> option Guid)
           (s e : Point3d.t) : list SinkCall :=
  CallAddLine s e ::
  match AddLine s e with
  | Some ln => [CallObjectColor ln [0; 255; 0]%Z]
  | None => []
  end.

(** Replacing the outcome of the sphere fit of a surface. *)
Definition with_sphere (sphere : bool * Sphere.t) (s : Surface) : Surface :=
  {| GetType_Name := GetType_Name s;
     TryGetCylinder := TryGetCylinder s;
     TryGetCone := TryGetCone s;
     TryGetSphere := sphere;
     PointAt := PointAt s;
     Domain := Domain s;
     IsPlanar := IsPlanar s |}.

Definition face_with_sphere (g : Surface -> bool * Sphere.t) (f : BrepFace)
  : BrepFace :=
  {| face_PointAt := face_PointAt f;
     face_Domain := face_Domain f;
     face_IsPlanar := face_IsPlanar f;
     UnderlyingSurface :=
       with_sphere (g (UnderlyingSurface f)) (UnderlyingSurface f) |}.

(** The same document object, every sphere fit of which answers as [g]
    says. *)
Definition object_with_sphere (g : Surface -> bool * Sphere.t)
           (obj : DocObject) : DocObject :=
  {| ObjectType := ObjectType obj;
     coercebrep :=
       option_map (fun b => {| Faces := map (face_with_sphere g) (Faces b) |})
                  (coercebrep obj);
     coercesurface :=
       option_map (fun s => with_sphere (g s) s) (coercesurface obj) |}.

(** The verdict of a run of the inspection script, if it printed one. *)
Definition summary_of (r : result (option CheckSurface.Report))
  : result (option CheckSurface.Summary) :=
  match r with
  | Ok (Some rep) => Ok (Some (CheckSurface.SUMMARY rep))
  | Ok None => Ok None
  | Raise e => Raise e
  end.

(** The same document object, resolving to a Brep with faces [fs]. *)
Definition with_faces (fs : list BrepFace) (obj : DocObject) : DocObject :=
  {| ObjectType := ObjectType obj;
     coercebrep := Some {| Faces := fs |};
     coercesurface := coercesurface obj |}.
End Spec.

(* ------------------------------------------------------------------ *)
(** ** Sample geometry *)

Module Samples.
Local Open Scope float_scope.

Definition origin : Point3d.t := Point3d.new 0 0 0.
Definition z_axis : Vector3d.t := Vector3d.new 0 0 1.

(** What a fit that fails hands back next to [False]. *)
Definition no_cylinder : bool * Cylinder.t :=
  (false, Cylinder.new origin (Vector3d.new 0 0 0) 0).
Definition no_cone : bool * Cone.t :=
  (false, Cone.new origin (Vector3d.new 0 0 0) 0 0).
Definition no_sphere : bool * Sphere.t :=
  (false, Sphere.new origin 0).

Definition cylinder_of (r : float) : Cylinder.t :=
  Cylinder.new origin z_axis r.
Definition unit_cone : Cone.t := Cone.new origin z_axis 1 45.

(** A cylinder of radius [r] about the z axis, [u] being the rational
    parameter of the circle and [v] the height. *)
Definition cylinder_PointAt (r u v : float) : Point3d.t :=
  Point3d.new (r * (1 - u * u) / (1 + u * u))
              (r * (2 * u) / (1 + u * u))
              v.

(** The cone [x^2 + y^2 = z^2], parametrised alike. *)
Definition cone_PointAt (u v : float) : Point3d.t :=
  Point3d.new (v * (1 - u * u) / (1 + u * u))
              (v * (2 * u) / (1 + u * u))
              v.

Definition plane_PointAt (u v : float) : Point3d.t := Point3d.new u v 0.
Definition saddle_PointAt (u v : float) : Point3d.t := Point3d.new u v (u * v).

(** Domain(0) = [u0, u1], Domain(1) = [v0, v1]. *)
Definition domain (u0 u1 v0 v1 : float) (i : Z) : Interval.t :=
  if (i =? 0)%Z then Interval.new u0 u1 else Interval.new v0 v1.

Definition cylinder_surface (r : float) : Surface :=
  {| GetType_Name := "RevSurface";
     TryGetCylinder := (true, cylinder_of r);
     TryGetCone := no_cone;
     TryGetSphere := no_sphere;
     PointAt := Some (cylinder_PointAt r);
     Domain := Some (domain (-1) 1 0 10);
     IsPlanar := Some false |}.

Definition cone_surface : Surface :=
  {| GetType_Name := "RevSurface";
     TryGetCylinder := no_cylinder;
     TryGetCone := (true, unit_cone);
     TryGetSphere := no_sphere;
     PointAt := Some cone_PointAt;
     Domain := Some (domain (-1) 1 1 3);
     IsPlanar := Some false |}.

Definition plane_surface : Surface :=
  {| GetType_Name := "PlaneSurface";
     TryGetCylinder := no_cylinder;
     TryGetCone := no_cone;
     TryGetSphere := no_sphere;
     PointAt := Some plane_PointAt;
     Domain := Some (domain 0 1 0 1);
     IsPlanar := Some true |}.

Definition freeform_surface : Surface :=
  {| GetType_Name := "NurbsSurface";
     TryGetCylinder := no_cylinder;
     TryGetCone := no_cone;
     TryGetSphere := no_sphere;
     PointAt := Some saddle_PointAt;
     Domain := Some (domain 0 1 0 1);
     IsPlanar := Some false |}.

(** A surface that passes the cylinder fit and the cone fit. *)
Definition cylinder_and_cone_surface : Surface :=
  {| GetType_Name := "RevSurface";
     TryGetCylinder := (true, cylinder_of 1);
     TryGetCone := (true, unit_cone);
     TryGetSphere := no_sphere;
     PointAt := Some (cylinder_PointAt 1);
     Domain := Some (domain (-1) 1 0 10);
     IsPlanar := Some false |}.

(** A cylinder that is also reported planar. *)
Definition flat_cylinder_surface : Surface :=
  {| GetType_Name := "RevSurface";
     TryGetCylinder := (true, cylinder_of 1000);
     TryGetCone := no_cone;
     TryGetSphere := no_sphere;
     PointAt := Some (cylinder_PointAt 1000);
     Domain := Some (domain (-1) 1 0 10);
     IsPlanar := Some true |}.

(** The same surfaces without point evaluation. *)
Definition bare (s : Surface) : Surface :=
  {| GetType_Name := GetType_Name s;
     TryGetCylinder := TryGetCylinder s;
     TryGetCone := TryGetCone s;
     TryGetSphere := TryGetSphere s;
     PointAt := None;
     Domain := None;
     IsPlanar := None |}.

(** A cylinder face whose V domain is the single value 4. *)
Definition degenerate_cylinder_surface : Surface :=
  {| GetType_Name := "RevSurface";
     TryGetCylinder := (true, cylinder_of 1);
     TryGetCone := no_cone;
     TryGetSphere := no_sphere;
     PointAt := Some (cylinder_PointAt 1);
     Domain := Some (domain (-1) 1 4 4);
     IsPlanar := Some false |}.

(** The face of a Brep trimmed from a surface that has evaluation. *)
Definition face_on (s : Surface) : BrepFace :=
  {| face_PointAt :=
       match PointAt s with Some pt => pt | None => fun _ _ => origin end;
     face_Domain :=
       match Domain s with Some d => d | None => domain 0 0 0 0 end;
     face_IsPlanar :=
       match IsPlanar s with Some b => b | None => false end;
     UnderlyingSurface := s |}.

(** The value of the variable [face] for that face. *)
Definition facelike_on (s : Surface) : FaceLike :=
  face_of_brepface (face_on s).

Definition surface_object (s : Surface) : DocObject :=
  {| ObjectType := 8; coercebrep := None; coercesurface := Some s |}.

Definition brep_object (faces : list BrepFace) : DocObject :=
  {| ObjectType := 16;
     coercebrep := Some {| Faces := faces |};
     coercesurface := None |}.

(** Three cylinders of diameters 2, 4 and 6, one cone, two planes. *)
Definition six_faces : list BrepFace :=
  [ face_on (cylinder_surface 1); face_on (cylinder_surface 2);
    face_on (cylinder_surface 3); face_on cone_surface;
    face_on plane_surface; face_on plane_surface ].

(** The selection [cylinder, plane, cone, freeform]. *)
Definition four_items : list DocObject :=
  [ surface_object (cylinder_surface 1); surface_object plane_surface;
    surface_object cone_surface; surface_object freeform_surface ].

(** A host that draws every line, and one that draws none. *)
Definition accepting_sink (s e : Point3d.t) : option Guid := Some 7%Z.
Definition refusing_sink (s e : Point3d.t) : option Guid := None.
End Samples.

(* ------------------------------------------------------------------ *)
(** ** Script 01 with its progress lines

    The face loop of script 01 prints [Processed n faces...] whenever the
    number [n] of faces done is a multiple of 100.  The loop is given
    here once more, now with the numbers it prints, oldest first. *)

Module AnalyzeBrepOutput.
Local Open Scope Z_scope.

Fixpoint face_loop (geo : Brep) (indices : list nat)
         (c : AnalyzeBrep.Counters) (out : list Z)
  : result (AnalyzeBrep.Counters * list Z) :=
  match indices with
  | [] => Ok (c, out)
  | face_idx :: rest =>
      face <- Faces_item geo face_idx ;;
      let c' := AnalyzeBrep.count_face face c in
      (* if (face_idx + 1) % 100 == 0: print(...format(face_idx + 1)) *)
      let out' :=
        if (Z.of_nat face_idx + 1) mod 100 =? 0
        then out ++ [Z.of_nat face_idx + 1]
        else out in
      face_loop geo rest c' out'
  end.

Definition analyze (geo : Brep) : result (AnalyzeBrep.Counters * list Z) :=
  let total_faces := List.length (Faces geo) in
  face_loop geo (seq 0 total_faces) AnalyzeBrep.initial [].
End AnalyzeBrepOutput.

(* ------------------------------------------------------------------ *)
(** ** Further notions used to state properties of the scripts *)

Module Derived.
Local Open Scope Z_scope.

Definition result_map {A B : Type} (f : A -> B) (r : result A) : result B :=
  match r with
  | Ok a => Ok (f a)
  | Raise e => Raise e
  end.

(** The multiples of 100 among [1 .. n], in increasing order. *)
Definition hundreds (n : nat) : list Z :=
  filter (fun z => z mod 100 =? 0) (map (fun i => Z.of_nat i + 1) (seq 0 n)).

(** State [st] followed by what a run from the initial state produced. *)
Definition append_state (st d : BatchProcess.State) : BatchProcess.State :=
  {| BatchProcess.lines_created :=
       BatchProcess.lines_created st + BatchProcess.lines_created d;
     BatchProcess.printed := BatchProcess.printed st ++ BatchProcess.printed d;
     BatchProcess.calls := BatchProcess.calls st ++ BatchProcess.calls d |}.

(** What a run of script 04 decides by itself: the verdicts it prints
    and the lines it asks for. *)
Definition plan (st : BatchProcess.State)
  : list BatchProcess.Verdict * list SinkCall :=
  (BatchProcess.printed st, Spec.requests (BatchProcess.calls st)).

(** An object script 04 looks at: of type 8 or 16, and coerced to a
    geometry. *)
Definition resolves (obj : DocObject) : bool :=
  let t := ObjectType obj in
  ((t =? 8) || (t =? 16))
  && (if t =? 16
      then match coercebrep obj with Some _ => true | None => false end
      else match coercesurface obj with Some _ => true | None => false end).

(** The surface scripts 02 to 04 examine for an object, if any. *)
Definition first_surface (obj : DocObject) : option Surface :=
  if ObjectType obj =? 16 then
    match coercebrep obj with
    | Some geo =>
        match Faces geo with
        | f :: _ => Some (UnderlyingSurface f)
        | [] => None
        end
    | None => None
    end
  else coercesurface obj.

(** The summary that corresponds to a tag of the statistics. *)
Definition summary_of_tag (k : Spec.Tag) (surf_type : string)
  : CheckSurface.Summary :=
  match k with
  | Spec.Cylinder => CheckSurface.CYLINDER
  | Spec.Cone => CheckSurface.CONE
  | Spec.Plane => CheckSurface.PLANE
  | Spec.Nurbs | Spec.Other => CheckSurface.COMPLEX_SURFACE surf_type
  end.

(** The two kinds of selected object on which script 04 fails: a Brep
    without faces, and a surface that has [PointAt] but no [Domain] and
    passes the cylinder fit only. *)
Definition batch_item_fails (obj : DocObject) : Prop :=
  (ObjectType obj = 16
   /\ exists geo, coercebrep obj = Some geo /\ Faces geo = [])
  \/ (ObjectType obj = 8
      /\ exists s pt,
          coercesurface obj = Some s /\ PointAt s = Some pt
          /\ Domain s = None
          /\ fst (TryGetCone s) = false /\ fst (TryGetCylinder s) = true).

(** A surface that answers the planarity test with [True] but cannot be
    evaluated. *)
Definition unevaluable_plane : Surface :=
  {| GetType_Name := "PlaneSurface";
     TryGetCylinder := Samples.no_cylinder;
     TryGetCone := Samples.no_cone;
     TryGetSphere := Samples.no_sphere;
     PointAt := None;
     Domain := None;
     IsPlanar := Some true |}.

(** A cylinder that can be evaluated but has no [Domain]. *)
Definition cylinder_without_domain : Surface :=
  {| GetType_Name := "RevSurface";
     TryGetCylinder := (true, Samples.cylinder_of 1);
     TryGetCone := Samples.no_cone;
     TryGetSphere := Samples.no_sphere;
     PointAt := Some (Samples.cylinder_PointAt 1);
     Domain := None;
     IsPlanar := Some false |}.

(** A selected object of type 4, a curve, that [rs.coercesurface]
    nevertheless turns into the sample cylinder. *)
Definition curve_object : DocObject :=
  {| ObjectType := 4;
     coercebrep := None;
     coercesurface := Some (Samples.cylinder_surface 1) |}.

Definition red : list Z := [255; 0; 0].
Definition green : list Z := [0; 255; 0].

(** A list of sink calls in which every colouring follows at once the
    request whose line the sink handed back, and colours it red or
    green, and in which a request the sink refused is followed by no
    colouring. *)
Inductive paired (AddLine : Point3d.t -> Point3d.t -> option Guid)
  : list SinkCall -> Prop :=
| paired_nil : paired AddLine []
| paired_refused (s e : Point3d.t) (rest : list SinkCall) :
    AddLine s e = None ->
    paired AddLine rest ->
    paired AddLine (CallAddLine s e :: rest)
| paired_drawn (s e : Point3d.t) (ln : Guid) (color : list Z)
               (rest : list SinkCall) :
    AddLine s e = Some ln ->
    color = red \/ color = green ->
    paired AddLine rest ->
    paired AddLine (CallAddLine s e :: CallObjectColor ln color :: rest).
End Derived.

(* ------------------------------------------------------------------ *)
(** ** Script 03 to its last line

    [CreateLineCylinder] follows script 03 up to the colouring of the
    line.  When the sink has handed back a line the script goes on to
    compute and print its length,

      [((end.X - start.X)**2 + (end.Y - start.Y)**2
        + (end.Z - start.Z)**2)**0.5],

    and Python's [**] raises for some operands (an [OverflowError] when
    a square leaves the range of the floats).  The script is given here
    once more, to its last line.  The operator [**] belongs to the
    interpreter; it is a function from the two operands to the value, or
    to nothing when it raises. *)

Module CreateLineCylinderWhole.
Local Open Scope Z_scope.

(** How a run of the script ends. *)
Inductive Outcome : Type :=
| Finished (calls : list SinkCall) (length : option float)
    (* to the last line; the length is printed for a line that was drawn *)
| Failed (e : exn)
    (* an exception before anything was asked of the sink *)
| FailedInLength (calls : list SinkCall).
    (* an exception of [**], after the line was drawn and coloured *)

Section WithHost.
Variable AddLine : Point3d.t -> Point3d.t -> option Guid.
Variable power : float -> float -> option float.

(** The length formula, its operands taken from left to right. *)
Definition line_length (start end_ : Point3d.t) : option float :=
  match power (Point3d.X end_ - Point3d.X start)%float 2%float with
  | None => None
  | Some dx2 =>
      match power (Point3d.Y end_ - Point3d.Y start)%float 2%float with
      | None => None
      | Some dy2 =>
          match power (Point3d.Z end_ - Point3d.Z start)%float 2%float with
          | None => None
          | Some dz2 => power (dx2 + dy2 + dz2)%float 0.5%float
          end
      end
  end.

(** From [is_cyl, cyl = surf.TryGetCylinder()] to the end of the script. *)
Definition create_line (surf : Surface) (face : option FaceLike) : Outcome :=
  let '(is_cyl, cyl) := TryGetCylinder surf in
  match face with
  | Some face =>
      if is_cyl then
        let axis := Cylinder.Axis cyl in
        let cyl_center := Cylinder.Center cyl in
        match fl_Domain face with
        | None => Failed AttributeError
        | Some Domain =>
            let u_mid :=
              ((Interval.Min (Domain 0%Z) + Interval.Max (Domain 0%Z)) / 2)%float in
            let v_min := Interval.Min (Domain 1) in
            let v_max := Interval.Max (Domain 1) in
            let p1 := fl_PointAt face u_mid v_min in
            let p2 := fl_PointAt face u_mid v_max in
            let v1 := Geom.point_sub p1 cyl_center in
            let v2 := Geom.point_sub p2 cyl_center in
            let t1 := (Vector3d.X v1 * Vector3d.X axis
                       + Vector3d.Y v1 * Vector3d.Y axis
                       + Vector3d.Z v1 * Vector3d.Z axis)%float in
            let t2 := (Vector3d.X v2 * Vector3d.X axis
                       + Vector3d.Y v2 * Vector3d.Y axis
                       + Vector3d.Z v2 * Vector3d.Z axis)%float in
            let start := Geom.point_add_vec cyl_center (Geom.vec_scale axis t1) in
            let end_ := Geom.point_add_vec cyl_center (Geom.vec_scale axis t2) in
            match AddLine start end_ with
            | Some ln =>
                let calls :=
                  [CallAddLine start end_; CallObjectColor ln [0; 255; 0]] in
                match line_length start end_ with
                | Some length => Finished calls (Some length)
                | None => FailedInLength calls
                end
            | None => Finished [CallAddLine start end_] None
            end
        end
      else Finished [] None
  | None => Finished [] None
  end.

Definition main (sel : list DocObject) : Outcome :=
  match sel with
  | [] => Finished [] None
  | obj :: _ =>
      if ObjectType obj =? 16 then
        match coercebrep obj with
        | Some geo =>
            (* rs.ObjectType(obj) == 16 and hasattr(geo, 'Faces') *)
            match Faces_item geo 0 with
            | Ok face =>
                create_line (UnderlyingSurface face)
                            (Some (face_of_brepface face))
            | Raise e => Failed e
            end
        | None => Finished [] None
        end
      else
        match coercesurface obj with
        | Some geo => create_line geo (face_of_surface geo)
        | None => Finished [] None
        end
  end.
End WithHost.

(** The sink calls of a run, or the exception that came before any. *)
Definition calls_of (o : Outcome) : result (list SinkCall) :=
  match o with
  | Finished calls _ => Ok calls
  | Failed e => Raise e
  | FailedInLength calls => Ok calls
  end.

(** What follows the colouring, given the sink calls made so far. *)
Definition after_calls (power : float -> float -> option float)
           (calls : list SinkCall) : Outcome :=
  match calls with
  | [CallAddLine start end_; CallObjectColor _ _] =>
      match line_length power start end_ with
      | Some length => Finished calls (Some length)
      | None => FailedInLength calls
      end
  | _ => Finished calls None
  end.

(** A sample operator [**]: squares and square roots as binary64
    arithmetic rounds them, a square of a finite number that leaves the
    range raising. *)
Definition sample_power (x y : float) : option float :=
  if (y =? 2)%float then
    if PrimFloat.is_finite x && PrimFloat.is_infinity (x * x)%float
    then None
    else Some (x * x)%float
  else Some (PrimFloat.sqrt x).

(** The sample cylinder trimmed to the heights 0 to 2^600. *)
Definition long_cylinder_surface : Surface :=
  {| GetType_Name := "RevSurface";
     TryGetCylinder := (true, Samples.cylinder_of 1);
     TryGetCone := Samples.no_cone;
     TryGetSphere := Samples.no_sphere;
     PointAt := Some (Samples.cylinder_PointAt 1);
     Domain := Some (Samples.domain (-1) 1 0 0x1p600);
     IsPlanar := Some false |}.
End CreateLineCylinderWhole.

(* ------------------------------------------------------------------ *)
(** * Properties *)

(** ** Statistics *)

Section Statistics.
Import AnalyzeBrep.
Local Open Scope Z_scope.

Lemma counters_eq (c d : Counters) :
  cylinders c = cylinders d -> cones c = cones d ->
  planes c = planes d -> nurbs c = nurbs d -> others c = others d ->
  cylinders_above_threshold c = cylinders_above_threshold d ->
  c = d.
Proof.
  destruct c, d; simpl; intros; subst; reflexivity.
Qed.

(** The loop body counts the tag of the classifier and nothing else. *)
Lemma count_face_visit (face : BrepFace) (c : Counters) :
  count_face face c = Spec.visit c face.
Proof.
  unfold count_face, Spec.visit, Spec.above_threshold, Spec.classify.
  destruct (TryGetCylinder (UnderlyingSurface face)) as [is_cyl cyl].
  destruct (TryGetCone (UnderlyingSurface face)) as [is_cone cone].
  simpl fst; simpl snd.
  destruct is_cyl.
  - destruct (DIAMETER_THRESHOLD <? Cylinder.Radius cyl * 2)%float;
      apply counters_eq; simpl; lia.
  - destruct is_cone; [apply counters_eq; simpl; lia|].
    destruct (face_IsPlanar face); [apply counters_eq; simpl; lia|].
    destruct (is_nurbs_name (GetType_Name (UnderlyingSurface face)));
      apply counters_eq; simpl; lia.
Qed.

Lemma Faces_item_middle (geo : Brep) (pre rest : list BrepFace) (f : BrepFace) :
  Faces geo = pre ++ f :: rest ->
  Faces_item geo (List.length pre) = Ok f.
Proof.
  intros E. unfold Faces_item. rewrite E.
  rewrite nth_error_app2 by lia.
  rewrite Nat.sub_diag. reflexivity.
Qed.

(** The faces fetched at the indices of a suffix are that suffix. *)
Lemma Faces_item_suffix (geo : Brep) :
  forall rest pre : list BrepFace,
    Faces geo = pre ++ rest ->
    map (Faces_item geo) (seq (List.length pre) (List.length rest))
    = map (@Ok BrepFace) rest.
Proof.
  induction rest as [|f rest IH]; intros pre E.
  - reflexivity.
  - simpl. rewrite (@Faces_item_middle geo pre rest f E). f_equal.
    specialize (IH (pre ++ [f])).
    rewrite length_app in IH. simpl in IH.
    rewrite Nat.add_1_r in IH. apply IH.
    rewrite <- app_assoc. exact E.
Qed.

(** Running over the indices of a suffix of the face list is a left
    fold over that suffix. *)
Lemma face_loop_suffix (geo : Brep) :
  forall (rest pre : list BrepFace) (c : Counters),
    Faces geo = pre ++ rest ->
    face_loop geo (seq (List.length pre) (List.length rest)) c
    = Ok (fold_left Spec.visit rest c).
Proof.
  induction rest as [|f rest IH]; intros pre c E.
  - reflexivity.
  - simpl. rewrite (@Faces_item_middle geo pre rest f E). simpl.
    rewrite count_face_visit.
    specialize (IH (pre ++ [f]) (Spec.visit c f)).
    rewrite length_app in IH. simpl in IH.
    rewrite Nat.add_1_r in IH. apply IH.
    rewrite <- app_assoc. exact E.
Qed.

Lemma analyze_fold (geo : Brep) :
  analyze geo = Ok (fold_left Spec.visit (Faces geo) initial).
Proof.
  unfold analyze. apply (face_loop_suffix geo (Faces geo) []). reflexivity.
Qed.

Lemma count_tag_cons (k : Spec.Tag) (f : BrepFace) (fs : list BrepFace) :
  Spec.count_tag k (f :: fs)
  = (if Spec.Tag_eqb (Spec.classify f) k then 1 else 0) + Spec.count_tag k fs.
Proof.
  unfold Spec.count_tag. simpl.
  destruct (Spec.Tag_eqb (Spec.classify f) k); simpl List.length; lia.
Qed.

Lemma count_above_cons (th : float) (f : BrepFace) (fs : list BrepFace) :
  Spec.count_above th (f :: fs)
  = (if Spec.above_threshold th f then 1 else 0) + Spec.count_above th fs.
Proof.
  unfold Spec.count_above. simpl.
  destruct (Spec.above_threshold th f); simpl List.length; lia.
Qed.

(** What a fold of visits adds to each counter. *)
Lemma fold_visit_counts (faces : list BrepFace) :
  forall c : Counters,
    let r := fold_left Spec.visit faces c in
    cylinders r = cylinders c + Spec.count_tag Spec.Cylinder faces
    /\ cones r = cones c + Spec.count_tag Spec.Cone faces
    /\ planes r = planes c + Spec.count_tag Spec.Plane faces
    /\ nurbs r = nurbs c + Spec.count_tag Spec.Nurbs faces
    /\ others r = others c + Spec.count_tag Spec.Other faces
    /\ cylinders_above_threshold r
       = cylinders_above_threshold c
         + Spec.count_above DIAMETER_THRESHOLD faces.
Proof.
  induction faces as [|f fs IH]; intros c r.
  - subst r. unfold Spec.count_tag, Spec.count_above. simpl. lia.
  - subst r. simpl fold_left.
    destruct (IH (Spec.visit c f)) as (H1 & H2 & H3 & H4 & H5 & H6).
    rewrite H1, H2, H3, H4, H5, H6.
    rewrite !count_tag_cons, count_above_cons.
    unfold Spec.visit.
    destruct (Spec.above_threshold DIAMETER_THRESHOLD f);
      destruct (Spec.classify f); cbn -[Z.add]; lia.
Qed.

Lemma count_tag_partition (faces : list BrepFace) :
  Spec.count_tag Spec.Cylinder faces + Spec.count_tag Spec.Cone faces
  + Spec.count_tag Spec.Plane faces + Spec.count_tag Spec.Nurbs faces
  + Spec.count_tag Spec.Other faces
  = Z.of_nat (List.length faces).
Proof.
  induction faces as [|f fs IH].
  - reflexivity.
  - rewrite !count_tag_cons. simpl List.length.
    destruct (Spec.classify f); cbn -[Z.add Z.of_nat]; lia.
Qed.

(** C3.  The statistics of a solid.  The faces fetched at the indices
    [0 .. total_faces - 1] are the faces of the solid, each once and in
    order.  The face loop never fails and its result is the left fold,
    over the face list in index order, of one visit per face; a visit
    adds one to the counter of the face's tag
    and to no other counter, and one to the sub-count exactly when the
    face is a cylinder whose diameter [Radius * 2] is strictly above
    3.2.  Hence every counter is the number of faces with its tag, the
    counters add up to the number of faces, a solid without faces gives
    zeros throughout, and the solid with cylinders of diameters 2, 4, 6,
    one cone and two planes gives 3, 2, 1, 2, 0, 0 and the total 6. *)
Theorem statistics_aggregation :
  (forall geo : Brep,
      exists c : Counters,
        map (Faces_item geo) (seq 0 (List.length (Faces geo)))
        = map (@Ok BrepFace) (Faces geo)
        /\ analyze geo = Ok c
        /\ c = fold_left Spec.visit (Faces geo) initial
        /\ cylinders c = Spec.count_tag Spec.Cylinder (Faces geo)
        /\ cones c = Spec.count_tag Spec.Cone (Faces geo)
        /\ planes c = Spec.count_tag Spec.Plane (Faces geo)
        /\ nurbs c = Spec.count_tag Spec.Nurbs (Faces geo)
        /\ others c = Spec.count_tag Spec.Other (Faces geo)
        /\ cylinders_above_threshold c
           = Spec.count_above 3.2%float (Faces geo)
        /\ total c = Z.of_nat (List.length (Faces geo)))
  /\ (forall (face : BrepFace) (c : Counters),
         count_face face c
         = Spec.increment_above
             (Spec.above_threshold 3.2%float face)
             (Spec.increment (Spec.classify face) c))
  /\ analyze {| Faces := [] |} = Ok initial
  /\ analyze {| Faces := Samples.six_faces |}
     = Ok {| cylinders := 3; cylinders_above_threshold := 2; cones := 1;
             planes := 2; nurbs := 0; others := 0 |}
  /\ main [Samples.brep_object Samples.six_faces]
     = Ok (Some {| cylinders := 3; cylinders_above_threshold := 2;
                   cones := 1; planes := 2; nurbs := 0; others := 0 |})
  /\ total {| cylinders := 3; cylinders_above_threshold := 2; cones := 1;
              planes := 2; nurbs := 0; others := 0 |} = 6.
Proof.
  split; [|split; [|split; [|split; [|split]]]].
  - intros geo. exists (fold_left Spec.visit (Faces geo) initial).
    pose proof (fold_visit_counts (Faces geo) initial) as H.
    cbv zeta in H. destruct H as (H1 & H2 & H3 & H4 & H5 & H6).
    pose proof (count_tag_partition (Faces geo)) as HP.
    split; [apply (Faces_item_suffix geo (Faces geo) []); reflexivity|].
    split; [apply analyze_fold|]. split; [reflexivity|].
    change (Spec.count_above 3.2%float (Faces geo))
      with (Spec.count_above DIAMETER_THRESHOLD (Faces geo)).
    unfold total. rewrite H1, H2, H3, H4, H5, H6. simpl. repeat split; lia.
  - intros face c. apply count_face_visit.
  - reflexivity.
  - vm_compute. reflexivity.
  - vm_compute. reflexivity.
  - reflexivity.
Qed.
End Statistics.

(* ------------------------------------------------------------------ *)
(** ** The branches of the line scripts *)

Section Branches.
Variable AddLine : Point3d.t -> Point3d.t -> option Guid.

(** Script 03 on a cylinder with a face that has a domain. *)
Lemma create_line_cylinder (surf : Surface) (face : FaceLike)
      (Domain : Z -> Interval.t) :
  fst (TryGetCylinder surf) = true ->
  fl_Domain face = Some Domain ->
  CreateLineCylinder.create_line AddLine surf (Some face)
  = Ok (Spec.green_line AddLine
          (fst (Spec.cylinder_segment (snd (TryGetCylinder surf)) Domain
                                      (fl_PointAt face)))
          (snd (Spec.cylinder_segment (snd (TryGetCylinder surf)) Domain
                                      (fl_PointAt face)))).
Proof.
  intros Hcyl Hdom. unfold CreateLineCylinder.create_line, Spec.green_line.
  destruct (TryGetCylinder surf) as [is_cyl cyl]. simpl in Hcyl. subst is_cyl.
  rewrite Hdom. simpl.
  destruct (AddLine _ _); reflexivity.
Qed.

(** Script 04 on a cylinder that is no cone, with such a face. *)
Lemma annotate_cylinder (surf : Surface) (face : FaceLike)
      (Domain : Z -> Interval.t) (st : BatchProcess.State) :
  fst (TryGetCone surf) = false ->
  fst (TryGetCylinder surf) = true ->
  fl_Domain face = Some Domain ->
  BatchProcess.annotate AddLine surf (Some face) st
  = Ok (BatchProcess.add_colored_line AddLine
          (fst (Spec.cylinder_segment (snd (TryGetCylinder surf)) Domain
                                      (fl_PointAt face)))
          (snd (Spec.cylinder_segment (snd (TryGetCylinder surf)) Domain
                                      (fl_PointAt face)))
          [0; 255; 0]%Z BatchProcess.CYLINDER st).
Proof.
  intros Hcone Hcyl Hdom. unfold BatchProcess.annotate.
  destruct (TryGetCylinder surf) as [is_cyl cyl]. simpl in Hcyl. subst is_cyl.
  destruct (TryGetCone surf) as [is_cone cone]. simpl in Hcone. subst is_cone.
  rewrite Hdom. reflexivity.
Qed.

(** Script 04 on a cylinder that is no cone and has no face. *)
Lemma annotate_cylinder_no_face (surf : Surface) (st : BatchProcess.State) :
  fst (TryGetCone surf) = false ->
  fst (TryGetCylinder surf) = true ->
  BatchProcess.annotate AddLine surf None st
  = Ok {| BatchProcess.lines_created := BatchProcess.lines_created st;
          BatchProcess.printed :=
            BatchProcess.printed st ++ [BatchProcess.CYLINDER];
          BatchProcess.calls := BatchProcess.calls st |}.
Proof.
  intros Hcone Hcyl. unfold BatchProcess.annotate.
  destruct (TryGetCylinder surf) as [is_cyl cyl]. simpl in Hcyl. subst is_cyl.
  destruct (TryGetCone surf) as [is_cone cone]. simpl in Hcone. subst is_cone.
  reflexivity.
Qed.

(** Script 04 on a cylinder that is no cone, with a face that lacks
    [Domain]: the call [face.Domain(0)] fails. *)
Lemma annotate_cylinder_no_domain (surf : Surface) (face : FaceLike)
      (st : BatchProcess.State) :
  fst (TryGetCone surf) = false ->
  fst (TryGetCylinder surf) = true ->
  fl_Domain face = None ->
  BatchProcess.annotate AddLine surf (Some face) st = Raise AttributeError.
Proof.
  intros Hcone Hcyl Hdom. unfold BatchProcess.annotate.
  destruct (TryGetCylinder surf) as [is_cyl cyl]. simpl in Hcyl. subst is_cyl.
  destruct (TryGetCone surf) as [is_cone cone]. simpl in Hcone. subst is_cone.
  rewrite Hdom. reflexivity.
Qed.

(** Script 04 on a cone. *)
Lemma annotate_cone (surf : Surface) (face : option FaceLike)
      (st : BatchProcess.State) :
  fst (TryGetCone surf) = true ->
  BatchProcess.annotate AddLine surf face st
  = Ok (BatchProcess.add_colored_line AddLine
          (fst (Spec.cone_segment (snd (TryGetCone surf))
                  (Spec.cone_reference (snd (TryGetCone surf)) face)))
          (snd (Spec.cone_segment (snd (TryGetCone surf))
                  (Spec.cone_reference (snd (TryGetCone surf)) face)))
          [255; 0; 0]%Z BatchProcess.CONE st).
Proof.
  intros Hcone. unfold BatchProcess.annotate.
  destruct (TryGetCylinder surf) as [is_cyl cyl].
  destruct (TryGetCone surf) as [is_cone cone]. simpl in Hcone. subst is_cone.
  reflexivity.
Qed.

(** Script 04 on a surface that passes neither fit. *)
Lemma annotate_other (surf : Surface) (face : option FaceLike)
      (st : BatchProcess.State) :
  fst (TryGetCone surf) = false ->
  fst (TryGetCylinder surf) = false ->
  BatchProcess.annotate AddLine surf face st
  = Ok {| BatchProcess.lines_created := BatchProcess.lines_created st;
          BatchProcess.printed :=
            BatchProcess.printed st ++ [BatchProcess.OTHER_TYPE];
          BatchProcess.calls := BatchProcess.calls st |}.
Proof.
  intros Hcone Hcyl. unfold BatchProcess.annotate.
  destruct (TryGetCylinder surf) as [is_cyl cyl]. simpl in Hcyl. subst is_cyl.
  destruct (TryGetCone surf) as [is_cone cone]. simpl in Hcone. subst is_cone.
  reflexivity.
Qed.

(** A segment whose two end points were taken at the same parameter. *)
Lemma cylinder_segment_degenerate (cyl : Cylinder.t) (Domain : Z -> Interval.t)
      (PointAt : float -> float -> Point3d.t) :
  Interval.Min (Domain 1%Z) = Interval.Max (Domain 1%Z) ->
  fst (Spec.cylinder_segment cyl Domain PointAt)
  = snd (Spec.cylinder_segment cyl Domain PointAt).
Proof.
  intros E. unfold Spec.cylinder_segment, Spec.boundary_points.
  rewrite E. reflexivity.
Qed.
End Branches.

(* ------------------------------------------------------------------ *)
(** ** Axis segments *)

Section AxisSegments.
Local Open Scope float_scope.

(** C2.  The axis segment of a cylinder.  For a surface that passes the
    cylinder fit and a face with a domain, let [u_mid] be the midpoint of
    Domain(U), [P1] and [P2] the face evaluated at [u_mid] and at the
    lower and the upper end of Domain(V), and [ti] the dot product of
    [Pi - center] with the axis.  Script 03, and script 04 when the
    surface is not taken for a cone, then ask the sink for the line from
    [center + axis * t1] to [center + axis * t2], in this order. *)
Theorem cylinder_axis_segment_extraction
        (AddLine : Point3d.t -> Point3d.t -> option Guid)
        (surf : Surface) (face : FaceLike) (Domain : Z -> Interval.t)
        (st : BatchProcess.State) :
  fst (TryGetCylinder surf) = true ->
  fl_Domain face = Some Domain ->
  let cyl := snd (TryGetCylinder surf) in
  let center := Cylinder.Center cyl in
  let axisDirection := Cylinder.Axis cyl in
  let u_mid := (Interval.Min (Domain 0%Z) + Interval.Max (Domain 0%Z)) / 2 in
  let P1 := fl_PointAt face u_mid (Interval.Min (Domain 1%Z)) in
  let P2 := fl_PointAt face u_mid (Interval.Max (Domain 1%Z)) in
  let t1 := Spec.dot (Geom.point_sub P1 center) axisDirection in
  let t2 := Spec.dot (Geom.point_sub P2 center) axisDirection in
  let start := Geom.point_add_vec center (Geom.vec_scale axisDirection t1) in
  let end_ := Geom.point_add_vec center (Geom.vec_scale axisDirection t2) in
  CreateLineCylinder.create_line AddLine surf (Some face)
  = Ok (Spec.green_line AddLine start end_)
  /\ (fst (TryGetCone surf) = false ->
      BatchProcess.annotate AddLine surf (Some face) st
      = Ok (BatchProcess.add_colored_line AddLine start end_
              [0; 255; 0]%Z BatchProcess.CYLINDER st)).
Proof.
  intros Hcyl Hdom. cbv zeta. split.
  - rewrite (create_line_cylinder AddLine surf face Hcyl Hdom). reflexivity.
  - intros Hcone.
    rewrite (annotate_cylinder AddLine surf face st Hcone Hcyl Hdom).
    reflexivity.
Qed.

(** On the sample cylinder of radius 1, trimmed to the heights 0 to 10,
    the segment runs from the origin to (0, 0, 10). *)
Lemma cylinder_axis_segment_extraction_witness :
  fst (TryGetCylinder (Samples.cylinder_surface 1)) = true
  /\ fl_Domain (Samples.facelike_on (Samples.cylinder_surface 1))
     = Some (Samples.domain (-1) 1 0 10)
  /\ CreateLineCylinder.create_line Samples.accepting_sink
       (Samples.cylinder_surface 1)
       (Some (Samples.facelike_on (Samples.cylinder_surface 1)))
     = Ok [CallAddLine (Point3d.new 0 0 0) (Point3d.new 0 0 10);
           CallObjectColor 7%Z [0; 255; 0]%Z]
  /\ fst (TryGetCone (Samples.cylinder_surface 1)) = false
  /\ BatchProcess.annotate Samples.accepting_sink
       (Samples.cylinder_surface 1)
       (Some (Samples.facelike_on (Samples.cylinder_surface 1)))
       BatchProcess.initial
     = Ok {| BatchProcess.lines_created := 1;
             BatchProcess.printed := [BatchProcess.CYLINDER];
             BatchProcess.calls :=
               [CallAddLine (Point3d.new 0 0 0) (Point3d.new 0 0 10);
                CallObjectColor 7%Z [0; 255; 0]%Z] |}.
Proof.
  pose proof (@cylinder_axis_segment_extraction
                Samples.accepting_sink (Samples.cylinder_surface 1)
                (Samples.facelike_on (Samples.cylinder_surface 1))
                (Samples.domain (-1) 1 0 10)
                BatchProcess.initial eq_refl eq_refl) as [H03 H04].
  split; [reflexivity|]. split; [reflexivity|].
  split; [exact H03|]. split; [reflexivity|].
  exact (H04 eq_refl).
Defined.

(** C7.  A degenerate V domain.  When the two ends of Domain(V) of a
    cylinder face are the same number, scripts 03 and 04 do not fail, and
    the line they ask for starts and ends in the same point. *)
Theorem degenerate_domain_gives_point_segment
        (AddLine : Point3d.t -> Point3d.t -> option Guid)
        (surf : Surface) (face : FaceLike) (Domain : Z -> Interval.t)
        (st : BatchProcess.State) :
  fst (TryGetCylinder surf) = true ->
  fl_Domain face = Some Domain ->
  Interval.Min (Domain 1%Z) = Interval.Max (Domain 1%Z) ->
  exists p : Point3d.t,
    Spec.cylinder_segment (snd (TryGetCylinder surf)) Domain (fl_PointAt face)
    = (p, p)
    /\ CreateLineCylinder.create_line AddLine surf (Some face)
       = Ok (Spec.green_line AddLine p p)
    /\ (fst (TryGetCone surf) = false ->
        BatchProcess.annotate AddLine surf (Some face) st
        = Ok (BatchProcess.add_colored_line AddLine p p
                [0; 255; 0]%Z BatchProcess.CYLINDER st)).
Proof.
  intros Hcyl Hdom Hv.
  pose proof (cylinder_segment_degenerate (snd (TryGetCylinder surf)) Domain
                (fl_PointAt face) Hv) as E.
  exists (fst (Spec.cylinder_segment (snd (TryGetCylinder surf)) Domain
                                     (fl_PointAt face))).
  split; [|split].
  - rewrite E at 2. apply surjective_pairing.
  - rewrite (create_line_cylinder AddLine surf face Hcyl Hdom).
    rewrite <- E. reflexivity.
  - intros Hcone.
    rewrite (annotate_cylinder AddLine surf face st Hcone Hcyl Hdom).
    rewrite <- E. reflexivity.
Qed.

(** The sample cylinder trimmed to the single height 4 gives the point
    (0, 0, 4) twice. *)
Lemma degenerate_domain_gives_point_segment_witness :
  fst (TryGetCylinder Samples.degenerate_cylinder_surface) = true
  /\ fl_Domain (Samples.facelike_on Samples.degenerate_cylinder_surface)
     = Some (Samples.domain (-1) 1 4 4)
  /\ Interval.Min (Samples.domain (-1) 1 4 4 1%Z)
     = Interval.Max (Samples.domain (-1) 1 4 4 1%Z)
  /\ exists p : Point3d.t,
      Spec.cylinder_segment
        (snd (TryGetCylinder Samples.degenerate_cylinder_surface))
        (Samples.domain (-1) 1 4 4)
        (fl_PointAt (Samples.facelike_on Samples.degenerate_cylinder_surface))
      = (p, p)
      /\ CreateLineCylinder.create_line Samples.refusing_sink
           Samples.degenerate_cylinder_surface
           (Some (Samples.facelike_on Samples.degenerate_cylinder_surface))
         = Ok (Spec.green_line Samples.refusing_sink p p)
      /\ (fst (TryGetCone Samples.degenerate_cylinder_surface) = false ->
          BatchProcess.annotate Samples.refusing_sink
            Samples.degenerate_cylinder_surface
            (Some (Samples.facelike_on Samples.degenerate_cylinder_surface))
            BatchProcess.initial
          = Ok (BatchProcess.add_colored_line Samples.refusing_sink p p
                  [0; 255; 0]%Z BatchProcess.CYLINDER BatchProcess.initial)).
Proof.
  split; [reflexivity|]. split; [reflexivity|]. split; [reflexivity|].
  apply (degenerate_domain_gives_point_segment
           Samples.refusing_sink Samples.degenerate_cylinder_surface
           (Samples.facelike_on Samples.degenerate_cylinder_surface)
           BatchProcess.initial eq_refl eq_refl eq_refl).
Defined.

(** C5.  The axis segment of a cone.  For a surface that passes the cone
    fit, script 04 asks the sink for the line from [reference - axis*2.5]
    to [reference + axis*2.5]; the reference point is the face evaluated
    at the midpoints of Domain(U) and Domain(V) when there is a face with
    a domain, and the apex of the cone otherwise.  The half length 2.5 is
    the same for every face. *)
Theorem cone_axis_segment_extraction
        (AddLine : Point3d.t -> Point3d.t -> option Guid)
        (surf : Surface) (face : option FaceLike) (st : BatchProcess.State) :
  fst (TryGetCone surf) = true ->
  let cone := snd (TryGetCone surf) in
  let axis := Cone.Axis cone in
  exists reference : Point3d.t,
    BatchProcess.annotate AddLine surf face st
    = Ok (BatchProcess.add_colored_line AddLine
            (Geom.point_sub_vec reference (Geom.vec_scale axis 2.5))
            (Geom.point_add_vec reference (Geom.vec_scale axis 2.5))
            [255; 0; 0]%Z BatchProcess.CONE st)
    /\ (face = None -> reference = Cone.ApexPoint cone)
    /\ (forall f, face = Some f -> fl_Domain f = None ->
                  reference = Cone.ApexPoint cone)
    /\ (forall f Domain,
           face = Some f -> fl_Domain f = Some Domain ->
           reference
           = fl_PointAt f
               ((Interval.Min (Domain 0%Z) + Interval.Max (Domain 0%Z)) / 2)
               ((Interval.Min (Domain 1%Z) + Interval.Max (Domain 1%Z)) / 2)).
Proof.
  intros Hcone. cbv zeta.
  exists (Spec.cone_reference (snd (TryGetCone surf)) face).
  split; [|split; [|split]].
  - rewrite (annotate_cone AddLine surf face st Hcone). reflexivity.
  - intros ->. reflexivity.
  - intros f -> Hd. simpl. rewrite Hd. reflexivity.
  - intros f Domain -> Hd. simpl. rewrite Hd. reflexivity.
Qed.

(** The sample cone trimmed to the heights 1 to 3 has the reference point
    (2, 0, 2), and the segment runs from height -0.5 to height 4.5. *)
Lemma cone_axis_segment_extraction_witness :
  fst (TryGetCone Samples.cone_surface) = true
  /\ BatchProcess.calls
       (BatchProcess.add_colored_line Samples.accepting_sink
          (Point3d.new 2 0 (-0.5)) (Point3d.new 2 0 4.5)
          [255; 0; 0]%Z BatchProcess.CONE BatchProcess.initial)
     = [CallAddLine (Point3d.new 2 0 (-0.5)) (Point3d.new 2 0 4.5);
        CallObjectColor 7%Z [255; 0; 0]%Z]
  /\ exists reference : Point3d.t,
      BatchProcess.annotate Samples.accepting_sink Samples.cone_surface
        (Some (Samples.facelike_on Samples.cone_surface)) BatchProcess.initial
      = Ok (BatchProcess.add_colored_line Samples.accepting_sink
              (Geom.point_sub_vec reference
                 (Geom.vec_scale (Cone.Axis Samples.unit_cone) 2.5))
              (Geom.point_add_vec reference
                 (Geom.vec_scale (Cone.Axis Samples.unit_cone) 2.5))
              [255; 0; 0]%Z BatchProcess.CONE BatchProcess.initial)
      /\ reference = Point3d.new 2 0 2.
Proof.
  split; [reflexivity|]. split; [reflexivity|].
  destruct (cone_axis_segment_extraction
              Samples.accepting_sink Samples.cone_surface
              (Some (Samples.facelike_on Samples.cone_surface))
              BatchProcess.initial eq_refl)
    as (reference & Hrun & _ & _ & Hmid).
  exists reference. split; [exact Hrun|].
  rewrite (Hmid _ _ eq_refl eq_refl). reflexivity.
Defined.

(** C10.  A surface without point evaluation.  In script 04 the variable
    [face] is then [None].  If the surface passes the cylinder fit and
    not the cone fit, nothing is asked of the sink and the count stays;
    if it passes the cone fit, the line through the apex of the cone is
    asked for, and counted when the sink draws it. *)
Theorem bare_surface_asymmetry
        (AddLine : Point3d.t -> Point3d.t -> option Guid)
        (surf : Surface) (st : BatchProcess.State) :
  PointAt surf = None ->
  face_of_surface surf = None
  /\ (fst (TryGetCone surf) = false -> fst (TryGetCylinder surf) = true ->
      BatchProcess.annotate AddLine surf (face_of_surface surf) st
      = Ok {| BatchProcess.lines_created := BatchProcess.lines_created st;
              BatchProcess.printed :=
                BatchProcess.printed st ++ [BatchProcess.CYLINDER];
              BatchProcess.calls := BatchProcess.calls st |})
  /\ (fst (TryGetCone surf) = true ->
      let apex := Cone.ApexPoint (snd (TryGetCone surf)) in
      let ax := Cone.Axis (snd (TryGetCone surf)) in
      BatchProcess.annotate AddLine surf (face_of_surface surf) st
      = Ok (BatchProcess.add_colored_line AddLine
              (Geom.point_sub_vec apex (Geom.vec_scale ax 2.5))
              (Geom.point_add_vec apex (Geom.vec_scale ax 2.5))
              [255; 0; 0]%Z BatchProcess.CONE st)).
Proof.
  intros Hbare.
  assert (Hface : face_of_surface surf = None)
    by (unfold face_of_surface; rewrite Hbare; reflexivity).
  rewrite Hface. split; [reflexivity|]. split.
  - intros Hcone Hcyl. apply annotate_cylinder_no_face; assumption.
  - intros Hcone. cbv zeta.
    rewrite (annotate_cone AddLine surf None st Hcone). reflexivity.
Qed.

(** The sample cylinder and the sample cone, both without evaluation,
    under a sink that draws every line: nothing for the cylinder, one red
    line through the origin for the cone. *)
Lemma bare_surface_asymmetry_witness :
  PointAt (Samples.bare (Samples.cylinder_surface 1)) = None
  /\ PointAt (Samples.bare Samples.cone_surface) = None
  /\ BatchProcess.main Samples.accepting_sink
       [Samples.surface_object (Samples.bare (Samples.cylinder_surface 1))]
     = Ok {| BatchProcess.lines_created := 0;
             BatchProcess.printed := [BatchProcess.CYLINDER];
             BatchProcess.calls := [] |}
  /\ BatchProcess.main Samples.accepting_sink
       [Samples.surface_object (Samples.bare Samples.cone_surface)]
     = Ok {| BatchProcess.lines_created := 1;
             BatchProcess.printed := [BatchProcess.CONE];
             BatchProcess.calls :=
               [CallAddLine (Point3d.new 0 0 (-2.5)) (Point3d.new 0 0 2.5);
                CallObjectColor 7%Z [255; 0; 0]%Z] |}.
Proof.
  split; [reflexivity|]. split; [reflexivity|]. split.
  - apply (proj1 (proj2 (bare_surface_asymmetry
                           Samples.accepting_sink
                           (Samples.bare (Samples.cylinder_surface 1))
                           BatchProcess.initial eq_refl))
                 eq_refl eq_refl).
  - apply (proj2 (proj2 (bare_surface_asymmetry
                           Samples.accepting_sink
                           (Samples.bare Samples.cone_surface)
                           BatchProcess.initial eq_refl))
                 eq_refl).
Defined.
End AxisSegments.

(* ------------------------------------------------------------------ *)
(** ** Precedence of the fits *)

Section Precedence.
Local Open Scope Z_scope.

(** Where the cylinder fit stands in the three scripts.  For a surface
    that passes the cylinder fit: the statistics count it as a cylinder
    and as nothing else,
    whatever the cone fit, the planarity test and the kind name say; the
    summary of the inspection and the verdict of the batch script are
    CONE when the cone fit succeeds as well, and CYLINDER otherwise,
    whatever the planarity test and the kind name say. *)
Theorem classification_precedence
        (AddLine : Point3d.t -> Point3d.t -> option Guid)
        (surf : Surface) (face : BrepFace) (fl : option FaceLike)
        (count : option Z) (c : AnalyzeBrep.Counters)
        (st : BatchProcess.State) :
  fst (TryGetCylinder surf) = true ->
  UnderlyingSurface face = surf ->
  Spec.classify face = Spec.Cylinder
  /\ AnalyzeBrep.count_face face c
     = Spec.increment_above
         (AnalyzeBrep.DIAMETER_THRESHOLD
          <? Cylinder.Radius (snd (TryGetCylinder surf)) * 2)%float
         (Spec.increment Spec.Cylinder c)
  /\ CheckSurface.SUMMARY (CheckSurface.describe count surf fl)
     = (if fst (TryGetCone surf) then CheckSurface.CONE
        else CheckSurface.CYLINDER)
  /\ (fst (TryGetCone surf) = true ->
      exists st',
        BatchProcess.annotate AddLine surf fl st = Ok st'
        /\ BatchProcess.printed st'
           = BatchProcess.printed st ++ [BatchProcess.CONE])
  /\ (fst (TryGetCone surf) = false ->
      (forall f, fl = Some f -> fl_Domain f <> None) ->
      exists st',
        BatchProcess.annotate AddLine surf fl st = Ok st'
        /\ BatchProcess.printed st'
           = BatchProcess.printed st ++ [BatchProcess.CYLINDER]).
Proof.
  intros Hcyl Hsurf.
  assert (Hclass : Spec.classify face = Spec.Cylinder)
    by (unfold Spec.classify; rewrite Hsurf, Hcyl; reflexivity).
  split; [exact Hclass|]. split; [|split; [|split]].
  - rewrite count_face_visit. unfold Spec.visit, Spec.above_threshold.
    rewrite Hclass, Hsurf. reflexivity.
  - unfold CheckSurface.describe.
    destruct (TryGetCylinder surf) as [is_cyl cyl]. simpl in Hcyl. subst is_cyl.
    destruct (TryGetCone surf) as [is_cone cone].
    destruct (TryGetSphere surf) as [is_sphere sphere].
    destruct is_cone; reflexivity.
  - intros Hcone. rewrite (annotate_cone AddLine surf fl st Hcone).
    eexists. split; [reflexivity|].
    unfold BatchProcess.add_colored_line.
    destruct (AddLine _ _); reflexivity.
  - intros Hcone Hdom. destruct fl as [f|].
    + destruct (fl_Domain f) as [Domain|] eqn:Hd.
      * rewrite (annotate_cylinder AddLine surf f st Hcone Hcyl Hd).
        eexists. split; [reflexivity|].
        unfold BatchProcess.add_colored_line.
        destruct (AddLine _ _); reflexivity.
      * exfalso. exact (Hdom f eq_refl Hd).
    + rewrite (annotate_cylinder_no_face AddLine surf st Hcone Hcyl).
      eexists. split; reflexivity.
Qed.

(** The cylinder that is also reported planar is a cylinder in all three
    scripts. *)
Lemma classification_precedence_witness :
  fst (TryGetCylinder Samples.flat_cylinder_surface) = true
  /\ face_IsPlanar (Samples.face_on Samples.flat_cylinder_surface) = true
  /\ Spec.classify (Samples.face_on Samples.flat_cylinder_surface)
     = Spec.Cylinder
  /\ CheckSurface.SUMMARY
       (CheckSurface.describe None Samples.flat_cylinder_surface
          (face_of_surface Samples.flat_cylinder_surface))
     = CheckSurface.CYLINDER
  /\ exists st',
      BatchProcess.annotate Samples.accepting_sink
        Samples.flat_cylinder_surface
        (face_of_surface Samples.flat_cylinder_surface) BatchProcess.initial
      = Ok st'
      /\ BatchProcess.printed st' = [BatchProcess.CYLINDER].
Proof.
  pose proof (@classification_precedence
                Samples.accepting_sink
                Samples.flat_cylinder_surface
                (Samples.face_on Samples.flat_cylinder_surface)
                (face_of_surface Samples.flat_cylinder_surface)
                None AnalyzeBrep.initial BatchProcess.initial
                eq_refl eq_refl) as (H1 & _ & H3 & _ & H5).
  split; [reflexivity|]. split; [reflexivity|].
  split; [exact H1|]. split; [exact H3|].
  apply H5; [reflexivity|].
  intros f Hf. injection Hf as <-. discriminate.
Defined.

(** C1, at the sample surface that passes both the cylinder fit and the
    cone fit.  The statistics count it as a cylinder, as the precedence
    of the classifier has it.  The inspection and the batch script
    branch on the cone fit before the cylinder fit: the inspection sums
    the surface up as CONE, and the batch script prints CONE and asks
    for a red line of half length 2.5 about the middle of the face. *)
Lemma cylinder_not_first_in_inspection_and_batch :
  fst (TryGetCylinder Samples.cylinder_and_cone_surface) = true
  /\ Spec.summary_of
       (CheckSurface.main
          [Samples.surface_object Samples.cylinder_and_cone_surface])
     = Ok (Some CheckSurface.CONE)
  /\ BatchProcess.main Samples.accepting_sink
       [Samples.surface_object Samples.cylinder_and_cone_surface]
     = Ok {| BatchProcess.lines_created := 1;
             BatchProcess.printed := [BatchProcess.CONE];
             BatchProcess.calls :=
               [CallAddLine (Point3d.new 1 0 2.5) (Point3d.new 1 0 7.5);
                CallObjectColor 7 [255; 0; 0]] |}
  /\ AnalyzeBrep.main
       [Samples.brep_object
          [Samples.face_on Samples.cylinder_and_cone_surface]]
     = Ok (Some {| AnalyzeBrep.cylinders := 1; AnalyzeBrep.cones := 0;
                   AnalyzeBrep.planes := 0; AnalyzeBrep.nurbs := 0;
                   AnalyzeBrep.others := 0;
                   AnalyzeBrep.cylinders_above_threshold := 0 |}).
Proof.
  split; [reflexivity|]. split; [reflexivity|].
  split; vm_compute; reflexivity.
Qed.
End Precedence.

(* ------------------------------------------------------------------ *)
(** ** Which face of a Brep is looked at *)

Section FirstFace.
Local Open Scope Z_scope.

(** C9.  An object of type 16 that resolves to a Brep with first face [f]:
    scripts 02, 03 and 04 work on [f] and its underlying surface alone.
    The report of the inspection is the description of [f], in which the
    other faces show in the face count only; the sink calls of script 03
    and the step of script 04 are those for [f]; so two Breps with the
    same first face give the same summary, the same fits, the same lines
    and the same count. *)
Theorem brep_first_face_only
        (AddLine : Point3d.t -> Point3d.t -> option Guid)
        (obj : DocObject) (f : BrepFace) (rest rest' : list BrepFace)
        (others : list DocObject) (st : BatchProcess.State) :
  ObjectType obj = 16 ->
  let o := Spec.with_faces (f :: rest) obj in
  let o' := Spec.with_faces (f :: rest') obj in
  let surf := UnderlyingSurface f in
  let face := Some (face_of_brepface f) in
  CheckSurface.main (o :: others)
  = Ok (Some (CheckSurface.describe
                (Some (Z.of_nat (List.length (f :: rest)))) surf face))
  /\ Spec.summary_of (CheckSurface.main (o :: others))
     = Spec.summary_of (CheckSurface.main (o' :: others))
  /\ (forall n n' : option Z,
         let r := CheckSurface.describe n surf face in
         let r' := CheckSurface.describe n' surf face in
         CheckSurface.SUMMARY r = CheckSurface.SUMMARY r'
         /\ CheckSurface.surface_class r = CheckSurface.surface_class r'
         /\ CheckSurface.cylinder_line r = CheckSurface.cylinder_line r'
         /\ CheckSurface.cone_line r = CheckSurface.cone_line r'
         /\ CheckSurface.sphere_line r = CheckSurface.sphere_line r'
         /\ CheckSurface.plane_line r = CheckSurface.plane_line r'
         /\ CheckSurface.face_center r = CheckSurface.face_center r')
  /\ CreateLineCylinder.main AddLine (o :: others)
     = CreateLineCylinder.create_line AddLine surf face
  /\ CreateLineCylinder.main AddLine (o :: others)
     = CreateLineCylinder.main AddLine (o' :: others)
  /\ BatchProcess.process AddLine o st
     = BatchProcess.annotate AddLine surf face st
  /\ BatchProcess.process AddLine o st = BatchProcess.process AddLine o' st
  /\ BatchProcess.main AddLine (o :: others)
     = BatchProcess.main AddLine (o' :: others).
Proof.
  intros Ht. cbv zeta.
  assert (H2 : forall fs,
             CheckSurface.main (Spec.with_faces (f :: fs) obj :: others)
             = Ok (Some (CheckSurface.describe
                           (Some (Z.of_nat (List.length (f :: fs))))
                           (UnderlyingSurface f)
                           (Some (face_of_brepface f))))).
  { intros fs. unfold CheckSurface.main, Spec.with_faces.
    cbn [ObjectType coercebrep]. rewrite Ht. reflexivity. }
  assert (H3 : forall fs,
             CreateLineCylinder.main AddLine
               (Spec.with_faces (f :: fs) obj :: others)
             = CreateLineCylinder.create_line AddLine (UnderlyingSurface f)
                 (Some (face_of_brepface f))).
  { intros fs. unfold CreateLineCylinder.main, Spec.with_faces.
    cbn [ObjectType coercebrep]. rewrite Ht. reflexivity. }
  assert (H4 : forall fs s,
             BatchProcess.process AddLine (Spec.with_faces (f :: fs) obj) s
             = BatchProcess.annotate AddLine (UnderlyingSurface f)
                 (Some (face_of_brepface f)) s).
  { intros fs s. unfold BatchProcess.process, Spec.with_faces.
    cbn [ObjectType coercebrep]. rewrite Ht. reflexivity. }
  assert (Hd : forall n n' : option Z,
             let r := CheckSurface.describe n (UnderlyingSurface f)
                        (Some (face_of_brepface f)) in
             let r' := CheckSurface.describe n' (UnderlyingSurface f)
                         (Some (face_of_brepface f)) in
             CheckSurface.SUMMARY r = CheckSurface.SUMMARY r'
             /\ CheckSurface.surface_class r = CheckSurface.surface_class r'
             /\ CheckSurface.cylinder_line r = CheckSurface.cylinder_line r'
             /\ CheckSurface.cone_line r = CheckSurface.cone_line r'
             /\ CheckSurface.sphere_line r = CheckSurface.sphere_line r'
             /\ CheckSurface.plane_line r = CheckSurface.plane_line r'
             /\ CheckSurface.face_center r = CheckSurface.face_center r').
  { intros n n'. unfold CheckSurface.describe.
    destruct (TryGetCylinder (UnderlyingSurface f)) as [is_cyl cyl].
    destruct (TryGetCone (UnderlyingSurface f)) as [is_cone cone].
    destruct (TryGetSphere (UnderlyingSurface f)) as [is_sphere sphere].
    cbv zeta. cbn. repeat split. }
  split; [apply H2|]. split.
  { rewrite !H2. cbn [Spec.summary_of]. do 2 f_equal. apply Hd. }
  split; [exact Hd|].
  split; [apply H3|]. split; [rewrite !H3; reflexivity|].
  split; [apply H4|]. split; [rewrite !H4; reflexivity|].
  unfold BatchProcess.main. cbn [BatchProcess.loop]. rewrite !H4. reflexivity.
Qed.

(** A Brep whose first face is the sample cylinder, be it followed by a
    cone or by two planes: the summary is CYLINDER and the line is the
    axis of the cylinder between the heights 0 and 10. *)
Lemma brep_first_face_only_witness :
  ObjectType (Samples.brep_object []) = 16
  /\ Spec.summary_of
       (CheckSurface.main
          [Samples.brep_object
             [Samples.face_on (Samples.cylinder_surface 1);
              Samples.face_on Samples.cone_surface]])
     = Ok (Some CheckSurface.CYLINDER)
  /\ CreateLineCylinder.main Samples.accepting_sink
       [Samples.brep_object
          [Samples.face_on (Samples.cylinder_surface 1);
           Samples.face_on Samples.cone_surface]]
     = CreateLineCylinder.main Samples.accepting_sink
         [Samples.brep_object
            [Samples.face_on (Samples.cylinder_surface 1);
             Samples.face_on Samples.plane_surface;
             Samples.face_on Samples.plane_surface]].
Proof.
  pose proof (@brep_first_face_only
                Samples.accepting_sink (Samples.brep_object [])
                (Samples.face_on (Samples.cylinder_surface 1))
                [Samples.face_on Samples.cone_surface]
                [Samples.face_on Samples.plane_surface;
                 Samples.face_on Samples.plane_surface]
                [] BatchProcess.initial eq_refl)
    as (H1 & _ & _ & _ & H5 & _).
  split; [reflexivity|]. split.
  - change (Samples.brep_object
              [Samples.face_on (Samples.cylinder_surface 1);
               Samples.face_on Samples.cone_surface])
      with (Spec.with_faces
              [Samples.face_on (Samples.cylinder_surface 1);
               Samples.face_on Samples.cone_surface]
              (Samples.brep_object [])).
    rewrite H1. reflexivity.
  - exact H5.
Defined.
End FirstFace.

(* ------------------------------------------------------------------ *)
(** ** The sphere fit *)

Section SphereFit.
Variable g : Surface -> bool * Sphere.t.
Variable AddLine : Point3d.t -> Point3d.t -> option Guid.

Lemma visit_with_sphere (c : AnalyzeBrep.Counters) (f : BrepFace) :
  Spec.visit c (Spec.face_with_sphere g f) = Spec.visit c f.
Proof. reflexivity. Qed.

Lemma fold_visit_with_sphere (faces : list BrepFace) :
  forall c,
    fold_left Spec.visit (map (Spec.face_with_sphere g) faces) c
    = fold_left Spec.visit faces c.
Proof.
  induction faces as [|f fs IH]; intros c; simpl.
  - reflexivity.
  - rewrite visit_with_sphere. apply IH.
Qed.

Lemma analyze_with_sphere (sel : list DocObject) :
  AnalyzeBrep.main (map (Spec.object_with_sphere g) sel)
  = AnalyzeBrep.main sel.
Proof.
  destruct sel as [|obj rest]; [reflexivity|].
  unfold AnalyzeBrep.main, Spec.object_with_sphere. simpl map.
  cbn [ObjectType coercebrep].
  destruct (ObjectType obj =? 16)%Z; [|reflexivity].
  destruct (coercebrep obj) as [geo|]; [|reflexivity].
  simpl option_map. rewrite !analyze_fold. cbn [Faces].
  rewrite fold_visit_with_sphere. reflexivity.
Qed.

Lemma describe_with_sphere (count : option Z) (s : Surface)
      (sphere : bool * Sphere.t) (face : option FaceLike) :
  CheckSurface.SUMMARY
    (CheckSurface.describe count (Spec.with_sphere sphere s) face)
  = CheckSurface.SUMMARY (CheckSurface.describe count s face).
Proof.
  unfold CheckSurface.describe, Spec.with_sphere.
  cbn [GetType_Name TryGetCylinder TryGetCone TryGetSphere].
  destruct (TryGetCylinder s) as [is_cyl cyl].
  destruct (TryGetCone s) as [is_cone cone].
  destruct sphere as [b1 s1]. destruct (TryGetSphere s) as [b2 s2].
  reflexivity.
Qed.

Lemma inspect_with_sphere (sel : list DocObject) :
  Spec.summary_of (CheckSurface.main (map (Spec.object_with_sphere g) sel))
  = Spec.summary_of (CheckSurface.main sel).
Proof.
  destruct sel as [|obj rest]; [reflexivity|].
  unfold CheckSurface.main, Spec.object_with_sphere. simpl map.
  cbn [ObjectType coercebrep coercesurface].
  destruct ((ObjectType obj =? 8)%Z || (ObjectType obj =? 16)%Z);
    [|reflexivity].
  destruct (ObjectType obj =? 16)%Z.
  - destruct (coercebrep obj) as [[faces]|]; [|reflexivity].
    simpl option_map. destruct faces as [|f fs]; [reflexivity|].
    unfold Faces_item. cbn [Faces map nth_error bind Spec.summary_of].
    rewrite <- (describe_with_sphere _ (UnderlyingSurface f)
                  (g (UnderlyingSurface f))).
    simpl List.length. rewrite length_map. reflexivity.
  - destruct (coercesurface obj) as [s|]; [|reflexivity].
    simpl option_map. cbn [Spec.summary_of].
    rewrite <- (describe_with_sphere None s (g s) (face_of_surface s)).
    reflexivity.
Qed.

Lemma create_line_with_sphere (sel : list DocObject) :
  CreateLineCylinder.main AddLine (map (Spec.object_with_sphere g) sel)
  = CreateLineCylinder.main AddLine sel.
Proof.
  destruct sel as [|obj rest]; [reflexivity|].
  unfold CreateLineCylinder.main, Spec.object_with_sphere. simpl map.
  cbn [ObjectType coercebrep coercesurface].
  destruct (ObjectType obj =? 16)%Z.
  - destruct (coercebrep obj) as [[faces]|]; [|reflexivity].
    destruct faces as [|f fs]; reflexivity.
  - destruct (coercesurface obj) as [s|]; reflexivity.
Qed.

Lemma process_with_sphere (obj : DocObject) (st : BatchProcess.State) :
  BatchProcess.process AddLine (Spec.object_with_sphere g obj) st
  = BatchProcess.process AddLine obj st.
Proof.
  unfold BatchProcess.process, Spec.object_with_sphere.
  cbn [ObjectType coercebrep coercesurface].
  destruct ((ObjectType obj =? 8)%Z || (ObjectType obj =? 16)%Z);
    [|reflexivity].
  destruct (ObjectType obj =? 16)%Z.
  - destruct (coercebrep obj) as [[faces]|]; [|reflexivity].
    destruct faces as [|f fs]; reflexivity.
  - destruct (coercesurface obj) as [s|]; reflexivity.
Qed.

Lemma loop_with_sphere (sel : list DocObject) :
  forall st,
    BatchProcess.loop AddLine (map (Spec.object_with_sphere g) sel) st
    = BatchProcess.loop AddLine sel st.
Proof.
  induction sel as [|obj rest IH]; intros st; simpl.
  - reflexivity.
  - rewrite process_with_sphere.
    destruct (BatchProcess.process AddLine obj st); simpl;
      [apply IH | reflexivity].
Qed.

(** C8.  The sphere fit does not interfere.  Let every sphere fit of a
    selection answer in any other way.  The inspection reports the
    sphere fit it was given, and its summary, be it a verdict, nothing or
    a failure, is the same as before; the statistics, the line of script
    03 and the whole run of script 04 are the same as before. *)
Theorem sphere_fit_noninterference :
  forall sel : list DocObject,
    Spec.summary_of (CheckSurface.main (map (Spec.object_with_sphere g) sel))
    = Spec.summary_of (CheckSurface.main sel)
    /\ (forall (count : option Z) (s : Surface) (face : option FaceLike),
           CheckSurface.sphere_line (CheckSurface.describe count s face)
           = (if fst (TryGetSphere s) then Some (snd (TryGetSphere s))
              else None))
    /\ (forall (count : option Z) (s : Surface) (face : option FaceLike)
               (sphere : bool * Sphere.t),
           CheckSurface.SUMMARY
             (CheckSurface.describe count (Spec.with_sphere sphere s) face)
           = CheckSurface.SUMMARY (CheckSurface.describe count s face))
    /\ AnalyzeBrep.main (map (Spec.object_with_sphere g) sel)
       = AnalyzeBrep.main sel
    /\ CreateLineCylinder.main AddLine (map (Spec.object_with_sphere g) sel)
       = CreateLineCylinder.main AddLine sel
    /\ BatchProcess.main AddLine (map (Spec.object_with_sphere g) sel)
       = BatchProcess.main AddLine sel.
Proof.
  intros sel. split; [apply inspect_with_sphere|]. split.
  { intros count s face. unfold CheckSurface.describe.
    destruct (TryGetCylinder s) as [is_cyl cyl].
    destruct (TryGetCone s) as [is_cone cone].
    destruct (TryGetSphere s) as [is_sphere sphere].
    reflexivity. }
  split; [intros; apply describe_with_sphere|].
  split; [apply analyze_with_sphere|].
  split; [apply create_line_with_sphere|].
  apply loop_with_sphere.
Qed.
End SphereFit.

(* ------------------------------------------------------------------ *)
(** ** The batch run *)

Section Batch.
Variable AddLine : Point3d.t -> Point3d.t -> option Guid.
Local Open Scope Z_scope.

Lemma count_calls_app (p : SinkCall -> bool) (a b : list SinkCall) :
  Spec.count_calls p (a ++ b) = Spec.count_calls p a + Spec.count_calls p b.
Proof.
  unfold Spec.count_calls. rewrite filter_app, length_app. lia.
Qed.

Lemma grows_by_refl (st : BatchProcess.State) : Spec.grows_by AddLine st st [].
Proof.
  unfold Spec.grows_by, Spec.count_calls. simpl. rewrite app_nil_r.
  repeat split; lia.
Qed.

Lemma grows_by_no_line (v : BatchProcess.Verdict) (st : BatchProcess.State) :
  Spec.grows_by AddLine st (Spec.no_line v st) [].
Proof.
  unfold Spec.grows_by, Spec.count_calls. simpl. rewrite app_nil_r.
  repeat split; lia.
Qed.

Lemma grows_by_add_colored_line (s e : Point3d.t) (color : list Z)
      (v : BatchProcess.Verdict) (st : BatchProcess.State) :
  Spec.grows_by AddLine st
    (BatchProcess.add_colored_line AddLine s e color v st)
    (CallAddLine s e ::
     match AddLine s e with
     | Some ln => [CallObjectColor ln color]
     | None => []
     end).
Proof.
  unfold Spec.grows_by, BatchProcess.add_colored_line, Spec.count_calls.
  destruct (AddLine s e) as [ln|] eqn:E; simpl; rewrite E; simpl;
    repeat split; lia.
Qed.

Lemma grows_by_trans (st1 st2 st3 : BatchProcess.State)
      (new1 new2 : list SinkCall) :
  Spec.grows_by AddLine st1 st2 new1 ->
  Spec.grows_by AddLine st2 st3 new2 ->
  Spec.grows_by AddLine st1 st3 (new1 ++ new2).
Proof.
  unfold Spec.grows_by. intros (Ea & La & Ma & Ra) (Eb & Lb & Mb & Rb).
  rewrite !count_calls_app. rewrite Eb, Ea, app_assoc.
  repeat split; lia.
Qed.

(** One step of the body asks for at most one line. *)
Lemma annotate_grows (surf : Surface) (face : option FaceLike)
      (st st' : BatchProcess.State) :
  BatchProcess.annotate AddLine surf face st = Ok st' ->
  exists new,
    Spec.grows_by AddLine st st' new
    /\ Spec.count_calls is_AddLine new <= 1.
Proof.
  destruct (fst (TryGetCone surf)) eqn:Hcone.
  - rewrite (annotate_cone AddLine surf face st Hcone).
    intros H. injection H as <-. eexists. split.
    + apply grows_by_add_colored_line.
    + unfold Spec.count_calls. simpl.
      destruct (AddLine _ _); simpl; lia.
  - destruct (fst (TryGetCylinder surf)) eqn:Hcyl.
    + destruct face as [f|].
      * destruct (fl_Domain f) as [Domain|] eqn:Hd.
        -- rewrite (annotate_cylinder AddLine surf f st Hcone Hcyl Hd).
           intros H. injection H as <-. eexists. split.
           ++ apply grows_by_add_colored_line.
           ++ unfold Spec.count_calls. simpl.
              destruct (AddLine _ _); simpl; lia.
        -- rewrite (annotate_cylinder_no_domain AddLine surf f st
                      Hcone Hcyl Hd).
           discriminate.
      * rewrite (annotate_cylinder_no_face AddLine surf st Hcone Hcyl).
        intros H. injection H as <-. exists []. split.
        -- apply (grows_by_no_line BatchProcess.CYLINDER).
        -- unfold Spec.count_calls. simpl. lia.
    + rewrite (annotate_other AddLine surf face st Hcone Hcyl).
      intros H. injection H as <-. exists []. split.
      * apply (grows_by_no_line BatchProcess.OTHER_TYPE).
      * unfold Spec.count_calls. simpl. lia.
Qed.

Lemma process_grows (obj : DocObject) (st st' : BatchProcess.State) :
  BatchProcess.process AddLine obj st = Ok st' ->
  exists new,
    Spec.grows_by AddLine st st' new
    /\ Spec.count_calls is_AddLine new <= 1.
Proof.
  assert (Hrefl : Ok st = Ok st' ->
                  exists new, Spec.grows_by AddLine st st' new
                              /\ Spec.count_calls is_AddLine new <= 1).
  { intros H. injection H as <-. exists []. split.
    - apply grows_by_refl.
    - unfold Spec.count_calls. simpl. lia. }
  unfold BatchProcess.process.
  destruct ((ObjectType obj =? 8) || (ObjectType obj =? 16)); [|exact Hrefl].
  destruct (ObjectType obj =? 16).
  - destruct (coercebrep obj) as [[faces]|]; [|exact Hrefl].
    destruct faces as [|f fs]; cbn [Faces List.length].
    + discriminate.
    + replace (Z.of_nat (S (List.length fs)) >? 0) with true
        by (symmetry; apply Z.gtb_lt; lia).
      unfold Faces_item. cbn [Faces nth_error bind]. apply annotate_grows.
  - destruct (coercesurface obj) as [s|]; [|exact Hrefl].
    apply annotate_grows.
Qed.

Lemma loop_grows (sel : list DocObject) :
  forall st st' : BatchProcess.State,
    BatchProcess.loop AddLine sel st = Ok st' ->
    exists new,
      Spec.grows_by AddLine st st' new
      /\ Spec.count_calls is_AddLine new <= Z.of_nat (List.length sel).
Proof.
  induction sel as [|obj rest IH]; intros st st' H.
  - simpl in H. injection H as <-. exists []. split.
    + apply grows_by_refl.
    + unfold Spec.count_calls. simpl. lia.
  - simpl in H.
    destruct (BatchProcess.process AddLine obj st) as [st1|e] eqn:E;
      [|discriminate].
    simpl in H.
    destruct (process_grows obj st E) as (new1 & G1 & B1).
    destruct (IH st1 st' H) as (new2 & G2 & B2).
    exists (new1 ++ new2). split.
    + exact (grows_by_trans G1 G2).
    + rewrite count_calls_app. simpl List.length. lia.
Qed.

Lemma loop_app (sel1 sel2 : list DocObject) :
  forall st : BatchProcess.State,
    BatchProcess.loop AddLine (sel1 ++ sel2) st
    = (st' <- BatchProcess.loop AddLine sel1 st ;;
       BatchProcess.loop AddLine sel2 st').
Proof.
  induction sel1 as [|obj rest IH]; intros st; simpl.
  - reflexivity.
  - destruct (BatchProcess.process AddLine obj st) as [st1|e]; simpl.
    + apply IH.
    + reflexivity.
Qed.

Lemma filter_materialized_accepting (calls : list SinkCall) :
  (forall s e, AddLine s e <> None) ->
  filter (Spec.materialized AddLine) calls = filter is_AddLine calls.
Proof.
  intros Hacc. induction calls as [|c cs IH]; simpl.
  - reflexivity.
  - destruct c as [s e|ln color]; simpl.
    + destruct (AddLine s e) eqn:E; [rewrite IH; reflexivity|].
      exfalso. exact (Hacc s e E).
    + exact IH.
Qed.
End Batch.

Section BatchClaims.
Local Open Scope Z_scope.

(** C6, as the script has it.  After a run of script 04 that ends,
    [lines_created] is the number of requests the sink turned into a
    line, which is also the number of lines that were coloured.  It is at
    most the number of requests, which is at most the number of selected
    objects, and it is the number of requests when the sink never
    refuses. *)
Theorem created_count_is_materialized_count
        (AddLine : Point3d.t -> Point3d.t -> option Guid)
        (sel : list DocObject) (st : BatchProcess.State) :
  BatchProcess.main AddLine sel = Ok st ->
  BatchProcess.lines_created st
  = Spec.count_calls (Spec.materialized AddLine) (BatchProcess.calls st)
  /\ BatchProcess.lines_created st
     = Spec.count_calls is_ObjectColor (BatchProcess.calls st)
  /\ BatchProcess.lines_created st
     <= Z.of_nat (List.length (Spec.requests (BatchProcess.calls st)))
  /\ Z.of_nat (List.length (Spec.requests (BatchProcess.calls st)))
     <= Z.of_nat (List.length sel)
  /\ ((forall s e, AddLine s e <> None) ->
      BatchProcess.lines_created st
      = Z.of_nat (List.length (Spec.requests (BatchProcess.calls st)))).
Proof.
  intros Hrun. unfold BatchProcess.main in Hrun.
  destruct (@loop_grows AddLine sel _ _ Hrun) as (new & (E & L & M & R) & B).
  simpl in E, L. subst new. rewrite L.
  change (Z.of_nat (List.length (Spec.requests (BatchProcess.calls st))))
    with (Spec.count_calls is_AddLine (BatchProcess.calls st)).
  split; [lia|]. split; [lia|]. split; [lia|]. split; [lia|].
  intros Hacc. unfold Spec.count_calls.
  rewrite (@filter_materialized_accepting AddLine (BatchProcess.calls st) Hacc).
  lia.
Qed.

(** Under the sink that draws every line the four sample items give two
    requests and the count 2, with four objects selected. *)
Lemma created_count_is_materialized_count_witness :
  BatchProcess.main Samples.accepting_sink Samples.four_items
  = Ok {| BatchProcess.lines_created := 2;
          BatchProcess.printed :=
            [BatchProcess.CYLINDER; BatchProcess.OTHER_TYPE;
             BatchProcess.CONE; BatchProcess.OTHER_TYPE];
          BatchProcess.calls :=
            [CallAddLine (Point3d.new 0 0 0) (Point3d.new 0 0 10);
             CallObjectColor 7 [0; 255; 0];
             CallAddLine (Point3d.new 2 0 (-0.5)) (Point3d.new 2 0 4.5);
             CallObjectColor 7 [255; 0; 0]] |}
  /\ 2 = Spec.count_calls (Spec.materialized Samples.accepting_sink)
           [CallAddLine (Point3d.new 0 0 0) (Point3d.new 0 0 10);
            CallObjectColor 7 [0; 255; 0];
            CallAddLine (Point3d.new 2 0 (-0.5)) (Point3d.new 2 0 4.5);
            CallObjectColor 7 [255; 0; 0]]
  /\ 2 <= Z.of_nat (List.length Samples.four_items).
Proof.
  assert (Hrun :
            BatchProcess.main Samples.accepting_sink Samples.four_items
            = Ok {| BatchProcess.lines_created := 2;
                    BatchProcess.printed :=
                      [BatchProcess.CYLINDER; BatchProcess.OTHER_TYPE;
                       BatchProcess.CONE; BatchProcess.OTHER_TYPE];
                    BatchProcess.calls :=
                      [CallAddLine (Point3d.new 0 0 0) (Point3d.new 0 0 10);
                       CallObjectColor 7 [0; 255; 0];
                       CallAddLine (Point3d.new 2 0 (-0.5))
                                   (Point3d.new 2 0 4.5);
                       CallObjectColor 7 [255; 0; 0]] |})
    by (vm_compute; reflexivity).
  split; [exact Hrun|].
  destruct (@created_count_is_materialized_count
              Samples.accepting_sink Samples.four_items _ Hrun)
    as (H1 & _ & H3 & H4 & _).
  split; [exact H1|].
  exact (Z.le_trans _ _ _ H3 H4).
Defined.

(** C6 as stated fails.  One selected cylinder, one request; the sink
    that draws no line leaves the count at 0, the sink that draws every
    line brings it to 1. *)
Lemma created_count_depends_on_sink :
  BatchProcess.main Samples.refusing_sink
    [Samples.surface_object (Samples.cylinder_surface 1)]
  = Ok {| BatchProcess.lines_created := 0;
          BatchProcess.printed := [BatchProcess.CYLINDER];
          BatchProcess.calls :=
            [CallAddLine (Point3d.new 0 0 0) (Point3d.new 0 0 10)] |}
  /\ BatchProcess.main Samples.accepting_sink
       [Samples.surface_object (Samples.cylinder_surface 1)]
     = Ok {| BatchProcess.lines_created := 1;
             BatchProcess.printed := [BatchProcess.CYLINDER];
             BatchProcess.calls :=
               [CallAddLine (Point3d.new 0 0 0) (Point3d.new 0 0 10);
                CallObjectColor 7 [0; 255; 0]] |}.
Proof.
  split; vm_compute; reflexivity.
Qed.

(** C4, as the script has it.  The step of script 04 on a surface and
    its face: a surface that passes the cone fit gives one request, for
    the cone segment, coloured red once the sink has drawn it; a surface
    that passes the cylinder fit only, with a face that has a domain,
    gives one request, for the cylinder segment, coloured green once the
    sink has drawn it; a cylinder without a face, and a surface that
    passes neither fit, give no request.  A request is appended to those
    of the earlier items, a run over two selections in a row is the run
    over the first followed by the run over the second, and a selected
    object of type 8 is handled as its surface.  The selection cylinder,
    plane, cone, freeform gives the request for the cylinder and then the
    one for the cone, and the count 2 when the sink draws both. *)
Theorem batch_planning
        (AddLine : Point3d.t -> Point3d.t -> option Guid) :
  (forall surf face st,
      fst (TryGetCone surf) = true ->
      BatchProcess.annotate AddLine surf face st
      = Ok (BatchProcess.add_colored_line AddLine
              (fst (Spec.cone_segment (snd (TryGetCone surf))
                      (Spec.cone_reference (snd (TryGetCone surf)) face)))
              (snd (Spec.cone_segment (snd (TryGetCone surf))
                      (Spec.cone_reference (snd (TryGetCone surf)) face)))
              [255; 0; 0] BatchProcess.CONE st))
  /\ (forall surf face Domain st,
         fst (TryGetCone surf) = false ->
         fst (TryGetCylinder surf) = true ->
         fl_Domain face = Some Domain ->
         BatchProcess.annotate AddLine surf (Some face) st
         = Ok (BatchProcess.add_colored_line AddLine
                 (fst (Spec.cylinder_segment (snd (TryGetCylinder surf))
                         Domain (fl_PointAt face)))
                 (snd (Spec.cylinder_segment (snd (TryGetCylinder surf))
                         Domain (fl_PointAt face)))
                 [0; 255; 0] BatchProcess.CYLINDER st))
  /\ (forall surf st,
         fst (TryGetCone surf) = false ->
         fst (TryGetCylinder surf) = true ->
         BatchProcess.annotate AddLine surf None st
         = Ok (Spec.no_line BatchProcess.CYLINDER st))
  /\ (forall surf face st,
         fst (TryGetCone surf) = false ->
         fst (TryGetCylinder surf) = false ->
         BatchProcess.annotate AddLine surf face st
         = Ok (Spec.no_line BatchProcess.OTHER_TYPE st))
  /\ (forall s e color v st,
         let st' := BatchProcess.add_colored_line AddLine s e color v st in
         BatchProcess.calls st'
         = BatchProcess.calls st
           ++ CallAddLine s e ::
              match AddLine s e with
              | Some ln => [CallObjectColor ln color]
              | None => []
              end
         /\ Spec.requests (BatchProcess.calls st')
            = Spec.requests (BatchProcess.calls st) ++ [CallAddLine s e]
         /\ BatchProcess.lines_created st'
            = BatchProcess.lines_created st
              + match AddLine s e with Some _ => 1 | None => 0 end)
  /\ (forall sel1 sel2 st,
         BatchProcess.loop AddLine (sel1 ++ sel2) st
         = (st' <- BatchProcess.loop AddLine sel1 st ;;
            BatchProcess.loop AddLine sel2 st'))
  /\ (forall obj geo st,
         ObjectType obj = 8 -> coercesurface obj = Some geo ->
         BatchProcess.process AddLine obj st
         = BatchProcess.annotate AddLine geo (face_of_surface geo) st)
  /\ (exists st,
         BatchProcess.main AddLine Samples.four_items = Ok st
         /\ Spec.requests (BatchProcess.calls st)
            = [CallAddLine (Point3d.new 0 0 0) (Point3d.new 0 0 10);
               CallAddLine (Point3d.new 2 0 (-0.5)) (Point3d.new 2 0 4.5)]
         /\ (forall g1 g2,
                AddLine (Point3d.new 0 0 0) (Point3d.new 0 0 10) = Some g1 ->
                AddLine (Point3d.new 2 0 (-0.5)) (Point3d.new 2 0 4.5)
                = Some g2 ->
                BatchProcess.calls st
                = [CallAddLine (Point3d.new 0 0 0) (Point3d.new 0 0 10);
                   CallObjectColor g1 [0; 255; 0];
                   CallAddLine (Point3d.new 2 0 (-0.5)) (Point3d.new 2 0 4.5);
                   CallObjectColor g2 [255; 0; 0]]
                /\ BatchProcess.lines_created st = 2)).
Proof.
  split; [intros; apply annotate_cone; assumption|].
  split; [intros; apply annotate_cylinder; assumption|].
  split; [intros; apply annotate_cylinder_no_face; assumption|].
  split; [intros; apply annotate_other; assumption|].
  split.
  { intros s e color v st st'. subst st'.
    unfold BatchProcess.add_colored_line, Spec.requests.
    destruct (AddLine s e); cbn [BatchProcess.calls BatchProcess.lines_created];
      rewrite ?filter_app; simpl; repeat split; lia. }
  split; [intros; apply loop_app|].
  split.
  { intros obj geo st Ht Hgeo. unfold BatchProcess.process.
    rewrite Ht, Hgeo. reflexivity. }
  exists (Spec.no_line BatchProcess.OTHER_TYPE
            (BatchProcess.add_colored_line AddLine
               (Point3d.new 2 0 (-0.5)) (Point3d.new 2 0 4.5)
               [255; 0; 0] BatchProcess.CONE
               (Spec.no_line BatchProcess.OTHER_TYPE
                  (BatchProcess.add_colored_line AddLine
                     (Point3d.new 0 0 0) (Point3d.new 0 0 10)
                     [0; 255; 0] BatchProcess.CYLINDER
                     BatchProcess.initial)))).
  split; [vm_compute; reflexivity|].
  unfold BatchProcess.add_colored_line, Spec.no_line, Spec.requests.
  split.
  - destruct (AddLine (Point3d.new 0 0 0) (Point3d.new 0 0 10));
      destruct (AddLine (Point3d.new 2 0 (-0.5)) (Point3d.new 2 0 4.5));
      reflexivity.
  - intros g1 g2 -> ->. split; reflexivity.
Qed.

(** Under the sink that draws every line the sample cone gives one red
    line, and the four sample items give a green and a red line. *)
Lemma batch_planning_witness :
  fst (TryGetCone Samples.cone_surface) = true
  /\ BatchProcess.annotate Samples.accepting_sink Samples.cone_surface
       (face_of_surface Samples.cone_surface) BatchProcess.initial
     = Ok {| BatchProcess.lines_created := 1;
             BatchProcess.printed := [BatchProcess.CONE];
             BatchProcess.calls :=
               [CallAddLine (Point3d.new 2 0 (-0.5)) (Point3d.new 2 0 4.5);
                CallObjectColor 7 [255; 0; 0]] |}
  /\ exists st,
      BatchProcess.main Samples.accepting_sink Samples.four_items = Ok st
      /\ BatchProcess.lines_created st = 2.
Proof.
  destruct (batch_planning Samples.accepting_sink)
    as (Hcone & _ & _ & _ & _ & _ & _ & (st & Hrun & _ & Hboth)).
  split; [reflexivity|]. split.
  - rewrite (Hcone Samples.cone_surface
               (face_of_surface Samples.cone_surface)
               BatchProcess.initial eq_refl).
    reflexivity.
  - exists st. split; [exact Hrun|].
    exact (proj2 (Hboth 7 7 eq_refl eq_refl)).
Defined.

(** C4 as stated fails.  A selected cylinder without point evaluation
    is printed as CYLINDER and gives no request; and under the sink that
    draws no line the four sample items leave the count at 0. *)
Lemma cylinder_item_without_request :
  Spec.batch_verdict (Samples.bare (Samples.cylinder_surface 1))
  = BatchProcess.CYLINDER
  /\ BatchProcess.main Samples.accepting_sink
       [Samples.surface_object (Samples.bare (Samples.cylinder_surface 1))]
     = Ok {| BatchProcess.lines_created := 0;
             BatchProcess.printed := [BatchProcess.CYLINDER];
             BatchProcess.calls := [] |}
  /\ BatchProcess.main Samples.refusing_sink Samples.four_items
     = Ok {| BatchProcess.lines_created := 0;
             BatchProcess.printed :=
               [BatchProcess.CYLINDER; BatchProcess.OTHER_TYPE;
                BatchProcess.CONE; BatchProcess.OTHER_TYPE];
             BatchProcess.calls :=
               [CallAddLine (Point3d.new 0 0 0) (Point3d.new 0 0 10);
                CallAddLine (Point3d.new 2 0 (-0.5))
                            (Point3d.new 2 0 4.5)] |}.
Proof.
  split; [reflexivity|]. split; vm_compute; reflexivity.
Qed.
End BatchClaims.

(* ------------------------------------------------------------------ *)
(** ** More on the statistics *)

Section StatisticsMore.
Import AnalyzeBrep.
Local Open Scope Z_scope.

(** Two visits commute. *)
Lemma visit_comm (c : Counters) (f g : BrepFace) :
  Spec.visit (Spec.visit c f) g = Spec.visit (Spec.visit c g) f.
Proof.
  unfold Spec.visit, Spec.increment, Spec.increment_above.
  apply counters_eq; cbn -[Z.add]; lia.
Qed.

Lemma fold_visit_permutation (l l' : list BrepFace) :
  Permutation l l' ->
  forall c, fold_left Spec.visit l c = fold_left Spec.visit l' c.
Proof.
  induction 1 as [|x l l' _ IH|x y l|l l' l'' _ IH1 _ IH2]; intros c; simpl.
  - reflexivity.
  - apply IH.
  - rewrite visit_comm. reflexivity.
  - rewrite IH1. apply IH2.
Qed.

Lemma count_tag_app (k : Spec.Tag) (l1 l2 : list BrepFace) :
  Spec.count_tag k (l1 ++ l2) = Spec.count_tag k l1 + Spec.count_tag k l2.
Proof.
  unfold Spec.count_tag. rewrite filter_app, length_app. lia.
Qed.

Lemma count_above_app (th : float) (l1 l2 : list BrepFace) :
  Spec.count_above th (l1 ++ l2)
  = Spec.count_above th l1 + Spec.count_above th l2.
Proof.
  unfold Spec.count_above. rewrite filter_app, length_app. lia.
Qed.

Lemma count_tag_nonneg (k : Spec.Tag) (l : list BrepFace) :
  0 <= Spec.count_tag k l.
Proof. unfold Spec.count_tag. lia. Qed.

Lemma count_above_le_cylinders (th : float) (l : list BrepFace) :
  0 <= Spec.count_above th l <= Spec.count_tag Spec.Cylinder l.
Proof.
  induction l as [|f fs IH].
  - unfold Spec.count_above, Spec.count_tag. simpl. lia.
  - rewrite count_above_cons, count_tag_cons.
    unfold Spec.above_threshold.
    destruct (Spec.Tag_eqb (Spec.classify f) Spec.Cylinder); simpl andb.
    + destruct (PrimFloat.ltb th _); cbv iota; lia.
    + cbv iota. lia.
Qed.

(** The counters of a solid, read off its face list. *)
Lemma analyze_counts (faces : list BrepFace) :
  exists c,
    analyze {| Faces := faces |} = Ok c
    /\ cylinders c = Spec.count_tag Spec.Cylinder faces
    /\ cones c = Spec.count_tag Spec.Cone faces
    /\ planes c = Spec.count_tag Spec.Plane faces
    /\ nurbs c = Spec.count_tag Spec.Nurbs faces
    /\ others c = Spec.count_tag Spec.Other faces
    /\ cylinders_above_threshold c
       = Spec.count_above DIAMETER_THRESHOLD faces.
Proof.
  exists (fold_left Spec.visit faces initial).
  split; [apply (analyze_fold {| Faces := faces |})|].
  pose proof (fold_visit_counts faces initial) as H. cbv zeta in H.
  simpl in H. exact H.
Qed.

(** X1.  Script 01 never fails.  It looks at the first selected object
    only, and it produces statistics exactly when that object is of type
    16 and resolves to a Brep; the statistics are then those of that
    Brep. *)
Theorem analyze_main_outcome (sel : list DocObject) :
  (exists r, main sel = Ok r)
  /\ (forall obj rest rest', main (obj :: rest) = main (obj :: rest'))
  /\ (forall c,
         main sel = Ok (Some c)
         <-> exists obj rest geo,
             sel = obj :: rest /\ ObjectType obj = 16
             /\ coercebrep obj = Some geo /\ analyze geo = Ok c).
Proof.
  split; [|split].
  - destruct sel as [|obj rest]; simpl; [eexists; reflexivity|].
    destruct (ObjectType obj =? 16); [|eexists; reflexivity].
    destruct (coercebrep obj) as [geo|]; [|eexists; reflexivity].
    rewrite analyze_fold. simpl. eexists; reflexivity.
  - reflexivity.
  - intros c. split.
    + destruct sel as [|obj rest]; simpl; [discriminate|].
      destruct (ObjectType obj =? 16) eqn:Ht; [|discriminate].
      destruct (coercebrep obj) as [geo|] eqn:Hg; [|discriminate].
      rewrite analyze_fold. simpl. intros H. injection H as <-.
      exists obj, rest, geo. rewrite analyze_fold.
      split; [reflexivity|]. split; [apply Z.eqb_eq; exact Ht|].
      split; [exact Hg|reflexivity].
    + intros (obj & rest & geo & -> & Ht & Hg & Ha). simpl.
      rewrite Ht, Hg, Ha. reflexivity.
Qed.

(** X2.  The statistics do not depend on the order of the faces. *)
Theorem statistics_permutation_invariant (faces faces' : list BrepFace) :
  Permutation faces faces' ->
  analyze {| Faces := faces |} = analyze {| Faces := faces' |}.
Proof.
  intros P. rewrite !analyze_fold. simpl. f_equal.
  apply fold_visit_permutation. exact P.
Qed.

(** A cone before a cylinder, or after it. *)
Lemma statistics_permutation_invariant_witness :
  Permutation
    [Samples.face_on Samples.cone_surface;
     Samples.face_on (Samples.cylinder_surface 2)]
    [Samples.face_on (Samples.cylinder_surface 2);
     Samples.face_on Samples.cone_surface]
  /\ analyze {| Faces := [Samples.face_on Samples.cone_surface;
                          Samples.face_on (Samples.cylinder_surface 2)] |}
     = analyze {| Faces := [Samples.face_on (Samples.cylinder_surface 2);
                            Samples.face_on Samples.cone_surface] |}.
Proof.
  split; [apply perm_swap|].
  apply statistics_permutation_invariant. apply perm_swap.
Defined.

(** X3.  The statistics of two face lists put together are the sums of
    the statistics of either. *)
Theorem statistics_additive (faces1 faces2 : list BrepFace) :
  exists c1 c2 c,
    analyze {| Faces := faces1 |} = Ok c1
    /\ analyze {| Faces := faces2 |} = Ok c2
    /\ analyze {| Faces := faces1 ++ faces2 |} = Ok c
    /\ cylinders c = cylinders c1 + cylinders c2
    /\ cones c = cones c1 + cones c2
    /\ planes c = planes c1 + planes c2
    /\ nurbs c = nurbs c1 + nurbs c2
    /\ others c = others c1 + others c2
    /\ cylinders_above_threshold c
       = cylinders_above_threshold c1 + cylinders_above_threshold c2
    /\ total c = total c1 + total c2.
Proof.
  destruct (analyze_counts faces1) as (c1 & R1 & A1 & B1 & P1 & D1 & E1 & F1).
  destruct (analyze_counts faces2) as (c2 & R2 & A2 & B2 & P2 & D2 & E2 & F2).
  destruct (analyze_counts (faces1 ++ faces2))
    as (c & R & A & B & P & D & E & F).
  exists c1, c2, c.
  rewrite !count_tag_app in *. rewrite count_above_app in F.
  unfold total. repeat split; try assumption; lia.
Qed.

(** X4.  No counter is negative, the sub-count of the wide cylinders is
    at most the number of cylinders, and that is at most the number of
    faces, which is the total. *)
Theorem statistics_bounds (geo : Brep) :
  exists c,
    analyze geo = Ok c
    /\ 0 <= cylinders_above_threshold c <= cylinders c
    /\ cylinders c <= total c
    /\ 0 <= cones c /\ 0 <= planes c /\ 0 <= nurbs c /\ 0 <= others c
    /\ total c = Z.of_nat (List.length (Faces geo)).
Proof.
  destruct geo as [faces].
  destruct (analyze_counts faces) as (c & R & A & B & P & D & E & F).
  exists c. split; [exact R|].
  pose proof (count_above_le_cylinders DIAMETER_THRESHOLD faces).
  pose proof (count_tag_partition faces).
  pose proof (count_tag_nonneg Spec.Cone faces).
  pose proof (count_tag_nonneg Spec.Plane faces).
  pose proof (count_tag_nonneg Spec.Nurbs faces).
  pose proof (count_tag_nonneg Spec.Other faces).
  unfold total. simpl Faces. repeat split; lia.
Qed.

Lemma div_100_succ (z : Z) :
  0 <= z ->
  (z + 1) / 100 = z / 100 + (if (z + 1) mod 100 =? 0 then 1 else 0).
Proof.
  intros Hz.
  pose proof (Z.div_mod z 100 ltac:(lia)).
  pose proof (Z.mod_pos_bound z 100 ltac:(lia)).
  pose proof (Z.div_mod (z + 1) 100 ltac:(lia)).
  pose proof (Z.mod_pos_bound (z + 1) 100 ltac:(lia)).
  destruct ((z + 1) mod 100 =? 0) eqn:E.
  - apply Z.eqb_eq in E. lia.
  - apply Z.eqb_neq in E. lia.
Qed.

Lemma hundreds_succ (n : nat) :
  Derived.hundreds (S n)
  = Derived.hundreds n
    ++ (if (Z.of_nat n + 1) mod 100 =? 0 then [Z.of_nat n + 1] else []).
Proof.
  unfold Derived.hundreds. rewrite seq_S, map_app, filter_app. reflexivity.
Qed.

Lemma hundreds_length (n : nat) :
  Z.of_nat (List.length (Derived.hundreds n)) = Z.of_nat n / 100.
Proof.
  induction n as [|n IH].
  - reflexivity.
  - rewrite hundreds_succ, length_app, Nat2Z.inj_add, IH.
    rewrite Nat2Z.inj_succ, <- Z.add_1_r.
    rewrite (@div_100_succ (Z.of_nat n)) by lia.
    destruct ((Z.of_nat n + 1) mod 100 =? 0); reflexivity.
Qed.

(** The loop with its output, over the indices of a suffix. *)
Lemma face_loop_output_suffix (geo : Brep) :
  forall (rest pre : list BrepFace) (c : Counters) (out : list Z),
    Faces geo = pre ++ rest ->
    AnalyzeBrepOutput.face_loop geo
      (seq (List.length pre) (List.length rest)) c out
    = Ok (fold_left Spec.visit rest c,
          out ++ filter (fun z => z mod 100 =? 0)
                   (map (fun i => Z.of_nat i + 1)
                        (seq (List.length pre) (List.length rest)))).
Proof.
  induction rest as [|f rest IH]; intros pre c out E.
  - simpl. rewrite app_nil_r. reflexivity.
  - simpl. rewrite (@Faces_item_middle geo pre rest f E). simpl.
    rewrite count_face_visit.
    assert (E' : Faces geo = (pre ++ [f]) ++ rest)
      by (rewrite <- app_assoc; exact E).
    pose proof (IH (pre ++ [f]) (Spec.visit c f)) as IH'.
    rewrite length_app in IH'. simpl in IH'. rewrite Nat.add_1_r in IH'.
    rewrite (IH' _ E').
    destruct ((Z.of_nat (List.length pre) + 1) mod 100 =? 0).
    + rewrite <- app_assoc. reflexivity.
    + reflexivity.
Qed.

(** X5.  The progress lines of script 01.  The loop with its output
    ends with the counters of the loop without it, and it has printed
    the multiples of 100 among [1 .. total_faces], each once and in
    increasing order; there are [total_faces / 100] of them, the last
    one being printed after the last face when the number of faces is
    itself a multiple of 100. *)
Theorem progress_lines (geo : Brep) :
  let n := List.length (Faces geo) in
  exists c,
    analyze geo = Ok c
    /\ AnalyzeBrepOutput.analyze geo = Ok (c, Derived.hundreds n)
    /\ Z.of_nat (List.length (Derived.hundreds n)) = Z.of_nat n / 100
    /\ Forall (fun z => 1 <= z <= Z.of_nat n /\ z mod 100 = 0)
              (Derived.hundreds n)
    /\ Derived.hundreds (S n)
       = Derived.hundreds n
         ++ (if (Z.of_nat n + 1) mod 100 =? 0 then [Z.of_nat n + 1] else []).
Proof.
  intros n. exists (fold_left Spec.visit (Faces geo) initial).
  split; [apply analyze_fold|]. split.
  - unfold AnalyzeBrepOutput.analyze.
    apply (face_loop_output_suffix geo (Faces geo) [] initial []).
    reflexivity.
  - split; [apply hundreds_length|]. split; [|apply hundreds_succ].
    apply Forall_forall. intros z Hz. unfold Derived.hundreds in Hz.
    apply filter_In in Hz. destruct Hz as [Hin Hmod].
    apply in_map_iff in Hin. destruct Hin as (i & <- & Hi).
    apply in_seq in Hi. apply Z.eqb_eq in Hmod. split; [lia|exact Hmod].
Qed.
End StatisticsMore.

(* ------------------------------------------------------------------ *)
(** ** More on the inspection *)

Section InspectionMore.
Local Open Scope Z_scope.

(** X6.  Script 02 looks at the first selected object only.  It fails
    in one case, with an index error: the object is of type 16 and
    resolves to a Brep without faces.  It reports nothing exactly when
    the selection is empty, the type is neither 8 nor 16, or the object
    does not resolve. *)
Theorem inspection_outcome (sel : list DocObject) :
  (forall obj rest rest',
      CheckSurface.main (obj :: rest) = CheckSurface.main (obj :: rest'))
  /\ (forall e,
         CheckSurface.main sel = Raise e
         <-> e = IndexError
             /\ exists obj rest geo,
                 sel = obj :: rest /\ ObjectType obj = 16
                 /\ coercebrep obj = Some geo /\ Faces geo = [])
  /\ (CheckSurface.main sel = Ok None
      <-> sel = []
          \/ exists obj rest,
              sel = obj :: rest
              /\ ((ObjectType obj <> 8 /\ ObjectType obj <> 16)
                  \/ (ObjectType obj = 16 /\ coercebrep obj = None)
                  \/ (ObjectType obj = 8 /\ coercesurface obj = None))).
Proof.
  split; [reflexivity|].
  destruct sel as [|obj rest].
  { split.
    - intros e. split; [discriminate|].
      intros (_ & o & r & g & H & _). discriminate.
    - split; [intros _; left; reflexivity | reflexivity]. }
  unfold CheckSurface.main.
  destruct (Z.eqb_spec (ObjectType obj) 16) as [H16|H16].
  - rewrite Bool.orb_true_r.
    destruct (coercebrep obj) as [[faces]|] eqn:Hg.
    + destruct faces as [|f fs]; unfold Faces_item; cbn [Faces nth_error bind].
      * split.
        -- intros e. split.
           ++ intros H. injection H as <-. split; [reflexivity|].
              exists obj, rest, {| Faces := [] |}. repeat split; assumption.
           ++ intros (-> & _). reflexivity.
        -- split; [discriminate|].
           intros [H|(o & r & H & K)]; [discriminate|].
           injection H as <- <-. destruct K as [[_ N]|[[_ N]|[N _]]].
           all: congruence || lia.
      * split.
        -- intros e. split; [discriminate|].
           intros (_ & o & r & g & H & _ & Hg' & Hf).
           injection H as <- <-. rewrite Hg in Hg'. injection Hg' as <-.
           discriminate.
        -- split; [discriminate|].
           intros [H|(o & r & H & K)]; [discriminate|].
           injection H as <- <-. destruct K as [[_ N]|[[_ N]|[N _]]].
           all: congruence || lia.
    + split.
      * intros e. split; [discriminate|].
        intros (_ & o & r & g & H & _ & Hg' & _).
        injection H as <- <-. rewrite Hg in Hg'. discriminate.
      * split; [|reflexivity]. intros _. right. exists obj, rest.
        split; [reflexivity|]. right. left. split; assumption.
  - destruct (Z.eqb_spec (ObjectType obj) 8) as [H8|H8]; cbn [orb].
    + destruct (coercesurface obj) as [s|] eqn:Hs.
      * split.
        -- intros e. split; [discriminate|].
           intros (_ & o & r & g & H & N & _). injection H as <- <-.
           contradiction.
        -- split; [discriminate|].
           intros [H|(o & r & H & K)]; [discriminate|].
           injection H as <- <-. destruct K as [[N _]|[[N _]|[_ N]]].
           all: congruence || lia.
      * split.
        -- intros e. split; [discriminate|].
           intros (_ & o & r & g & H & N & _). injection H as <- <-.
           contradiction.
        -- split; [|reflexivity]. intros _. right. exists obj, rest.
           split; [reflexivity|]. right. right. split; assumption.
    + split.
      * intros e. split; [discriminate|].
        intros (_ & o & r & g & H & N & _). injection H as <- <-.
        contradiction.
      * split; [|reflexivity]. intros _. right. exists obj, rest.
        split; [reflexivity|]. left. split; assumption.
Qed.

(** X7.  Scripts 01 and 02 on the same face.  The summary of script 02
    for a Brep is the tag under which script 01 counts the first face of
    that Brep, with Nurbs and Other both summed up as a complex surface;
    unless the face passes both the cylinder fit and the cone fit, which
    script 01 counts as a cylinder and script 02 sums up as a cone. *)
Theorem summary_agrees_with_statistics
        (f : BrepFace) (rest : list BrepFace) (others : list DocObject) :
  let surf := UnderlyingSurface f in
  Spec.summary_of
    (CheckSurface.main (Samples.brep_object (f :: rest) :: others))
  = Ok (Some (if fst (TryGetCylinder surf) && fst (TryGetCone surf)
              then CheckSurface.CONE
              else Derived.summary_of_tag (Spec.classify f)
                                          (GetType_Name surf)))
  /\ AnalyzeBrep.main (Samples.brep_object [f] :: others)
     = Ok (Some (Spec.increment_above
                   (Spec.above_threshold AnalyzeBrep.DIAMETER_THRESHOLD f)
                   (Spec.increment (Spec.classify f) AnalyzeBrep.initial))).
Proof.
  cbv zeta. split.
  - unfold CheckSurface.main, Samples.brep_object, Faces_item.
    cbn [ObjectType coercebrep Faces nth_error bind Z.eqb orb Pos.eqb].
    cbn [Spec.summary_of]. do 2 f_equal.
    unfold CheckSurface.describe, Spec.classify.
    destruct (TryGetCylinder (UnderlyingSurface f)) as [is_cyl cyl].
    destruct (TryGetCone (UnderlyingSurface f)) as [is_cone cone].
    destruct (TryGetSphere (UnderlyingSurface f)) as [is_sphere sphere].
    cbn [fst CheckSurface.SUMMARY face_of_brepface fl_IsPlanar].
    destruct is_cyl, is_cone; cbn [andb]; try reflexivity.
    destruct (face_IsPlanar f); [reflexivity|].
    destruct (AnalyzeBrep.is_nurbs_name (GetType_Name (UnderlyingSurface f)));
      reflexivity.
  - unfold AnalyzeBrep.main, Samples.brep_object.
    cbn [ObjectType coercebrep Z.eqb Pos.eqb].
    rewrite analyze_fold. reflexivity.
Qed.

(** X8.  A surface that cannot be evaluated.  For a selected object of
    type 8 whose surface has no [PointAt], script 02 does not ask for
    planarity: it reports no plane and no face centre, and its summary
    is never PLANE, whatever the surface would answer. *)
Theorem unevaluable_surface_is_never_plane
        (obj : DocObject) (rest : list DocObject) (s : Surface) :
  ObjectType obj = 8 ->
  coercesurface obj = Some s ->
  PointAt s = None ->
  exists r,
    CheckSurface.main (obj :: rest) = Ok (Some r)
    /\ CheckSurface.plane_line r = false
    /\ CheckSurface.face_center r = None
    /\ CheckSurface.SUMMARY r <> CheckSurface.PLANE.
Proof.
  intros Ht Hs Hp. unfold CheckSurface.main. rewrite Ht, Hs.
  cbn [Z.eqb Pos.eqb orb]. eexists. split; [reflexivity|].
  unfold face_of_surface. rewrite Hp. unfold CheckSurface.describe.
  destruct (TryGetCylinder s) as [is_cyl cyl].
  destruct (TryGetCone s) as [is_cone cone].
  destruct (TryGetSphere s) as [is_sphere sphere].
  cbn. split; [reflexivity|]. split; [reflexivity|].
  destruct is_cone; [discriminate|]. destruct is_cyl; discriminate.
Qed.

(** The surface that answers [True] to the planarity test and has no
    [PointAt] is summed up as a complex surface. *)
Lemma unevaluable_surface_is_never_plane_witness :
  ObjectType (Samples.surface_object Derived.unevaluable_plane) = 8
  /\ IsPlanar Derived.unevaluable_plane = Some true
  /\ PointAt Derived.unevaluable_plane = None
  /\ exists r,
      CheckSurface.main [Samples.surface_object Derived.unevaluable_plane]
      = Ok (Some r)
      /\ CheckSurface.plane_line r = false
      /\ CheckSurface.face_center r = None
      /\ CheckSurface.SUMMARY r <> CheckSurface.PLANE.
Proof.
  split; [reflexivity|]. split; [reflexivity|]. split; [reflexivity|].
  apply (@unevaluable_surface_is_never_plane
           (Samples.surface_object Derived.unevaluable_plane) []
           Derived.unevaluable_plane eq_refl eq_refl eq_refl).
Defined.
End InspectionMore.

(* ------------------------------------------------------------------ *)
(** ** More on the line scripts: the steps *)

Section StepsMore.
Variable AddLine : Point3d.t -> Point3d.t -> option Guid.
Local Open Scope Z_scope.

Lemma state_eq (a b : BatchProcess.State) :
  BatchProcess.lines_created a = BatchProcess.lines_created b ->
  BatchProcess.printed a = BatchProcess.printed b ->
  BatchProcess.calls a = BatchProcess.calls b ->
  a = b.
Proof.
  destruct a, b; simpl; intros; subst; reflexivity.
Qed.

(** The three ways in which the body of script 04 ends for a surface:
    with a request, with a verdict only, or with the failure of
    [face.Domain(0)]. *)
Lemma annotate_outcome (surf : Surface) (face : option FaceLike)
      (st : BatchProcess.State) :
  (exists s e color v,
      (color = Derived.red \/ color = Derived.green)
      /\ BatchProcess.annotate AddLine surf face st
         = Ok (BatchProcess.add_colored_line AddLine s e color v st))
  \/ (exists v, BatchProcess.annotate AddLine surf face st
                = Ok (Spec.no_line v st))
  \/ (BatchProcess.annotate AddLine surf face st = Raise AttributeError
      /\ fst (TryGetCone surf) = false /\ fst (TryGetCylinder surf) = true
      /\ exists f, face = Some f /\ fl_Domain f = None).
Proof.
  destruct (fst (TryGetCone surf)) eqn:Hcone.
  - left. do 4 eexists. split; [left; reflexivity|].
    apply annotate_cone. exact Hcone.
  - destruct (fst (TryGetCylinder surf)) eqn:Hcyl.
    + destruct face as [f|].
      * destruct (fl_Domain f) as [Domain|] eqn:Hd.
        -- left. do 4 eexists. split; [right; reflexivity|].
           apply (annotate_cylinder AddLine surf f st Hcone Hcyl Hd).
        -- right. right. split.
           ++ apply annotate_cylinder_no_domain; assumption.
           ++ repeat split. exists f. split; [reflexivity|exact Hd].
      * right. left. exists BatchProcess.CYLINDER.
        apply annotate_cylinder_no_face; assumption.
    + right. left. exists BatchProcess.OTHER_TYPE.
      apply annotate_other; assumption.
Qed.

(** The face of a Brep always has its domain. *)
Lemma annotate_brepface_ok (f : BrepFace) (st : BatchProcess.State) :
  exists st',
    BatchProcess.annotate AddLine (UnderlyingSurface f)
      (Some (face_of_brepface f)) st = Ok st'.
Proof.
  destruct (annotate_outcome (UnderlyingSurface f)
              (Some (face_of_brepface f)) st)
    as [(s & e & c & v & _ & H)|[(v & H)|(_ & _ & _ & g & Hg & Hd)]].
  - eexists; exact H.
  - eexists; exact H.
  - injection Hg as <-. discriminate.
Qed.

Lemma process_unresolved (obj : DocObject) (st : BatchProcess.State) :
  Derived.resolves obj = false ->
  BatchProcess.process AddLine obj st = Ok st.
Proof.
  unfold Derived.resolves, BatchProcess.process.
  destruct ((ObjectType obj =? 8) || (ObjectType obj =? 16));
    [|reflexivity].
  cbn [andb].
  destruct (ObjectType obj =? 16).
  - destruct (coercebrep obj); [discriminate|reflexivity].
  - destruct (coercesurface obj); [discriminate|reflexivity].
Qed.

(** What a resolved object comes down to. *)
Lemma process_resolved (obj : DocObject) (st : BatchProcess.State) :
  Derived.resolves obj = true ->
  (ObjectType obj = 16
   /\ exists geo, coercebrep obj = Some geo
      /\ ((Faces geo = []
           /\ BatchProcess.process AddLine obj st = Raise AttributeError)
          \/ exists f fs,
              Faces geo = f :: fs
              /\ BatchProcess.process AddLine obj st
                 = BatchProcess.annotate AddLine (UnderlyingSurface f)
                     (Some (face_of_brepface f)) st))
  \/ (ObjectType obj = 8
      /\ exists s, coercesurface obj = Some s
         /\ BatchProcess.process AddLine obj st
            = BatchProcess.annotate AddLine s (face_of_surface s) st).
Proof.
  unfold Derived.resolves, BatchProcess.process.
  destruct (Z.eqb_spec (ObjectType obj) 16) as [H16|H16].
  - rewrite Bool.orb_true_r. cbn [andb].
    destruct (coercebrep obj) as [[faces]|]; [|discriminate].
    intros _. left. split; [exact H16|]. eexists. split; [reflexivity|].
    destruct faces as [|f fs]; cbn [Faces List.length].
    + left. split; reflexivity.
    + right. exists f, fs. split; [reflexivity|].
      replace (Z.of_nat (S (List.length fs)) >? 0) with true
        by (symmetry; apply Z.gtb_lt; lia).
      reflexivity.
  - destruct (Z.eqb_spec (ObjectType obj) 8) as [H8|H8]; cbn [orb andb];
      [|discriminate].
    destruct (coercesurface obj) as [s|]; [|discriminate].
    intros _. right. split; [exact H8|]. exists s. split; reflexivity.
Qed.

Lemma add_colored_line_frame (s e : Point3d.t) (color : list Z)
      (v : BatchProcess.Verdict) (st : BatchProcess.State) :
  BatchProcess.add_colored_line AddLine s e color v st
  = Derived.append_state st
      (BatchProcess.add_colored_line AddLine s e color v
                                     BatchProcess.initial).
Proof.
  unfold BatchProcess.add_colored_line.
  destruct (AddLine s e); apply state_eq; simpl; try reflexivity; lia.
Qed.

Lemma no_line_frame (v : BatchProcess.Verdict) (st : BatchProcess.State) :
  Spec.no_line v st
  = Derived.append_state st (Spec.no_line v BatchProcess.initial).
Proof.
  apply state_eq; simpl; [lia | reflexivity | rewrite app_nil_r; reflexivity].
Qed.

Lemma append_state_initial (st : BatchProcess.State) :
  Derived.append_state st BatchProcess.initial = st.
Proof.
  apply state_eq; simpl; [lia | apply app_nil_r | apply app_nil_r].
Qed.

Lemma append_state_assoc (a b c : BatchProcess.State) :
  Derived.append_state (Derived.append_state a b) c
  = Derived.append_state a (Derived.append_state b c).
Proof.
  apply state_eq; simpl; [lia | | ]; rewrite app_assoc; reflexivity.
Qed.

Lemma annotate_frame (surf : Surface) (face : option FaceLike)
      (st : BatchProcess.State) :
  BatchProcess.annotate AddLine surf face st
  = Derived.result_map (Derived.append_state st)
      (BatchProcess.annotate AddLine surf face BatchProcess.initial).
Proof.
  destruct (fst (TryGetCone surf)) eqn:Hcone.
  - rewrite !(annotate_cone AddLine surf face _ Hcone). simpl.
    rewrite add_colored_line_frame. reflexivity.
  - destruct (fst (TryGetCylinder surf)) eqn:Hcyl.
    + destruct face as [f|].
      * destruct (fl_Domain f) as [Domain|] eqn:Hd.
        -- rewrite !(annotate_cylinder AddLine surf f _ Hcone Hcyl Hd).
           simpl. rewrite add_colored_line_frame. reflexivity.
        -- rewrite !(annotate_cylinder_no_domain AddLine surf f _
                       Hcone Hcyl Hd).
           reflexivity.
      * rewrite !(annotate_cylinder_no_face AddLine surf _ Hcone Hcyl).
        simpl. f_equal. apply (no_line_frame BatchProcess.CYLINDER).
    + rewrite !(annotate_other AddLine surf face _ Hcone Hcyl).
      simpl. f_equal. apply (no_line_frame BatchProcess.OTHER_TYPE).
Qed.

Lemma process_frame (obj : DocObject) (st : BatchProcess.State) :
  BatchProcess.process AddLine obj st
  = Derived.result_map (Derived.append_state st)
      (BatchProcess.process AddLine obj BatchProcess.initial).
Proof.
  destruct (Derived.resolves obj) eqn:Hr.
  - destruct (process_resolved obj st Hr)
      as [(T & geo & Hg & [[Hf H]|(f & fs & Hf & H)])|(T & s & Hs & H)];
      destruct (process_resolved obj BatchProcess.initial Hr)
      as [(T' & geo' & Hg' & [[Hf' H']|(f' & fs' & Hf' & H')])
         |(T' & s' & Hs' & H')];
      rewrite H, H'; try congruence; try reflexivity.
    + assert (f' = f) by congruence. subst f'. apply annotate_frame.
    + assert (s' = s) by congruence. subst s'. apply annotate_frame.
  - rewrite !process_unresolved by exact Hr. simpl.
    rewrite append_state_initial. reflexivity.
Qed.

Lemma loop_frame (sel : list DocObject) :
  forall st : BatchProcess.State,
    BatchProcess.loop AddLine sel st
    = Derived.result_map (Derived.append_state st)
        (BatchProcess.loop AddLine sel BatchProcess.initial).
Proof.
  induction sel as [|obj rest IH]; intros st.
  - simpl. rewrite append_state_initial. reflexivity.
  - cbn [BatchProcess.loop]. rewrite (process_frame obj st).
    destruct (BatchProcess.process AddLine obj BatchProcess.initial)
      as [d1|e]; simpl; [|reflexivity].
    rewrite (IH (Derived.append_state st d1)), (IH d1).
    destruct (BatchProcess.loop AddLine rest BatchProcess.initial)
      as [d2|e]; simpl; [|reflexivity].
    rewrite append_state_assoc. reflexivity.
Qed.
End StepsMore.

(* ------------------------------------------------------------------ *)
(** ** More on script 03 *)

Section CreateLineMore.
Variable AddLine : Point3d.t -> Point3d.t -> option Guid.
Local Open Scope Z_scope.

Lemma create_line_nothing (surf : Surface) (face : option FaceLike) :
  face = None \/ fst (TryGetCylinder surf) = false ->
  CreateLineCylinder.create_line AddLine surf face = Ok [].
Proof.
  intros H. unfold CreateLineCylinder.create_line.
  destruct (TryGetCylinder surf) as [is_cyl cyl]. simpl in H.
  destruct face as [f|]; [|reflexivity].
  destruct H as [H|H]; [discriminate|]. subst is_cyl. reflexivity.
Qed.

Lemma create_line_no_domain (surf : Surface) (f : FaceLike) :
  fst (TryGetCylinder surf) = true ->
  fl_Domain f = None ->
  CreateLineCylinder.create_line AddLine surf (Some f) = Raise AttributeError.
Proof.
  intros Hcyl Hd. unfold CreateLineCylinder.create_line.
  destruct (TryGetCylinder surf) as [is_cyl cyl]. simpl in Hcyl. subst is_cyl.
  rewrite Hd. reflexivity.
Qed.

(** The three ways in which script 03 ends for a surface. *)
Lemma create_line_cases (surf : Surface) (face : option FaceLike) :
  CreateLineCylinder.create_line AddLine surf face = Ok []
  \/ (exists s e,
         CreateLineCylinder.create_line AddLine surf face
         = Ok (Spec.green_line AddLine s e))
  \/ (CreateLineCylinder.create_line AddLine surf face = Raise AttributeError
      /\ fst (TryGetCylinder surf) = true
      /\ exists f, face = Some f /\ fl_Domain f = None).
Proof.
  destruct (fst (TryGetCylinder surf)) eqn:Hcyl.
  - destruct face as [f|].
    + destruct (fl_Domain f) as [Domain|] eqn:Hd.
      * right. left. do 2 eexists.
        apply (create_line_cylinder AddLine surf f Hcyl Hd).
      * right. right. split; [apply create_line_no_domain; assumption|].
        split; [reflexivity|]. exists f. split; [reflexivity|exact Hd].
    + left. apply create_line_nothing. left. reflexivity.
  - left. apply create_line_nothing. right. exact Hcyl.
Qed.

Lemma face_of_surface_no_domain (s : Surface) (f : FaceLike) :
  face_of_surface s = Some f -> fl_Domain f = None ->
  exists pt, PointAt s = Some pt /\ Domain s = None.
Proof.
  unfold face_of_surface. destruct (PointAt s) as [pt|]; [|discriminate].
  intros H Hd. injection H as <-. simpl in Hd. exists pt. split; auto.
Qed.

(** Script 03 up to the colouring of its line.  It looks at the first
    selected object only.  Up to there it fails in two cases: with an
    index error on an object of type 16 that resolves to a Brep without
    faces, and with an attribute error on an object of another type
    whose surface passes the cylinder fit and has [PointAt] but no
    [Domain].  When it does not, it either leaves the sink alone or asks
    for exactly one line, which it colours green if and only if the sink
    hands it back. *)
Lemma create_line_outcome (sel : list DocObject) :
  (forall obj rest rest',
      CreateLineCylinder.main AddLine (obj :: rest)
      = CreateLineCylinder.main AddLine (obj :: rest'))
  /\ (forall e,
         CreateLineCylinder.main AddLine sel = Raise e
         <-> exists obj rest,
             sel = obj :: rest
             /\ ((ObjectType obj = 16 /\ e = IndexError
                  /\ exists geo, coercebrep obj = Some geo /\ Faces geo = [])
                 \/ (ObjectType obj <> 16 /\ e = AttributeError
                     /\ exists s pt,
                         coercesurface obj = Some s /\ PointAt s = Some pt
                         /\ Domain s = None
                         /\ fst (TryGetCylinder s) = true)))
  /\ (forall calls,
         CreateLineCylinder.main AddLine sel = Ok calls ->
         calls = []
         \/ exists s e, calls = Spec.green_line AddLine s e).
Proof.
  split; [reflexivity|]. split.
  - intros e. split.
    + destruct sel as [|obj rest]; [discriminate|].
      unfold CreateLineCylinder.main. intros H.
      exists obj, rest. split; [reflexivity|].
      destruct (Z.eqb_spec (ObjectType obj) 16) as [H16|H16].
      * left. destruct (coercebrep obj) as [[faces]|]; [|discriminate].
        destruct faces as [|f fs];
          unfold Faces_item in H; cbn [Faces nth_error bind] in H.
        -- injection H as <-. repeat split; [exact H16|].
           eexists. split; reflexivity.
        -- exfalso.
           destruct (create_line_cases (UnderlyingSurface f)
                       (Some (face_of_brepface f)))
             as [K|[(s & e' & K)|(_ & _ & g & Hg & Hd)]].
           ++ rewrite K in H. discriminate.
           ++ rewrite K in H. discriminate.
           ++ injection Hg as <-. discriminate.
      * right. split; [exact H16|].
        destruct (coercesurface obj) as [s|]; [|discriminate].
        destruct (create_line_cases s (face_of_surface s))
          as [K|[(s' & e' & K)|(K & Hcyl & g & Hg & Hd)]].
        -- rewrite K in H. discriminate.
        -- rewrite K in H. discriminate.
        -- rewrite K in H. injection H as <-. split; [reflexivity|].
           destruct (face_of_surface_no_domain s Hg Hd) as (pt & Hp & HD).
           exists s, pt. repeat split; assumption.
    + intros (obj & rest & -> & [(H16 & -> & geo & Hg & Hf)
                                |(H16 & -> & s & pt & Hs & Hp & HD & Hcyl)]).
      * unfold CreateLineCylinder.main. rewrite H16, Hg.
        unfold Faces_item. rewrite Hf. reflexivity.
      * unfold CreateLineCylinder.main.
        destruct (Z.eqb_spec (ObjectType obj) 16) as [N|_]; [contradiction|].
        rewrite Hs. unfold face_of_surface. rewrite Hp.
        apply create_line_no_domain; [exact Hcyl|exact HD].
  - intros calls. destruct sel as [|obj rest].
    { intros H. injection H as <-. left. reflexivity. }
    unfold CreateLineCylinder.main.
    assert (K : forall surf face,
               CreateLineCylinder.create_line AddLine surf face = Ok calls ->
               calls = [] \/ exists s e, calls = Spec.green_line AddLine s e).
    { intros surf face H.
      destruct (create_line_cases surf face)
        as [K|[(s & e & K)|(K & _)]]; rewrite K in H.
      - injection H as <-. left. reflexivity.
      - injection H as <-. right. exists s, e. reflexivity.
      - discriminate. }
    destruct (ObjectType obj =? 16).
    + destruct (coercebrep obj) as [[faces]|].
      * destruct faces as [|f fs]; unfold Faces_item;
          cbn [Faces nth_error bind]; [discriminate|apply K].
      * intros H. injection H as <-. left. reflexivity.
    + destruct (coercesurface obj) as [s|]; [apply K|].
      intros H. injection H as <-. left. reflexivity.
Qed.

End CreateLineMore.

(* ------------------------------------------------------------------ *)
(** ** More on script 04 *)

Section BatchMore.
Variable AddLine : Point3d.t -> Point3d.t -> option Guid.
Local Open Scope Z_scope.

Lemma process_fails (obj : DocObject) (st : BatchProcess.State) (e : exn) :
  BatchProcess.process AddLine obj st = Raise e
  <-> e = AttributeError /\ Derived.batch_item_fails obj.
Proof.
  split.
  - intros H. destruct (Derived.resolves obj) eqn:Hr.
    + destruct (process_resolved AddLine obj st Hr)
        as [(T & geo & Hg & [[Hf K]|(f & fs & Hf & K)])|(T & s & Hs & K)];
        rewrite K in H.
      * injection H as <-. split; [reflexivity|]. left.
        split; [exact T|]. exists geo. split; assumption.
      * destruct (annotate_brepface_ok AddLine f st) as (st' & Hok).
        rewrite Hok in H. discriminate.
      * destruct (annotate_outcome AddLine s (face_of_surface s) st)
          as [(p & q & c & v & _ & Hok)|[(v & Hok)
             |(Hbad & Hcone & Hcyl & g & Hg & Hd)]];
          rewrite ?Hok, ?Hbad in H; try discriminate.
        injection H as <-. split; [reflexivity|]. right.
        split; [exact T|].
        destruct (face_of_surface_no_domain s Hg Hd) as (pt & Hp & HD).
        exists s, pt. repeat split; assumption.
    + rewrite (process_unresolved AddLine obj st Hr) in H. discriminate.
  - intros (-> & [(T & [faces] & Hg & Hf)
                 |(T & s & pt & Hs & Hp & HD & Hcone & Hcyl)]).
    + simpl in Hf. subst faces. unfold BatchProcess.process.
      rewrite T, Hg. reflexivity.
    + unfold BatchProcess.process. rewrite T, Hs. cbn [Z.eqb Pos.eqb orb].
      unfold face_of_surface. rewrite Hp.
      apply annotate_cylinder_no_domain; [exact Hcone|exact Hcyl|exact HD].
Qed.

Lemma loop_succeeds (sel : list DocObject) :
  (forall obj, In obj sel -> ~ Derived.batch_item_fails obj) ->
  forall st, exists st', BatchProcess.loop AddLine sel st = Ok st'.
Proof.
  induction sel as [|obj rest IH]; intros Hgood st.
  - eexists. reflexivity.
  - cbn [BatchProcess.loop].
    destruct (BatchProcess.process AddLine obj st) as [st1|e] eqn:E.
    + simpl. apply IH. intros o Ho. apply Hgood. right. exact Ho.
    + exfalso. apply (Hgood obj); [left; reflexivity|].
      apply (proj1 (process_fails obj st e) E).
Qed.

(** X10.  When script 04 fails.  An object makes the loop body fail,
    always with an attribute error and whatever was done before, exactly
    when it is a Brep without faces or a surface with [PointAt], without
    [Domain], that passes the cylinder fit only.  A selection without
    such an object is processed to the end; a selection with one is
    abandoned at the first of them, and no count is printed. *)
Theorem batch_failure (sel : list DocObject) :
  (forall obj st e,
      BatchProcess.process AddLine obj st = Raise e
      <-> e = AttributeError /\ Derived.batch_item_fails obj)
  /\ ((forall obj, In obj sel -> ~ Derived.batch_item_fails obj) ->
      exists st, BatchProcess.main AddLine sel = Ok st)
  /\ (forall pre obj post,
         sel = pre ++ obj :: post ->
         (forall o, In o pre -> ~ Derived.batch_item_fails o) ->
         Derived.batch_item_fails obj ->
         BatchProcess.main AddLine sel = Raise AttributeError).
Proof.
  split; [apply process_fails|]. split.
  - intros Hgood. apply loop_succeeds. exact Hgood.
  - intros pre obj post -> Hpre Hbad. unfold BatchProcess.main.
    rewrite loop_app.
    destruct (loop_succeeds pre Hpre BatchProcess.initial) as (st & Hst).
    rewrite Hst. cbn [bind BatchProcess.loop].
    rewrite (proj2 (process_fails obj st AttributeError)
                   (conj eq_refl Hbad)).
    reflexivity.
Qed.

Lemma paired_app (a b : list SinkCall) :
  Derived.paired AddLine a -> Derived.paired AddLine b ->
  Derived.paired AddLine (a ++ b).
Proof.
  induction 1 as [|s e rest Hr _ IH|s e ln color rest Hd Hc _ IH];
    intros Hb; simpl.
  - exact Hb.
  - apply Derived.paired_refused; [exact Hr|apply IH; exact Hb].
  - apply Derived.paired_drawn; [exact Hd|exact Hc|apply IH; exact Hb].
Qed.

Lemma paired_add_colored_line (s e : Point3d.t) (color : list Z)
      (v : BatchProcess.Verdict) (st : BatchProcess.State) :
  color = Derived.red \/ color = Derived.green ->
  Derived.paired AddLine (BatchProcess.calls st) ->
  Derived.paired AddLine
    (BatchProcess.calls
       (BatchProcess.add_colored_line AddLine s e color v st)).
Proof.
  intros Hc Hst. unfold BatchProcess.add_colored_line.
  destruct (AddLine s e) as [ln|] eqn:E; simpl; apply paired_app; trivial.
  - apply Derived.paired_drawn; [exact E|exact Hc|constructor].
  - apply Derived.paired_refused; [exact E|constructor].
Qed.

Lemma annotate_paired (surf : Surface) (face : option FaceLike)
      (st st' : BatchProcess.State) :
  BatchProcess.annotate AddLine surf face st = Ok st' ->
  Derived.paired AddLine (BatchProcess.calls st) ->
  Derived.paired AddLine (BatchProcess.calls st')
  /\ List.length (BatchProcess.printed st')
     = S (List.length (BatchProcess.printed st)).
Proof.
  intros H Hst.
  destruct (annotate_outcome AddLine surf face st)
    as [(s & e & c & v & Hc & K)|[(v & K)|(K & _)]];
    rewrite K in H; [| |discriminate]; injection H as <-.
  - split; [apply paired_add_colored_line; assumption|].
    unfold BatchProcess.add_colored_line.
    destruct (AddLine s e); simpl; rewrite length_app; simpl; lia.
  - split; [exact Hst|]. simpl. rewrite length_app. simpl. lia.
Qed.

Lemma process_paired (obj : DocObject) (st st' : BatchProcess.State) :
  BatchProcess.process AddLine obj st = Ok st' ->
  Derived.paired AddLine (BatchProcess.calls st) ->
  Derived.paired AddLine (BatchProcess.calls st')
  /\ List.length (BatchProcess.printed st')
     = (List.length (BatchProcess.printed st)
        + (if Derived.resolves obj then 1 else 0))%nat.
Proof.
  intros H Hst. destruct (Derived.resolves obj) eqn:Hr.
  - rewrite Nat.add_1_r.
    destruct (process_resolved AddLine obj st Hr)
      as [(T & geo & Hg & [[Hf K]|(f & fs & Hf & K)])|(T & s & Hs & K)];
      rewrite K in H; [discriminate| |];
      apply (@annotate_paired _ _ _ _ H Hst).
  - rewrite (process_unresolved AddLine obj st Hr) in H.
    injection H as <-. split; [exact Hst|lia].
Qed.

Lemma loop_paired (sel : list DocObject) :
  forall st st' : BatchProcess.State,
    BatchProcess.loop AddLine sel st = Ok st' ->
    Derived.paired AddLine (BatchProcess.calls st) ->
    Derived.paired AddLine (BatchProcess.calls st')
    /\ List.length (BatchProcess.printed st')
       = (List.length (BatchProcess.printed st)
          + List.length (filter Derived.resolves sel))%nat.
Proof.
  induction sel as [|obj rest IH]; intros st st' H Hst.
  - simpl in H. injection H as <-. split; [exact Hst|simpl; lia].
  - cbn [BatchProcess.loop] in H.
    destruct (BatchProcess.process AddLine obj st) as [st1|e] eqn:E;
      [|discriminate].
    simpl in H.
    destruct (@process_paired obj st st1 E Hst) as [P1 L1].
    destruct (IH st1 st' H P1) as [P2 L2].
    split; [exact P2|]. rewrite L2, L1. simpl filter.
    destruct (Derived.resolves obj); simpl; lia.
Qed.

Lemma paired_color (l : list SinkCall) :
  Derived.paired AddLine l ->
  forall ln color,
    In (CallObjectColor ln color) l ->
    (color = Derived.red \/ color = Derived.green)
    /\ exists s e, AddLine s e = Some ln /\ In (CallAddLine s e) l.
Proof.
  induction 1 as [|s e rest Hr _ IH|s e g c rest Hd Hc _ IH];
    intros ln color Hin.
  - destruct Hin.
  - destruct Hin as [Hin|Hin]; [discriminate|].
    destruct (IH ln color Hin) as (Hcol & s' & e' & Hs & Hi).
    split; [exact Hcol|]. exists s', e'. split; [exact Hs|right; exact Hi].
  - destruct Hin as [Hin|[Hin|Hin]]; [discriminate| |].
    + injection Hin as <- <-. split; [exact Hc|].
      exists s, e. split; [exact Hd|left; reflexivity].
    + destruct (IH ln color Hin) as (Hcol & s' & e' & Hs & Hi).
      split; [exact Hcol|]. exists s', e'.
      split; [exact Hs|right; right; exact Hi].
Qed.

(** X11.  The sink calls of a run of script 04 that ends.  They are a
    sequence of requests, each followed at once by the colouring of its
    line when the sink handed one back, and by nothing when it did not.
    So the script colours no line but one it has just been given, and
    only in red or green. *)
Theorem batch_calls_paired (sel : list DocObject) (st : BatchProcess.State) :
  BatchProcess.main AddLine sel = Ok st ->
  Derived.paired AddLine (BatchProcess.calls st)
  /\ (forall ln color,
         In (CallObjectColor ln color) (BatchProcess.calls st) ->
         (color = Derived.red \/ color = Derived.green)
         /\ exists s e,
             AddLine s e = Some ln
             /\ In (CallAddLine s e) (BatchProcess.calls st)).
Proof.
  intros H.
  destruct (@loop_paired sel _ _ H (Derived.paired_nil AddLine)) as [P _].
  split; [exact P|]. apply paired_color. exact P.
Qed.

Lemma loop_filter_resolves (sel : list DocObject) :
  forall st,
    BatchProcess.loop AddLine (filter Derived.resolves sel) st
    = BatchProcess.loop AddLine sel st.
Proof.
  induction sel as [|obj rest IH]; intros st; [reflexivity|].
  simpl filter. destruct (Derived.resolves obj) eqn:Hr.
  - cbn [BatchProcess.loop].
    destruct (BatchProcess.process AddLine obj st); simpl;
      [apply IH|reflexivity].
  - cbn [BatchProcess.loop].
    rewrite (process_unresolved AddLine obj st Hr). simpl. apply IH.
Qed.

(** X12.  The objects script 04 passes over.  Objects that are not of
    type 8 or 16, or that do not resolve, change nothing: the run is the
    run over the other objects.  A run that ends has printed one verdict
    for each of those, and its count is at most their number. *)
Theorem batch_skips_unresolved (sel : list DocObject) :
  BatchProcess.main AddLine sel
  = BatchProcess.main AddLine (filter Derived.resolves sel)
  /\ (forall st,
         BatchProcess.main AddLine sel = Ok st ->
         List.length (BatchProcess.printed st)
         = List.length (filter Derived.resolves sel)
         /\ BatchProcess.lines_created st
            <= Z.of_nat (List.length (filter Derived.resolves sel))).
Proof.
  split.
  - unfold BatchProcess.main. symmetry. apply loop_filter_resolves.
  - intros st H.
    destruct (@loop_paired sel _ _ H (Derived.paired_nil AddLine)) as [_ L].
    split; [exact L|].
    unfold BatchProcess.main in H. rewrite <- loop_filter_resolves in H.
    destruct (@loop_grows AddLine _ _ _ H) as (new & (E & Hl & _ & R) & B).
    simpl in Hl. lia.
Qed.

(** X13.  Two selections in a row.  The run of script 04 over a
    selection followed by another is the run over the first, extended by
    what the run over the second gives by itself: the verdicts and the
    sink calls are put one after the other and the counts are added.  No
    object is treated differently for what was selected before it. *)
Theorem batch_concatenation (sel1 sel2 : list DocObject) :
  BatchProcess.main AddLine (sel1 ++ sel2)
  = match BatchProcess.main AddLine sel1 with
    | Ok a =>
        Derived.result_map (Derived.append_state a)
                           (BatchProcess.main AddLine sel2)
    | Raise e => Raise e
    end.
Proof.
  unfold BatchProcess.main. rewrite loop_app.
  destruct (BatchProcess.loop AddLine sel1 BatchProcess.initial) as [a|e];
    simpl; [|reflexivity].
  apply loop_frame.
Qed.

Lemma create_line_vs_annotate (surf : Surface) (face : option FaceLike) :
  fst (TryGetCone surf) = false ->
  CreateLineCylinder.create_line AddLine surf face
  = Derived.result_map BatchProcess.calls
      (BatchProcess.annotate AddLine surf face BatchProcess.initial).
Proof.
  intros Hcone. destruct (fst (TryGetCylinder surf)) eqn:Hcyl.
  - destruct face as [f|].
    + destruct (fl_Domain f) as [Domain|] eqn:Hd.
      * rewrite (create_line_cylinder AddLine surf f Hcyl Hd).
        rewrite (annotate_cylinder AddLine surf f _ Hcone Hcyl Hd).
        unfold Spec.green_line, BatchProcess.add_colored_line. simpl.
        destruct (AddLine _ _); reflexivity.
      * rewrite (create_line_no_domain AddLine surf f Hcyl Hd).
        rewrite (annotate_cylinder_no_domain AddLine surf f _ Hcone Hcyl Hd).
        reflexivity.
    + rewrite create_line_nothing by (left; reflexivity).
      rewrite (annotate_cylinder_no_face AddLine surf _ Hcone Hcyl).
      reflexivity.
  - rewrite create_line_nothing by (right; exact Hcyl).
    rewrite (annotate_other AddLine surf face _ Hcone Hcyl). reflexivity.
Qed.

(** Scripts 03 and 04 on one object, script 03 taken up to the
    colouring of its line.  For an object of type 8, or of type 16 with
    at least one face, whose surface does not pass the cone fit, the two
    scripts run on that object alone make the same sink calls, or fail
    alike before they reach the sink. *)
Lemma single_object_scripts_agree
        (obj : DocObject) (others : list DocObject) :
  ObjectType obj = 8
  \/ (ObjectType obj = 16
      /\ forall geo, coercebrep obj = Some geo -> Faces geo <> []) ->
  (forall s, Derived.first_surface obj = Some s ->
             fst (TryGetCone s) = false) ->
  CreateLineCylinder.main AddLine (obj :: others)
  = Derived.result_map BatchProcess.calls (BatchProcess.main AddLine [obj]).
Proof.
  intros Ht Hcone.
  unfold BatchProcess.main, CreateLineCylinder.main. cbn [BatchProcess.loop].
  assert (K : forall surf face,
             fst (TryGetCone surf) = false ->
             CreateLineCylinder.create_line AddLine surf face
             = Derived.result_map BatchProcess.calls
                 (st' <- BatchProcess.annotate AddLine surf face
                                               BatchProcess.initial ;;
                  Ok st')).
  { intros surf face Hc. rewrite (create_line_vs_annotate surf face Hc).
    destruct (BatchProcess.annotate AddLine surf face BatchProcess.initial);
      reflexivity. }
  unfold BatchProcess.process, Derived.first_surface in *.
  destruct Ht as [T|[T Hne]]; rewrite T in *; cbn [Z.eqb Pos.eqb orb] in *.
  - destruct (coercesurface obj) as [s|]; [|reflexivity].
    apply K. apply Hcone. reflexivity.
  - destruct (coercebrep obj) as [[faces]|]; [|reflexivity].
    destruct faces as [|f fs]; [exfalso; apply (Hne _ eq_refl); reflexivity|].
    cbn [Faces List.length] in *.
    replace (Z.of_nat (S (List.length fs)) >? 0) with true
      by (symmetry; apply Z.gtb_lt; lia).
    unfold Faces_item. cbn [Faces nth_error bind].
    apply K. apply Hcone. reflexivity.
Qed.
End BatchMore.

Section SinkIndependence.
Variables AddLine1 AddLine2 : Point3d.t -> Point3d.t -> option Guid.

Lemma plan_add_colored_line
      (AddLine : Point3d.t -> Point3d.t -> option Guid)
      (s e : Point3d.t) (color : list Z)
      (v : BatchProcess.Verdict) (st : BatchProcess.State) :
  Derived.plan (BatchProcess.add_colored_line AddLine s e color v st)
  = (fst (Derived.plan st) ++ [v], snd (Derived.plan st) ++ [CallAddLine s e]).
Proof.
  unfold Derived.plan, BatchProcess.add_colored_line, Spec.requests.
  destruct (AddLine s e); simpl; rewrite filter_app; reflexivity.
Qed.

Lemma annotate_plan (surf : Surface) (face : option FaceLike)
      (st1 st2 : BatchProcess.State) :
  Derived.plan st1 = Derived.plan st2 ->
  Derived.result_map Derived.plan
    (BatchProcess.annotate AddLine1 surf face st1)
  = Derived.result_map Derived.plan
      (BatchProcess.annotate AddLine2 surf face st2).
Proof.
  intros Hp.
  assert (Hn : forall v, Derived.plan (Spec.no_line v st1)
                         = Derived.plan (Spec.no_line v st2)).
  { intros v. unfold Derived.plan in *. simpl.
    injection Hp as -> ->. reflexivity. }
  destruct (fst (TryGetCone surf)) eqn:Hcone.
  - rewrite (annotate_cone AddLine1 surf face st1 Hcone).
    rewrite (annotate_cone AddLine2 surf face st2 Hcone).
    simpl. rewrite !plan_add_colored_line, Hp. reflexivity.
  - destruct (fst (TryGetCylinder surf)) eqn:Hcyl.
    + destruct face as [f|].
      * destruct (fl_Domain f) as [Domain|] eqn:Hd.
        -- rewrite (annotate_cylinder AddLine1 surf f st1 Hcone Hcyl Hd).
           rewrite (annotate_cylinder AddLine2 surf f st2 Hcone Hcyl Hd).
           simpl. rewrite !plan_add_colored_line, Hp. reflexivity.
        -- rewrite (annotate_cylinder_no_domain AddLine1 surf f st1
                      Hcone Hcyl Hd).
           rewrite (annotate_cylinder_no_domain AddLine2 surf f st2
                      Hcone Hcyl Hd).
           reflexivity.
      * rewrite (annotate_cylinder_no_face AddLine1 surf st1 Hcone Hcyl).
        rewrite (annotate_cylinder_no_face AddLine2 surf st2 Hcone Hcyl).
        simpl. f_equal. apply (Hn BatchProcess.CYLINDER).
    + rewrite (annotate_other AddLine1 surf face st1 Hcone Hcyl).
      rewrite (annotate_other AddLine2 surf face st2 Hcone Hcyl).
      simpl. f_equal. apply (Hn BatchProcess.OTHER_TYPE).
Qed.

Lemma process_plan (obj : DocObject) (st1 st2 : BatchProcess.State) :
  Derived.plan st1 = Derived.plan st2 ->
  Derived.result_map Derived.plan (BatchProcess.process AddLine1 obj st1)
  = Derived.result_map Derived.plan (BatchProcess.process AddLine2 obj st2).
Proof.
  intros Hp. unfold BatchProcess.process.
  destruct ((ObjectType obj =? 8)%Z || (ObjectType obj =? 16)%Z);
    [|simpl; f_equal; exact Hp].
  destruct (ObjectType obj =? 16)%Z.
  - destruct (coercebrep obj) as [[faces]|]; [|simpl; f_equal; exact Hp].
    destruct (Z.of_nat (List.length (Faces {| Faces := faces |})) >? 0)%Z;
      [|reflexivity].
    destruct faces as [|f fs]; [reflexivity|].
    unfold Faces_item. cbn [Faces nth_error bind].
    apply annotate_plan. exact Hp.
  - destruct (coercesurface obj) as [s|]; [|simpl; f_equal; exact Hp].
    apply annotate_plan. exact Hp.
Qed.

Lemma loop_plan (sel : list DocObject) :
  forall st1 st2 : BatchProcess.State,
    Derived.plan st1 = Derived.plan st2 ->
    Derived.result_map Derived.plan (BatchProcess.loop AddLine1 sel st1)
    = Derived.result_map Derived.plan (BatchProcess.loop AddLine2 sel st2).
Proof.
  induction sel as [|obj rest IH]; intros st1 st2 Hp.
  - simpl. f_equal. exact Hp.
  - cbn [BatchProcess.loop].
    pose proof (@process_plan obj st1 st2 Hp) as H.
    destruct (BatchProcess.process AddLine1 obj st1) as [a|e1];
      destruct (BatchProcess.process AddLine2 obj st2) as [b|e2];
      cbn [Derived.result_map] in H; try discriminate.
    + simpl. apply IH. congruence.
    + exact H.
Qed.

(** X15.  What script 04 asks for does not depend on the sink.  Under
    any two sinks the run over a selection fails alike or prints the
    same verdicts and asks for the same lines in the same order; the
    sink decides only which of them are coloured and counted. *)
Theorem batch_plan_independent_of_sink (sel : list DocObject) :
  Derived.result_map Derived.plan (BatchProcess.main AddLine1 sel)
  = Derived.result_map Derived.plan (BatchProcess.main AddLine2 sel).
Proof.
  apply loop_plan. reflexivity.
Qed.
End SinkIndependence.

(* ------------------------------------------------------------------ *)
(** ** Instances on the sample geometry *)

Section Instances.
Local Open Scope Z_scope.

(** A cylinder, then the cylinder without [Domain], then a cone: the run
    is abandoned at the second object. *)
Lemma batch_failure_witness :
  Derived.batch_item_fails
    (Samples.surface_object Derived.cylinder_without_domain)
  /\ BatchProcess.main Samples.accepting_sink
       [Samples.surface_object (Samples.cylinder_surface 1);
        Samples.surface_object Derived.cylinder_without_domain;
        Samples.surface_object Samples.cone_surface]
     = Raise AttributeError.
Proof.
  assert (Hbad : Derived.batch_item_fails
                   (Samples.surface_object Derived.cylinder_without_domain)).
  { right. split; [reflexivity|].
    exists Derived.cylinder_without_domain, (Samples.cylinder_PointAt 1).
    repeat split. }
  split; [exact Hbad|].
  destruct (batch_failure Samples.accepting_sink
              [Samples.surface_object (Samples.cylinder_surface 1);
               Samples.surface_object Derived.cylinder_without_domain;
               Samples.surface_object Samples.cone_surface])
    as (_ & _ & Habandon).
  apply (Habandon
           [Samples.surface_object (Samples.cylinder_surface 1)]
           (Samples.surface_object Derived.cylinder_without_domain)
           [Samples.surface_object Samples.cone_surface]
           eq_refl).
  - intros o [<-|[]] [(T & _)|(_ & s & pt & Hs & _ & HD & _)].
    + discriminate.
    + injection Hs as <-. discriminate.
  - exact Hbad.
Defined.

(** The four sample items under the sink that draws every line. *)
Lemma batch_calls_paired_witness :
  BatchProcess.main Samples.accepting_sink Samples.four_items
  = Ok {| BatchProcess.lines_created := 2;
          BatchProcess.printed :=
            [BatchProcess.CYLINDER; BatchProcess.OTHER_TYPE;
             BatchProcess.CONE; BatchProcess.OTHER_TYPE];
          BatchProcess.calls :=
            [CallAddLine (Point3d.new 0 0 0) (Point3d.new 0 0 10);
             CallObjectColor 7 [0; 255; 0];
             CallAddLine (Point3d.new 2 0 (-0.5)) (Point3d.new 2 0 4.5);
             CallObjectColor 7 [255; 0; 0]] |}
  /\ Derived.paired Samples.accepting_sink
       [CallAddLine (Point3d.new 0 0 0) (Point3d.new 0 0 10);
        CallObjectColor 7 [0; 255; 0];
        CallAddLine (Point3d.new 2 0 (-0.5)) (Point3d.new 2 0 4.5);
        CallObjectColor 7 [255; 0; 0]].
Proof.
  assert (Hrun :
            BatchProcess.main Samples.accepting_sink Samples.four_items
            = Ok {| BatchProcess.lines_created := 2;
                    BatchProcess.printed :=
                      [BatchProcess.CYLINDER; BatchProcess.OTHER_TYPE;
                       BatchProcess.CONE; BatchProcess.OTHER_TYPE];
                    BatchProcess.calls :=
                      [CallAddLine (Point3d.new 0 0 0) (Point3d.new 0 0 10);
                       CallObjectColor 7 [0; 255; 0];
                       CallAddLine (Point3d.new 2 0 (-0.5))
                                   (Point3d.new 2 0 4.5);
                       CallObjectColor 7 [255; 0; 0]] |})
    by (vm_compute; reflexivity).
  split; [exact Hrun|].
  exact (proj1 (@batch_calls_paired Samples.accepting_sink
                  Samples.four_items _ Hrun)).
Defined.

(** A curve between a cylinder and a plane is passed over: two
    verdicts for three selected objects. *)
Lemma batch_skips_unresolved_witness :
  Derived.resolves Derived.curve_object = false
  /\ exists st,
      BatchProcess.main Samples.accepting_sink
        [Samples.surface_object (Samples.cylinder_surface 1);
         Derived.curve_object;
         Samples.surface_object Samples.plane_surface]
      = Ok st
      /\ List.length (BatchProcess.printed st) = 2%nat
      /\ BatchProcess.lines_created st <= 2.
Proof.
  split; [reflexivity|].
  destruct (loop_succeeds Samples.accepting_sink
              [Samples.surface_object (Samples.cylinder_surface 1);
               Derived.curve_object;
               Samples.surface_object Samples.plane_surface])
    with (st := BatchProcess.initial) as (st & Hst).
  - intros o [<-|[<-|[<-|[]]]] [(T & _)|(T & s & pt & Hs & _ & HD & _)];
      try discriminate; injection Hs as <-; discriminate.
  - exists st. split; [exact Hst|].
    exact (proj2 (batch_skips_unresolved Samples.accepting_sink
                    [Samples.surface_object (Samples.cylinder_surface 1);
                     Derived.curve_object;
                     Samples.surface_object Samples.plane_surface])
                 st Hst).
Defined.
End Instances.

(* ------------------------------------------------------------------ *)
(** ** Script 03 to its last line *)

Section WholeScript03.
Variable AddLine : Point3d.t -> Point3d.t -> option Guid.
Variable power : float -> float -> option float.
Local Open Scope Z_scope.

(** The whole script is the script up to the colouring, followed by the
    length line. *)
Lemma create_line_whole_after (surf : Surface) (face : option FaceLike) :
  CreateLineCylinderWhole.create_line AddLine power surf face
  = match CreateLineCylinder.create_line AddLine surf face with
    | Ok calls => CreateLineCylinderWhole.after_calls power calls
    | Raise e => CreateLineCylinderWhole.Failed e
    end.
Proof.
  unfold CreateLineCylinderWhole.create_line, CreateLineCylinder.create_line.
  destruct (TryGetCylinder surf) as [is_cyl cyl].
  destruct face as [f|]; [|reflexivity].
  destruct is_cyl; [|reflexivity].
  destruct (fl_Domain f) as [Domain|]; [|reflexivity].
  cbv zeta. cbn [getattr bind].
  destruct (AddLine _ _); reflexivity.
Qed.

Lemma main_whole_after (sel : list DocObject) :
  CreateLineCylinderWhole.main AddLine power sel
  = match CreateLineCylinder.main AddLine sel with
    | Ok calls => CreateLineCylinderWhole.after_calls power calls
    | Raise e => CreateLineCylinderWhole.Failed e
    end.
Proof.
  destruct sel as [|obj rest]; [reflexivity|].
  unfold CreateLineCylinderWhole.main, CreateLineCylinder.main.
  destruct (ObjectType obj =? 16).
  - destruct (coercebrep obj) as [geo|]; [|reflexivity].
    destruct (Faces_item geo 0) as [face|e]; [|reflexivity].
    cbn [bind]. apply create_line_whole_after.
  - destruct (coercesurface obj) as [geo|]; [|reflexivity].
    apply create_line_whole_after.
Qed.

(** The three shapes of the sink calls, and what follows each. *)
Lemma after_calls_nil :
  CreateLineCylinderWhole.after_calls power []
  = CreateLineCylinderWhole.Finished [] None.
Proof. reflexivity. Qed.

Lemma after_calls_green_line (s e : Point3d.t) :
  CreateLineCylinderWhole.after_calls power (Spec.green_line AddLine s e)
  = match AddLine s e with
    | Some ln =>
        match CreateLineCylinderWhole.line_length power s e with
        | Some len =>
            CreateLineCylinderWhole.Finished
              [CallAddLine s e; CallObjectColor ln [0; 255; 0]] (Some len)
        | None =>
            CreateLineCylinderWhole.FailedInLength
              [CallAddLine s e; CallObjectColor ln [0; 255; 0]]
        end
    | None => CreateLineCylinderWhole.Finished [CallAddLine s e] None
    end.
Proof.
  unfold Spec.green_line. destruct (AddLine s e); reflexivity.
Qed.

Lemma calls_of_after_calls (calls : list SinkCall) :
  CreateLineCylinderWhole.calls_of
    (CreateLineCylinderWhole.after_calls power calls)
  = Ok calls.
Proof.
  unfold CreateLineCylinderWhole.after_calls.
  destruct calls as [|[s e|ln c] [|[s' e'|ln' c'] [|x t]]]; try reflexivity.
  destruct (CreateLineCylinderWhole.line_length power s e); reflexivity.
Qed.

(** Forgetting the length line gives back the script up to the
    colouring. *)
Lemma calls_of_main_whole (sel : list DocObject) :
  CreateLineCylinderWhole.calls_of
    (CreateLineCylinderWhole.main AddLine power sel)
  = CreateLineCylinder.main AddLine sel.
Proof.
  rewrite main_whole_after.
  destruct (CreateLineCylinder.main AddLine sel) as [calls|e];
    [apply calls_of_after_calls|reflexivity].
Qed.

Lemma line_length_fails (s e : Point3d.t) :
  CreateLineCylinderWhole.line_length power s e = None
  <-> power (Point3d.X e - Point3d.X s)%float 2%float = None
      \/ power (Point3d.Y e - Point3d.Y s)%float 2%float = None
      \/ power (Point3d.Z e - Point3d.Z s)%float 2%float = None
      \/ exists dx2 dy2 dz2,
          power (Point3d.X e - Point3d.X s)%float 2%float = Some dx2
          /\ power (Point3d.Y e - Point3d.Y s)%float 2%float = Some dy2
          /\ power (Point3d.Z e - Point3d.Z s)%float 2%float = Some dz2
          /\ power (dx2 + dy2 + dz2)%float 0.5%float = None.
Proof.
  unfold CreateLineCylinderWhole.line_length.
  destruct (power (Point3d.X e - Point3d.X s)%float 2%float) as [dx2|].
  2:{ split; [intros _; left; reflexivity|reflexivity]. }
  destruct (power (Point3d.Y e - Point3d.Y s)%float 2%float) as [dy2|].
  2:{ split; [intros _; right; left; reflexivity|reflexivity]. }
  destruct (power (Point3d.Z e - Point3d.Z s)%float 2%float) as [dz2|].
  2:{ split; [intros _; right; right; left; reflexivity|reflexivity]. }
  split.
  - intros H. right. right. right. exists dx2, dy2, dz2. repeat split.
    exact H.
  - intros [H|[H|[H|(a & b & c & Ha & Hb & Hc & H)]]]; try discriminate.
    injection Ha as <-. injection Hb as <-. injection Hc as <-. exact H.
Qed.

(** X9.  How script 03 ends.  It looks at the first selected object
    only, and it ends in one of three ways.  It fails before it asks
    anything of the sink in two cases: with an index error on an object
    of type 16 that resolves to a Brep without faces, and with an
    attribute error on an object of another type whose surface passes
    the cylinder fit and has [PointAt] but no [Domain].  It fails after
    the line was drawn and coloured green exactly when the sink handed
    the line back and one of the four [**] of the length formula raises.
    Otherwise it runs to its last line, having asked for nothing, or for
    one line the sink refused, or for one line that it coloured green
    and whose length it printed. *)
Theorem script03_outcome (sel : list DocObject) :
  (forall obj rest rest',
      CreateLineCylinderWhole.main AddLine power (obj :: rest)
      = CreateLineCylinderWhole.main AddLine power (obj :: rest'))
  /\ (forall e,
         CreateLineCylinderWhole.main AddLine power sel
         = CreateLineCylinderWhole.Failed e
         <-> exists obj rest,
             sel = obj :: rest
             /\ ((ObjectType obj = 16 /\ e = IndexError
                  /\ exists geo, coercebrep obj = Some geo /\ Faces geo = [])
                 \/ (ObjectType obj <> 16 /\ e = AttributeError
                     /\ exists s pt,
                         coercesurface obj = Some s /\ PointAt s = Some pt
                         /\ Domain s = None
                         /\ fst (TryGetCylinder s) = true)))
  /\ (forall calls,
         CreateLineCylinderWhole.main AddLine power sel
         = CreateLineCylinderWhole.FailedInLength calls
         <-> exists s e ln,
             CreateLineCylinder.main AddLine sel = Ok calls
             /\ calls = [CallAddLine s e; CallObjectColor ln [0; 255; 0]]
             /\ AddLine s e = Some ln
             /\ CreateLineCylinderWhole.line_length power s e = None)
  /\ (forall calls len,
         CreateLineCylinderWhole.main AddLine power sel
         = CreateLineCylinderWhole.Finished calls len ->
         (calls = [] /\ len = None)
         \/ (exists s e,
                calls = [CallAddLine s e] /\ AddLine s e = None
                /\ len = None)
         \/ (exists s e ln l,
                calls = [CallAddLine s e; CallObjectColor ln [0; 255; 0]]
                /\ AddLine s e = Some ln
                /\ CreateLineCylinderWhole.line_length power s e = Some l
                /\ len = Some l))
  /\ (forall s e,
         CreateLineCylinderWhole.line_length power s e = None
         <-> power (Point3d.X e - Point3d.X s)%float 2%float = None
             \/ power (Point3d.Y e - Point3d.Y s)%float 2%float = None
             \/ power (Point3d.Z e - Point3d.Z s)%float 2%float = None
             \/ exists dx2 dy2 dz2,
                 power (Point3d.X e - Point3d.X s)%float 2%float = Some dx2
                 /\ power (Point3d.Y e - Point3d.Y s)%float 2%float = Some dy2
                 /\ power (Point3d.Z e - Point3d.Z s)%float 2%float = Some dz2
                 /\ power (dx2 + dy2 + dz2)%float 0.5%float = None).
Proof.
  destruct (create_line_outcome AddLine sel) as (_ & Hraise & Hshape).
  split; [reflexivity|].
  (* what the run up to the colouring says about the whole run *)
  assert (Hwhole :
            forall calls0,
              CreateLineCylinder.main AddLine sel = Ok calls0 ->
              (calls0 = []
               /\ CreateLineCylinderWhole.main AddLine power sel
                  = CreateLineCylinderWhole.Finished [] None)
              \/ (exists s e,
                     calls0 = [CallAddLine s e] /\ AddLine s e = None
                     /\ CreateLineCylinderWhole.main AddLine power sel
                        = CreateLineCylinderWhole.Finished calls0 None)
              \/ (exists s e ln,
                     calls0 = [CallAddLine s e; CallObjectColor ln [0; 255; 0]]
                     /\ AddLine s e = Some ln
                     /\ CreateLineCylinderWhole.main AddLine power sel
                        = match CreateLineCylinderWhole.line_length power s e
                          with
                          | Some l =>
                              CreateLineCylinderWhole.Finished calls0 (Some l)
                          | None =>
                              CreateLineCylinderWhole.FailedInLength calls0
                          end)).
  { intros calls0 H0. rewrite main_whole_after, H0.
    destruct (Hshape calls0 H0) as [->|(s & e & ->)].
    - left. split; reflexivity.
    - rewrite after_calls_green_line. unfold Spec.green_line.
      destruct (AddLine s e) as [ln|] eqn:E.
      + right. right. exists s, e, ln. repeat split. exact E.
      + right. left. exists s, e. repeat split. exact E. }
  split; [|split; [|split; [|apply line_length_fails]]].
  - intros e. rewrite <- Hraise. rewrite main_whole_after. split.
    + destruct (CreateLineCylinder.main AddLine sel) as [calls0|e0] eqn:H0.
      * intros H. exfalso.
        pose proof (calls_of_after_calls calls0) as K. rewrite H in K.
        discriminate.
      * intros H. injection H as <-. reflexivity.
    + intros ->. reflexivity.
  - intros calls. split.
    + intros H.
      destruct (CreateLineCylinder.main AddLine sel) as [calls0|e0] eqn:H0.
      * destruct (Hwhole calls0 eq_refl)
          as [(-> & K)|[(s & e & -> & _ & K)|(s & e & ln & -> & Hln & K)]];
          rewrite K in H; try discriminate.
        destruct (CreateLineCylinderWhole.line_length power s e) eqn:L;
          [discriminate|].
        injection H as <-. exists s, e, ln. repeat split; assumption.
      * rewrite main_whole_after, H0 in H. discriminate.
    + intros (s & e & ln & H0 & -> & Hln & L).
      rewrite main_whole_after, H0.
      unfold CreateLineCylinderWhole.after_calls. rewrite L. reflexivity.
  - intros calls len H.
    destruct (CreateLineCylinder.main AddLine sel) as [calls0|e0] eqn:H0.
    + destruct (Hwhole calls0 eq_refl)
        as [(-> & K)|[(s & e & -> & Hno & K)|(s & e & ln & -> & Hln & K)]];
        rewrite K in H.
      * injection H as <- <-. left. split; reflexivity.
      * injection H as <- <-. right. left. exists s, e. repeat split.
        exact Hno.
      * destruct (CreateLineCylinderWhole.line_length power s e) as [l|] eqn:L;
          [|discriminate].
        injection H as <- <-. right. right. exists s, e, ln, l.
        repeat split; assumption.
    + rewrite main_whole_after, H0 in H. discriminate.
Qed.

(** X14.  Scripts 03 and 04 on one object.  For an object of type 8, or
    of type 16 with at least one face, whose surface does not pass the
    cone fit, script 03 and script 04 run on that object alone make the
    same sink calls, or fail alike before they reach the sink.  Script
    03 may still fail afterwards, in its length line, which script 04
    does not have. *)
Theorem single_object_sink_calls_agree
        (obj : DocObject) (others : list DocObject) :
  ObjectType obj = 8
  \/ (ObjectType obj = 16
      /\ forall geo, coercebrep obj = Some geo -> Faces geo <> []) ->
  (forall s, Derived.first_surface obj = Some s ->
             fst (TryGetCone s) = false) ->
  CreateLineCylinderWhole.calls_of
    (CreateLineCylinderWhole.main AddLine power (obj :: others))
  = Derived.result_map BatchProcess.calls (BatchProcess.main AddLine [obj]).
Proof.
  intros Ht Hcone. rewrite calls_of_main_whole.
  apply single_object_scripts_agree; assumption.
Qed.
End WholeScript03.

(** The cylinder with [PointAt] and without [Domain] makes script 03
    fail before the sink; the cylinder of height 2^600, drawn and
    coloured, makes it fail in the square of the length line; the
    cylinder of height 10 is drawn, coloured and measured. *)
Lemma script03_outcome_witness :
  CreateLineCylinderWhole.main Samples.accepting_sink
    CreateLineCylinderWhole.sample_power
    [Samples.surface_object Derived.cylinder_without_domain]
  = CreateLineCylinderWhole.Failed AttributeError
  /\ CreateLineCylinderWhole.main Samples.accepting_sink
       CreateLineCylinderWhole.sample_power
       [Samples.surface_object CreateLineCylinderWhole.long_cylinder_surface]
     = CreateLineCylinderWhole.FailedInLength
         [CallAddLine (Point3d.new 0 0 0) (Point3d.new 0 0 0x1p600);
          CallObjectColor 7%Z [0; 255; 0]%Z]
  /\ CreateLineCylinderWhole.main Samples.accepting_sink
       CreateLineCylinderWhole.sample_power
       [Samples.surface_object (Samples.cylinder_surface 1)]
     = CreateLineCylinderWhole.Finished
         [CallAddLine (Point3d.new 0 0 0) (Point3d.new 0 0 10);
          CallObjectColor 7%Z [0; 255; 0]%Z]
         (Some 10%float).
Proof.
  split; [|split].
  - apply (proj1 (proj2 (script03_outcome
                           Samples.accepting_sink
                           CreateLineCylinderWhole.sample_power
                           [Samples.surface_object
                              Derived.cylinder_without_domain]))).
    exists (Samples.surface_object Derived.cylinder_without_domain), [].
    split; [reflexivity|]. right. split; [discriminate|].
    split; [reflexivity|].
    exists Derived.cylinder_without_domain, (Samples.cylinder_PointAt 1).
    repeat split.
  - apply (proj1 (proj2 (proj2 (script03_outcome
                                  Samples.accepting_sink
                                  CreateLineCylinderWhole.sample_power
                                  [Samples.surface_object
                                     CreateLineCylinderWhole.long_cylinder_surface])))).
    exists (Point3d.new 0 0 0), (Point3d.new 0 0 0x1p600), 7%Z.
    repeat split.
  - reflexivity.
Defined.

(** The cylinder of height 2^600 selected alone: script 03 fails in its
    length line and script 04 runs to its end, and both have asked for
    the same line and coloured it green. *)
Lemma single_object_sink_calls_agree_witness :
  ObjectType
    (Samples.surface_object CreateLineCylinderWhole.long_cylinder_surface)
  = 8%Z
  /\ CreateLineCylinderWhole.main Samples.accepting_sink
       CreateLineCylinderWhole.sample_power
       [Samples.surface_object CreateLineCylinderWhole.long_cylinder_surface]
     = CreateLineCylinderWhole.FailedInLength
         [CallAddLine (Point3d.new 0 0 0) (Point3d.new 0 0 0x1p600);
          CallObjectColor 7%Z [0; 255; 0]%Z]
  /\ CreateLineCylinderWhole.calls_of
       (CreateLineCylinderWhole.main Samples.accepting_sink
          CreateLineCylinderWhole.sample_power
          [Samples.surface_object
             CreateLineCylinderWhole.long_cylinder_surface])
     = Derived.result_map BatchProcess.calls
         (BatchProcess.main Samples.accepting_sink
            [Samples.surface_object
               CreateLineCylinderWhole.long_cylinder_surface]).
Proof.
  split; [reflexivity|]. split; [reflexivity|].
  apply (@single_object_sink_calls_agree
           Samples.accepting_sink CreateLineCylinderWhole.sample_power
           (Samples.surface_object
              CreateLineCylinderWhole.long_cylinder_surface) []).
  - left. reflexivity.
  - intros s H. injection H as <-. reflexivity.
Defined.
